(** * Strategy API server: the tick pipeline

    A shallow embedding of [validators.py], [ai.py], [business.py] and the
    [/tick] route of [app.py], and the properties of the tick pipeline
    proved over it.

    Conventions of the embedding.
    - A decoded JSON document is a value of [json]; a Python [dict] with
      string keys is an association list in insertion order, read with
      first-match lookup.
    - Python floats are kept abstract: the interface [PyNum] lists the float
      operations the program performs ([+], [-], [*], [round(_, 4)],
      [float(_)], [int(_)]); every theorem holds for any implementation of
      it.  The instance [QNum] computes with exact rationals and is used to
      evaluate the program on concrete payloads whose numbers are exactly
      representable.
    - A raised exception is a value of [exn]; code that touches the two
      JSON files or the network runs in the monad [M], which threads the
      [world] and keeps the writes made before an exception. *)

From Stdlib Require Import ZArith QArith List String Ascii Bool Lia.
From Stdlib Require Import DecimalString.
Import ListNotations.

Local Open Scope string_scope.
Local Open Scope Z_scope.

(** ** Exceptions *)

(** The exception classes the pipeline can raise.  All of them derive from
    Python's [Exception], which is what the [except Exception] clauses of
    the program catch. *)
Inductive exn : Type :=
| TypeError
| ValueError
| KeyError
| IndexError
| AttributeError
| OverflowError
| RequestException (detail : string)
| OpenAIError (detail : string).

(** A computation that returns or raises. *)
Definition res (A : Type) : Type := (exn + A)%type.

Definition rbind {A B : Type} (r : res A) (k : A -> res B) : res B :=
  match r with
  | inl e => inl e
  | inr a => k a
  end.

Declare Scope res_scope.
Delimit Scope res_scope with res.
Notation "x <- r ;; k" := (rbind r (fun x => k))
  (at level 61, r at next level, right associativity) : res_scope.
Notation "' p <- r ;; k" := (rbind r (fun v => let p := v in k))
  (at level 61, p pattern, r at next level, right associativity) : res_scope.

(** ** Python numbers *)

(** The exact value of a float, as dictionary hashing and [==] see it.  A
    NaN has no such value. *)
Inductive xval : Type :=
| Finite (q : Q)
| PosInf
| NegInf.

(** The float operations of the Python runtime that the program uses. *)
Class PyNum (F : Type) : Type := {
  (** the literal [0.0] *)
  F0 : F;
  Fadd : F -> F -> F;
  Fsub : F -> F -> F;
  Fmul : F -> F -> F;
  (** [round(x, 4)] *)
  Fround4 : F -> F;
  (** [float(n)] for an [int]; raises [OverflowError] on huge integers *)
  Fof_Z : Z -> res F;
  (** [float(s)] for a [str] *)
  Fparse : string -> res F;
  (** [int(x)] for a float: truncation toward zero; raises on NaN and
      infinities *)
  Ftrunc : F -> res Z;
  (** [int(s)] for a [str] *)
  Zparse : string -> res Z;
  (** the exact value of a float; [None] for a NaN *)
  Fexact : F -> option xval
}.

(** ** JSON values *)

#[warnings="-register-all"]
Inductive json {F : Type} : Type :=
| JNull
| JBool (b : bool)
| JInt (z : Z)
| JFloat (f : F)
| JStr (s : string)
| JList (l : list json)
| JObj (o : list (string * json)).
Arguments json : clear implicits.

(** A Python [dict] with [str] keys. *)
Definition dict (F : Type) : Type := list (string * json F).

(** ** The Python primitives the program uses *)

Section Python.
Context {F : Type} `{PyNum F}.

Local Open Scope res_scope.

(** [key in d] *)
Fixpoint dict_mem (key : string) (d : dict F) : bool :=
  match d with
  | [] => false
  | (k, _) :: rest => if String.eqb k key then true else dict_mem key rest
  end.

(** [d.get(key)], as an option *)
Fixpoint dict_lookup (key : string) (d : dict F) : option (json F) :=
  match d with
  | [] => None
  | (k, v) :: rest => if String.eqb k key then Some v else dict_lookup key rest
  end.

(** [d[key] = v]: an existing key keeps its place, a new one goes last *)
Fixpoint dict_set (key : string) (v : json F) (d : dict F) : dict F :=
  match d with
  | [] => [(key, v)]
  | (k, w) :: rest =>
      if String.eqb k key then (k, v) :: rest else (k, w) :: dict_set key v rest
  end.

(** [d.setdefault(key, v)] *)
Definition dict_setdefault (key : string) (v : json F) (d : dict F) : dict F :=
  if dict_mem key d then d else dict_set key v d.

(** [x.get(key, default)]: only a [dict] has the method *)
Definition py_get (x : json F) (key : string) (default : json F) : res (json F) :=
  match x with
  | JObj d =>
      match dict_lookup key d with
      | Some v => inr v
      | None => inr default
      end
  | _ => inl AttributeError
  end.

(** [d[key]] *)
Definition dict_getitem (d : dict F) (key : string) : res (json F) :=
  match dict_lookup key d with
  | Some v => inr v
  | None => inl KeyError
  end.

(** [x[key]] for a [str] subscript: a list or a string wants an integer
    index, the other values are not subscriptable *)
Definition py_getitem (x : json F) (key : string) : res (json F) :=
  match x with
  | JObj d => dict_getitem d key
  | _ => inl TypeError
  end.

Fixpoint chars (s : string) : list (json F) :=
  match s with
  | EmptyString => []
  | String c rest => JStr (String c EmptyString) :: chars rest
  end.

(** [for x in v]: the elements of a list, the keys of a dict, the
    characters of a string; anything else is not iterable *)
Definition py_iter (v : json F) : res (list (json F)) :=
  match v with
  | JList l => inr l
  | JObj d => inr (map (fun kv => JStr (fst kv)) d)
  | JStr s => inr (chars s)
  | _ => inl TypeError
  end.

(** [float(v)] *)
Definition py_float (v : json F) : res F :=
  match v with
  | JBool b => Fof_Z (if b then 1 else 0)
  | JInt z => Fof_Z z
  | JFloat f => inr f
  | JStr s => Fparse s
  | _ => inl TypeError
  end.

(** [int(v)] *)
Definition py_int (v : json F) : res Z :=
  match v with
  | JBool b => inr (if b then 1 else 0)
  | JInt z => inr z
  | JFloat f => Ftrunc f
  | JStr s => Zparse s
  | _ => inl TypeError
  end.

(** [bool(v)] *)
Definition py_truthy (v : json F) : bool :=
  match v with
  | JNull => false
  | JBool b => b
  | JInt z => negb (z =? 0)
  | JFloat f =>
      match Fexact f with
      | Some (Finite q) => negb (Qeq_bool q 0)
      | _ => true
      end
  | JStr s => negb (String.eqb s "")
  | JList l => match l with [] => false | _ => true end
  | JObj d => match d with [] => false | _ => true end
  end.

(** *** Hashable keys *)

(** What a hashable JSON scalar is as a dictionary key.  Python compares
    [bool], [int] and [float] keys by their exact value ([True == 1 == 1.0]).
    A NaN equals nothing under [==], itself included, but the JSON decoder
    returns one and the same float object for every [NaN] token it reads,
    and a dictionary finds a key by identity before it tries [==]: the NaN
    tickers of the decoded documents are one key. *)
Inductive pykey : Type :=
| KNone
| KNum (x : xval)
| KNaN
| KStr (s : string).

Definition xval_eqb (a b : xval) : bool :=
  match a, b with
  | Finite p, Finite q => Qeq_bool p q
  | PosInf, PosInf => true
  | NegInf, NegInf => true
  | _, _ => false
  end.

Definition key_eqb (a b : pykey) : bool :=
  match a, b with
  | KNone, KNone => true
  | KNum x, KNum y => xval_eqb x y
  | KNaN, KNaN => true
  | KStr s, KStr t => String.eqb s t
  | _, _ => false
  end.

(** [hash(v)]: lists and dicts are unhashable *)
Definition py_hash (v : json F) : res pykey :=
  match v with
  | JNull => inr KNone
  | JBool b => inr (KNum (Finite (inject_Z (if b then 1 else 0))))
  | JInt z => inr (KNum (Finite (inject_Z z)))
  | JFloat f =>
      match Fexact f with
      | Some x => inr (KNum x)
      | None => inr KNaN
      end
  | JStr s => inr (KStr s)
  | JList _ | JObj _ => inl TypeError
  end.

(** The dictionary [price_by_ticker]: hashable keys to floats. *)
Definition prices : Type := list (pykey * F).

(** [d[k] = v] *)
Fixpoint prices_set (k : pykey) (v : F) (d : prices) : prices :=
  match d with
  | [] => [(k, v)]
  | (k', w) :: rest =>
      if key_eqb k' k then (k', v) :: rest else (k', w) :: prices_set k v rest
  end.

(** [d.get(k)] *)
Fixpoint prices_get (k : pykey) (d : prices) : option F :=
  match d with
  | [] => None
  | (k', w) :: rest => if key_eqb k' k then Some w else prices_get k rest
  end.

(** [v == n] for an [int] literal [n] *)
Definition py_eq_int (v : json F) (n : Z) : bool :=
  match py_hash v with
  | inr (KNum x) => xval_eqb x (Finite (inject_Z n))
  | _ => false
  end.

End Python.

(** ** validators.py *)

Section Validators.
Context {F : Type} `{PyNum F}.

Local Open Scope res_scope.

Definition is_dict (v : json F) : bool :=
  match v with JObj _ => true | _ => false end.

Definition is_list (v : json F) : bool :=
  match v with JList _ => true | _ => false end.

Definition is_str (v : json F) : bool :=
  match v with JStr _ => true | _ => false end.

(** [f"{idx}"] for a loop index *)
Definition str_of_nat (n : nat) : string :=
  NilEmpty.string_of_uint (Nat.to_uint n).

(** A loop that may [return] from the enclosing function: [Some r] when an
    iteration returned [r], [None] when the loop ran to its end. *)
Definition early (A : Type) : Type := res (option A).

(** The loop over [required_lists] (lines 21-25); [payload] is a [dict]
    here. *)
Fixpoint required_lists_loop (payload : dict F) (keys : list string)
  : early (bool * string) :=
  match keys with
  | [] => inr None
  | key :: rest =>
      if negb (dict_mem key payload)
      then inr (Some (false, "Missing required field: " ++ key))
      else
        v <- dict_getitem payload key ;;
        if negb (is_list v)
        then inr (Some (false, key ++ " must be a list"))
        else required_lists_loop payload rest
  end.

(** The inner loop [for field in (...): if field not in row: return ...]. *)
Fixpoint fields_loop (name : string) (idx : nat) (row : dict F)
    (fields : list string) : option (bool * string) :=
  match fields with
  | [] => None
  | field :: rest =>
      if negb (dict_mem field row)
      then Some (false, name ++ "[" ++ str_of_nat idx ++ "] missing '" ++ field ++ "'")
      else fields_loop name idx row rest
  end.

(** The loops over [enumerate(payload["Positions"])] (lines 28-33) and
    [enumerate(payload["Market_Summary"])] (lines 36-41): the two differ in
    the name of the list and in the required fields only. *)
Fixpoint rows_loop (name : string) (fields : list string)
    (rows : list (json F)) (idx : nat) : option (bool * string) :=
  match rows with
  | [] => None
  | row :: rest =>
      match row with
      | JObj d =>
          match fields_loop name idx d fields with
          | Some r => Some r
          | None => rows_loop name fields rest (S idx)
          end
      | _ => Some (false, name ++ "[" ++ str_of_nat idx ++ "] must be an object")
      end
  end.

(** The loop over [enumerate(payload["market_history"])] (lines 44-52),
    which also wants [row["day"]] to be a [str]. *)
Fixpoint history_loop (rows : list (json F)) (idx : nat) : early (bool * string) :=
  match rows with
  | [] => inr None
  | row :: rest =>
      match row with
      | JObj d =>
          match fields_loop "market_history" idx d ["ticker"; "price"; "day"] with
          | Some r => inr (Some r)
          | None =>
              day <- dict_getitem d "day" ;;
              if negb (is_str day)
              then inr (Some (false, "market_history.day must be a date string"))
              else history_loop rest (S idx)
          end
      | _ => inr (Some (false, "market_history[" ++ str_of_nat idx ++ "] must be an object"))
      end
  end.

Definition validate_tick_payload (payload : json F) : res (bool * string) :=
  match payload with
  | JObj d =>
      r <- required_lists_loop d ["Positions"; "Market_Summary"; "market_history"] ;;
      match r with
      | Some out => inr out
      | None =>
          positions <- (v <- dict_getitem d "Positions" ;; py_iter v) ;;
          match rows_loop "Positions" ["ticker"; "quantity"; "purchase_price"] positions 0 with
          | Some out => inr out
          | None =>
              summary <- (v <- dict_getitem d "Market_Summary" ;; py_iter v) ;;
              match rows_loop "Market_Summary" ["ticker"; "current_price"; "category"] summary 0 with
              | Some out => inr out
              | None =>
                  history <- (v <- dict_getitem d "market_history" ;; py_iter v) ;;
                  r <- history_loop history 0 ;;
                  match r with
                  | Some out => inr out
                  | None => inr (true, "OK")
                  end
              end
          end
      end
  | _ => inr (false, "Payload must be a JSON object")
  end.

(** *** The rules as the specification lists them

    Each rule yields the reason of its failure, or [None] when it holds or
    does not apply.  [validate_spec] is the specification's reading: the
    rules in their stated order, the first failure decides. *)

Definition list_field (payload : json F) (key : string) : list (json F) :=
  match payload with
  | JObj d =>
      match dict_lookup key d with
      | Some (JList l) => l
      | _ => []
      end
  | _ => []
  end.

(** 1. Top-level value must be an object. *)
Definition rule_object (payload : json F) : option string :=
  if is_dict payload then None else Some "Payload must be a JSON object".

(** 2. Must contain [Positions], [Market_Summary], [market_history], each
    an array. *)
Definition key_is_array (payload : json F) (key : string) : option string :=
  match payload with
  | JObj d =>
      match dict_lookup key d with
      | None => Some ("Missing required field: " ++ key)
      | Some (JList _) => None
      | Some _ => Some (key ++ " must be a list")
      end
  | _ => None
  end.

Fixpoint first_failure {A : Type} (rules : list (A -> option string)) (a : A)
  : option string :=
  match rules with
  | [] => None
  | rule :: rest =>
      match rule a with
      | Some reason => Some reason
      | None => first_failure rest a
      end
  end.

Definition rule_required_arrays (payload : json F) : option string :=
  first_failure
    (map (fun key p => key_is_array p key) ["Positions"; "Market_Summary"; "market_history"])
    payload.

(** The first absent field of an element. *)
Definition missing_field (name : string) (idx : nat) (fields : list string)
    (d : dict F) : option string :=
  first_failure
    (map (fun field (d : dict F) =>
            match dict_lookup field d with
            | Some _ => None
            | None => Some (name ++ "[" ++ str_of_nat idx ++ "] missing '" ++ field ++ "'")
            end) fields) d.

(** The first element, in list order, that breaks [check]. *)
Fixpoint first_bad_element (check : nat -> json F -> option string)
    (rows : list (json F)) (idx : nat) : option string :=
  match rows with
  | [] => None
  | row :: rest =>
      match check idx row with
      | Some reason => Some reason
      | None => first_bad_element check rest (S idx)
      end
  end.

Definition element_has (name : string) (fields : list string) (idx : nat)
    (row : json F) : option string :=
  match row with
  | JObj d => missing_field name idx fields d
  | _ => Some (name ++ "[" ++ str_of_nat idx ++ "] must be an object")
  end.

(** 3. Each [Positions] element must be an object containing [ticker],
    [quantity], [purchase_price]. *)
Definition rule_positions (payload : json F) : option string :=
  first_bad_element (element_has "Positions" ["ticker"; "quantity"; "purchase_price"])
    (list_field payload "Positions") 0.

(** 4. Each [Market_Summary] element must contain [ticker], [current_price],
    [category]. *)
Definition rule_market_summary (payload : json F) : option string :=
  first_bad_element (element_has "Market_Summary" ["ticker"; "current_price"; "category"])
    (list_field payload "Market_Summary") 0.

(** 5. Each [market_history] element must contain [ticker], [price], [day],
    and [day] must be a string. *)
Definition history_element (idx : nat) (row : json F) : option string :=
  match element_has "market_history" ["ticker"; "price"; "day"] idx row with
  | Some reason => Some reason
  | None =>
      match row with
      | JObj d =>
          match dict_lookup "day" d with
          | Some (JStr _) => None
          | _ => Some "market_history.day must be a date string"
          end
      | _ => None
      end
  end.

Definition rule_market_history (payload : json F) : option string :=
  first_bad_element history_element (list_field payload "market_history") 0.

Definition validation_rules : list (json F -> option string) :=
  [rule_object; rule_required_arrays; rule_positions; rule_market_summary;
   rule_market_history].

(** The early [return False, reason] of a loop, for a rule's verdict. *)
Definition failed (reason : option string) : option (bool * string) :=
  option_map (pair false) reason.

(** An element with the required fields. *)
Definition has_fields (fields : list string) (row : json F) : Prop :=
  exists d, row = JObj d /\ Forall (fun field => dict_lookup field d <> None) fields.

Definition validate_spec (payload : json F) : bool * string :=
  match first_failure validation_rules payload with
  | Some reason => (false, reason)
  | None => (true, "OK")
  end.

End Validators.

(** ** ai.py *)

(** What the OpenAI SDK does when [get_trade_recommendations] uses it.  The
    call is made over the network; its outcome is an input of the model. *)
Record ToolCall (F : Type) : Type := {
  (** [json.loads(tool_call.arguments)], or what raised on the way *)
  arguments : res (json F)
}.
Arguments arguments {F} _.

Record ContentItem (F : Type) : Type := {
  (** [getattr(content_item, "tool_calls", []) or []] *)
  tool_calls : list (ToolCall F)
}.
Arguments tool_calls {F} _.

Record OutputItem (F : Type) : Type := {
  content : list (ContentItem F)
}.
Arguments content {F} _.

Record Response (F : Type) : Type := {
  output : list (OutputItem F)
}.
Arguments output {F} _.

Inductive assistant (F : Type) : Type :=
| ClientRaises (e : exn)          (** [OpenAI(api_key=API_KEY)] raises *)
| CreateRaises (e : exn)          (** [client.responses.create(...)] raises *)
| Responds (resp : Response F).   (** it returns [resp] *)
Arguments ClientRaises {F} e.
Arguments CreateRaises {F} e.
Arguments Responds {F} resp.

(** A piece of a line of the user message: literal text, or a value that an
    f-string or [str()] interpolates.  Rendering is left to the runtime. *)
Inductive fragment (F : Type) : Type :=
| Lit (s : string)
| Val (v : json F).
Arguments Lit {F} s.
Arguments Val {F} v.

Record message (F : Type) : Type := {
  role : string;
  (** the lines that ["\n".join(text)] joins *)
  content_lines : list (list (fragment F))
}.
Arguments role {F} _.
Arguments content_lines {F} _.

Section Ai.
Context {F : Type} `{PyNum F}.

Local Open Scope res_scope.

(** [try: body  except Exception: handler] *)
Definition try_except {A : Type} (body : res A) (handler : res A) : res A :=
  match body with
  | inl _ => handler
  | inr a => inr a
  end.

(** The first element of a sequence, [xs[0]]. *)
Definition first {A : Type} (xs : list A) : res A :=
  match xs with
  | [] => inl IndexError
  | x :: _ => inr x
  end.

Definition fallback_rationale : string :=
  "Fallback: STAY on all positions because AI was unavailable.".

Definition stay (ticker : json F) : json F :=
  JObj [("action", JStr "STAY"); ("ticker", ticker); ("quantity", JInt 0)].

(** The comprehension of [_fallback_trades]: the elements that are dicts
    with a ["ticker"] key, each turned into a STAY trade. *)
Fixpoint fallback_list (ps : list (json F)) : list (json F) :=
  match ps with
  | [] => []
  | p :: rest =>
      match p with
      | JObj d =>
          match dict_lookup "ticker" d with
          | Some t => stay t :: fallback_list rest
          | None => fallback_list rest
          end
      | _ => fallback_list rest
      end
  end.

Definition _fallback_trades (tick_payload : json F) : res (json F) :=
  positions <- py_get tick_payload "Positions" (JList []) ;;
  ps <- py_iter positions ;;
  inr (JObj [("trades", JList (fallback_list ps));
             ("rationale", JStr fallback_rationale)]).

(** The lines of the positions block. *)
Fixpoint position_lines (ps : list (json F)) : list (list (fragment F)) :=
  match ps with
  | [] => []
  | p :: rest =>
      match p with
      | JObj d =>
          let get k := match dict_lookup k d with Some v => v | None => JNull end in
          [Lit "- "; Val (get "ticker"); Lit ": "; Val (get "quantity"); Lit " shares"]
            :: position_lines rest
      | _ => position_lines rest
      end
  end.

Definition price_lines (prices : json F) : list (list (fragment F)) :=
  match prices with
  | JObj d => map (fun kv => [Lit "- "; Lit (fst kv); Lit ": "; Val (snd kv)]) d
  | _ => []
  end.

Definition _build_user_message (tick_payload : json F) : res (message F) :=
  positions <- py_get tick_payload "Positions" (JList []) ;;
  prices <- py_get tick_payload "Prices" (JObj []) ;;
  news <- py_get tick_payload "News" (JStr "") ;;
  ps <- py_iter positions ;;
  let text :=
    ([[Lit "Here is the current tick data."]; [Lit ""]; [Lit "Positions:"]]
     ++ position_lines ps
     ++ [[Lit ""]; [Lit "Prices:"]]
     ++ price_lines prices
     ++ (if py_truthy news
         then [[Lit ""]; [Lit "News / Sentiment:"]; [Val news]]
         else [])
     ++ [[Lit ""]; [Lit "Please propose a small set of trades using the tool."]])%list in
  inr {| role := "user"; content_lines := text |}.

(** [not API_KEY] *)
Definition no_credential (API_KEY : option string) : bool :=
  match API_KEY with
  | None => true
  | Some k => String.eqb k ""
  end.

(** The body of the [try] block once [client.responses.create] has
    returned [resp] (lines 153-177). *)
Definition read_response (resp : Response F) (tick_payload : json F) : res (json F) :=
  output_item <- first (output resp) ;;
  content_item <- first (content output_item) ;;
  match tool_calls content_item with
  | [] => _fallback_trades tick_payload
  | tool_call :: _ =>
      tool_args <- arguments tool_call ;;
      trades <- py_get tool_args "trades" (JList []) ;;
      rationale <- py_get tool_args "rationale" (JStr "No rationale provided.") ;;
      if negb (is_list trades) then _fallback_trades tick_payload
      else inr (JObj [("trades", trades); ("rationale", rationale)])
  end.

Definition get_trade_recommendations (API_KEY : option string)
    (ai : assistant F) (tick_payload : json F) : res (json F) :=
  if no_credential API_KEY then _fallback_trades tick_payload
  else
    match ai with
    | ClientRaises _ => _fallback_trades tick_payload
    | CreateRaises e =>
        user_msg <- _build_user_message tick_payload ;;
        try_except (inl e) (_fallback_trades tick_payload)
    | Responds resp =>
        user_msg <- _build_user_message tick_payload ;;
        try_except (read_response resp tick_payload) (_fallback_trades tick_payload)
    end.

End Ai.

(** ** business.py *)

(** The two JSON files next to the program. *)
Inductive path : Type := POSITIONS_FILE | TRADES_FILE.

(** What is on disk at a path: nothing, bytes that [json.load] rejects, or
    a JSON document.  [json.dump] followed by [json.load] gives back the
    document that was written. *)
Inductive file (F : Type) : Type :=
| Missing
| Undecodable
| Document (data : json F).
Arguments Missing {F}.
Arguments Undecodable {F}.
Arguments Document {F} data.

(** The steps of a tick that the properties speak about, in the order
    they happen. *)
Inductive event (F : Type) : Type :=
| Wrote (p : path) (data : list (json F))      (** [_write_json_list(p, data)] *)
| Consulted                                    (** [get_trade_recommendations] is called *)
| Posted (trade_id : string) (trades : json F). (** [requests.post] to [/make_trade] *)
Arguments Wrote {F} p data.
Arguments Consulted {F}.
Arguments Posted {F} trade_id trades.

Record world (F : Type) : Type := {
  positions_file : file F;
  trades_file : file F;
  trace : list (event F)
}.
Arguments positions_file {F} _.
Arguments trades_file {F} _.
Arguments trace {F} _.

(** What [requests.post] does: it raises (timeout, DNS, refused connection)
    or returns a response with a status code and a body. *)
Inductive http_outcome (F : Type) : Type :=
| PostRaises (e : exn)
| HttpResponse (status_code : Z) (body : option (json F)).
  (** [body]: what [r.json()] returns, [None] when it raises *)
Arguments PostRaises {F} e.
Arguments HttpResponse {F} status_code body.

(** Computations on the files and the network: the world is threaded
    through, and an exception keeps the world as it was when raised.
    Opening and writing the two files is taken to succeed. *)
Definition M (F A : Type) : Type := world F -> world F * res A.

Definition ret {F A : Type} (a : A) : M F A := fun w => (w, inr a).

Definition raise {F A : Type} (e : exn) : M F A := fun w => (w, inl e).

Definition bind {F A B : Type} (m : M F A) (k : A -> M F B) : M F B :=
  fun w =>
    match m w with
    | (w', inl e) => (w', inl e)
    | (w', inr a) => k a w'
    end.

(** A pure step that may raise. *)
Definition lift {F A : Type} (r : res A) : M F A := fun w => (w, r).

Declare Scope M_scope.
Delimit Scope M_scope with M.
Notation "x <- m ;; k" := (bind m (fun x => k))
  (at level 61, m at next level, right associativity) : M_scope.
Notation "' p <- m ;; k" := (bind m (fun v => let p := v in k))
  (at level 61, p pattern, m at next level, right associativity) : M_scope.
Notation "m ;;; k" := (bind m (fun _ => k))
  (at level 61, right associativity) : M_scope.

Definition read_file {F : Type} (p : path) (w : world F) : file F :=
  match p with
  | POSITIONS_FILE => positions_file w
  | TRADES_FILE => trades_file w
  end.

Definition emit {F : Type} (ev : event F) : M F unit :=
  fun w => ({| positions_file := positions_file w;
               trades_file := trades_file w;
               trace := trace w ++ [ev] |}, inr tt).

Definition store {F : Type} (p : path) (data : json F) : M F unit :=
  fun w =>
    match p with
    | POSITIONS_FILE =>
        ({| positions_file := Document data;
            trades_file := trades_file w;
            trace := trace w |}, inr tt)
    | TRADES_FILE =>
        ({| positions_file := positions_file w;
            trades_file := Document data;
            trace := trace w |}, inr tt)
    end.

Section Business.
Context {F : Type} `{PyNum F}.

(** [f"{n}"] for an [int] *)
Definition str_of_Z (n : Z) : string :=
  NilEmpty.string_of_int (Z.to_int n).

(** [_read_json_list]: whatever is wrong with the file, the answer is the
    empty list. *)
Definition read_list (f : file F) : list (json F) :=
  match f with
  | Document (JList l) => l
  | _ => []
  end.

Definition _read_json_list (p : path) : M F (list (json F)) :=
  fun w => (w, inr (read_list (read_file p w))).

Definition _write_json_list (p : path) (data : list (json F)) : M F unit :=
  (store p (JList data) ;;;
   emit (Wrote p data))%M.

(** The dict comprehension
    [{m["ticker"]: float(m["current_price"]) for m in market_summary}]:
    key, then value, then the store, row after row. *)
Fixpoint price_rows (rows : list (json F)) (d : prices) : res prices :=
  match rows with
  | [] => inr d
  | m :: rest =>
      (ticker <- py_getitem m "ticker" ;;
       current_price <- py_getitem m "current_price" ;;
       v <- py_float current_price ;;
       k <- py_hash ticker ;;
       price_rows rest (prices_set k v d))%res
  end.

Definition price_by_ticker (market_summary : json F) : res prices :=
  (rows <- py_iter market_summary ;;
   price_rows rows [])%res.

(** [d.get(ticker)] as the JSON value it is stored as *)
Definition current_price_of (d : prices) (k : pykey) : json F :=
  match prices_get k d with
  | Some c => JFloat c
  | None => JNull
  end.

(** The loop of [_build_positions_snapshot] (lines 36-48). *)
Fixpoint snapshot_loop (d : prices) (positions : list (json F))
    (snapshot : list (json F)) : res (list (json F)) :=
  match positions with
  | [] => inr snapshot
  | pos :: rest =>
      (ticker <- py_getitem pos "ticker" ;;
       quantity <- py_getitem pos "quantity" ;;
       qty <- py_int quantity ;;
       pp <- py_getitem pos "purchase_price" ;;
       purchase_price <- py_float pp ;;
       k <- py_hash ticker ;;
       snapshot_loop d rest
         (snapshot ++ [JObj [("ticker", ticker);
                             ("quantity", JInt qty);
                             ("purchase_price", JFloat purchase_price);
                             ("current_price", current_price_of d k)]]))%res
  end.

Definition _build_positions_snapshot (positions market_summary : json F)
  : res (list (json F)) :=
  (d <- price_by_ticker market_summary ;;
   ps <- py_iter positions ;;
   snapshot_loop d ps [])%res.

Definition trade_entry (trade_recs rationale : json F) : json F :=
  JObj [("ai_recommendations", trade_recs); ("rationale", rationale)].

Definition _append_trade_log (trade_recs rationale : json F) : M F unit :=
  (history <- _read_json_list TRADES_FILE ;;
   _write_json_list TRADES_FILE (history ++ [trade_entry trade_recs rationale]))%M.

(** [data[key] = v]: only a dict takes a [str] key *)
Definition py_setitem (data : json F) (key : string) (v : json F) : res (dict F) :=
  match data with
  | JObj d => inr (dict_set key v d)
  | _ => inl TypeError
  end.

Definition non_json_body (status_code : Z) : json F :=
  JObj [("error", JStr ("Non-JSON response from mothership (status "
                        ++ str_of_Z status_code ++ ")"))].

Definition _post_trades_to_mothership (http : http_outcome F)
    (trade_id : string) (trades : json F) : M F (dict F) :=
  (emit (Posted trade_id trades) ;;;
   match http with
   | PostRaises e => raise e
   | HttpResponse status_code body =>
       let data :=
         match body with
         | Some j => j
         | None => non_json_body status_code
         end in
       lift (py_setitem data "_http_status" (JInt status_code))
   end)%M.

(** The profit-and-loss loop of [analyze_tick] (lines 103-111). *)
Fixpoint pnl_loop (d : prices) (positions : list (json F))
    (evaluated : Z) (total_unrealized : F) : res (Z * F) :=
  match positions with
  | [] => inr (evaluated, total_unrealized)
  | pos :: rest =>
      (ticker <- py_getitem pos "ticker" ;;
       quantity <- py_getitem pos "quantity" ;;
       qty <- py_int quantity ;;
       pp <- py_getitem pos "purchase_price" ;;
       purchase_price <- py_float pp ;;
       k <- py_hash ticker ;;
       match prices_get k d with
       | Some current =>
           q <- Fof_Z qty ;;
           let pnl := Fmul (Fsub current purchase_price) q in
           pnl_loop d rest (evaluated + 1) (Fadd total_unrealized pnl)
       | None => pnl_loop d rest evaluated total_unrealized
       end)%res
  end.

(** The loop that rebuilds the snapshot from the returned positions
    (lines 134-141). *)
Fixpoint merged_loop (d : prices) (returned_positions : list (json F))
    (merged : list (json F)) : res (list (json F)) :=
  match returned_positions with
  | [] => inr merged
  | p :: rest =>
      (t <- py_getitem p "ticker" ;;
       k <- py_hash t ;;
       ticker <- py_getitem p "ticker" ;;
       quantity <- py_getitem p "quantity" ;;
       qty <- py_int quantity ;;
       pp <- py_getitem p "purchase_price" ;;
       purchase_price <- py_float pp ;;
       merged_loop d rest
         (merged ++ [JObj [("ticker", ticker);
                           ("quantity", JInt qty);
                           ("purchase_price", JFloat purchase_price);
                           ("current_price", current_price_of d k)]]))%res
  end.

(** The reconciliation branch (lines 129-142). *)
Definition reconcile (market_summary : json F) (mothership_resp : dict F) : M F unit :=
  let status := match dict_lookup "_http_status" mothership_resp with
                | Some v => v
                | None => JNull
                end in
  if py_eq_int status 200 && dict_mem "Positions" mothership_resp
  then
    (returned_positions <- lift (dict_getitem mothership_resp "Positions") ;;
     d <- lift (price_by_ticker market_summary) ;;
     ps <- lift (py_iter returned_positions) ;;
     merged <- lift (merged_loop d ps []) ;;
     _write_json_list POSITIONS_FILE merged)%M
  else ret tt.

(** The [result] dict (lines 144-152). *)
Definition tick_result (evaluated : Z) (total_unrealized : F) (trades : json F)
    (mothership_resp : dict F) : dict F :=
  [("summary", JObj [("positions_evaluated", JInt evaluated);
                     ("unrealized_pnl", JFloat (Fround4 total_unrealized))]);
   ("decisions", trades);
   ("mothership_response",
    JObj (filter (fun kv => negb (String.eqb (fst kv) "_http_status"))
                 mothership_resp));
   ("http_status_mothership",
    match dict_lookup "_http_status" mothership_resp with
    | Some v => v
    | None => JNull
    end)].

Definition analyze_tick (API_KEY : option string) (ai : assistant F)
    (http : http_outcome F) (payload : json F) (trade_id : string)
  : M F (dict F) :=
  (positions <- lift (py_get payload "Positions" (JList [])) ;;
   market_summary <- lift (py_get payload "Market_Summary" (JList [])) ;;
   d <- lift (price_by_ticker market_summary) ;;
   ps <- lift (py_iter positions) ;;
   '(evaluated, total_unrealized) <- lift (pnl_loop d ps 0 F0) ;;
   snapshot <- lift (_build_positions_snapshot positions market_summary) ;;
   _write_json_list POSITIONS_FILE snapshot ;;;
   emit Consulted ;;;
   ai_out <- lift (get_trade_recommendations API_KEY ai payload) ;;
   trades <- lift (py_get ai_out "trades" (JList [])) ;;
   rationale <- lift (py_get ai_out "rationale" (JStr "")) ;;
   _append_trade_log trades rationale ;;;
   mothership_resp <- _post_trades_to_mothership http trade_id trades ;;
   reconcile market_summary mothership_resp ;;;
   ret (tick_result evaluated total_unrealized trades mothership_resp))%M.

Definition load_dashboard_data : M F (list (json F) * list (json F)) :=
  (positions <- _read_json_list POSITIONS_FILE ;;
   trades <- _read_json_list TRADES_FILE ;;
   ret (positions, trades))%M.

End Business.

(** ** app.py: the [/tick/<trade_id>] route *)

Record request (F : Type) : Type := {
  (** [request.headers.get("apikey", "")] *)
  apikey : string;
  (** [request.is_json] *)
  is_json : bool;
  (** the value [request.get_json(silent=True)] returns: [None] for a body
      that does not decode.  The call catches [ValueError] only; a body on
      which it raises something else is not a request of this type. *)
  get_json : option (json F);
  trade_id : string
}.
Arguments apikey {F} _.
Arguments is_json {F} _.
Arguments get_json {F} _.
Arguments trade_id {F} _.

(** The responses of the route, by their [return] statement. *)
Inductive response (F : Type) : Type :=
| Unauthorized                     (** [unauthorized()], 401 *)
| BadRequest (message : string)    (** a failure with [message], 400 *)
| Success (result : dict F)        (** [jsonify(result)], 200 *)
| ProcessingError (e : exn)        (** "Processing error: {e}", 500 *)
| InternalServerError.             (** the 500 handler of the application *)
Arguments Unauthorized {F}.
Arguments BadRequest {F} message.
Arguments Success {F} result.
Arguments ProcessingError {F} e.
Arguments InternalServerError {F}.

Section App.
Context {F : Type} `{PyNum F}.

Definition status (r : response F) : Z :=
  match r with
  | Unauthorized => 401
  | BadRequest _ => 400
  | Success _ => 200
  | ProcessingError _ | InternalServerError => 500
  end.

(** The ["result"] field of the JSON body. *)
Definition result_field (r : response F) : option (json F) :=
  match r with
  | Success result => dict_lookup "result" result
  | _ => Some (JStr "failure")
  end.

(** The characters [str.strip()] removes. *)
Definition is_space (c : ascii) : bool :=
  let n := N_of_ascii c in
  (((9 <=? n) && (n <=? 13)) || ((28 <=? n) && (n <=? 32))
   || (n =? 133) || (n =? 160))%N.

Fixpoint lstrip (s : string) : string :=
  match s with
  | String c rest => if is_space c then lstrip rest else s
  | EmptyString => EmptyString
  end.

Fixpoint rstrip (s : string) : string :=
  match s with
  | EmptyString => EmptyString
  | String c rest =>
      match rstrip rest with
      | EmptyString => if is_space c then EmptyString else String c EmptyString
      | kept => String c kept
      end
  end.

Definition strip (s : string) : string := rstrip (lstrip s).

Definition require_apikey (API_KEY : string) (req : request F) : bool :=
  String.eqb (strip (apikey req)) API_KEY.

(** [app.tick].  [API_KEY] is the server's key ([config.API_KEY]),
    [AI_API_KEY] the assistant's ([ai.API_KEY]). *)
Definition tick (API_KEY : string) (AI_API_KEY : option string)
    (ai : assistant F) (http : http_outcome F) (req : request F)
  : world F -> world F * response F :=
  fun w =>
    if negb (require_apikey API_KEY req) then (w, Unauthorized)
    else if negb (is_json req)
    then (w, BadRequest "Invalid payload: Content-Type must be application/json")
    else
      match get_json req with
      | None => (w, BadRequest "Invalid payload: malformed JSON")
      | Some payload =>
          match validate_tick_payload payload with
          | inl _ => (w, InternalServerError)
          | inr (false, msg) => (w, BadRequest msg)
          | inr (true, _) =>
              match analyze_tick AI_API_KEY ai http payload (trade_id req) w with
              | (w', inr result) =>
                  let result := dict_setdefault "result" (JStr "success") result in
                  let result :=
                    dict_setdefault "summary"
                      (JObj [("positions_evaluated", JInt 0);
                             ("unrealized_pnl", JFloat F0)]) result in
                  let result := dict_setdefault "decisions" (JList []) result in
                  (w', Success result)
              | (w', inl e) => (w', ProcessingError e)
              end
          end
      end.

End App.

(** ** The stages of a tick

    [analyze_tick] computes three things before it submits the trades: the
    summary, the snapshot and the assistant's advice.  They are named here
    so that the theorems can speak of a tick that passes them. *)

Section Stages.
Context {F : Type} `{PyNum F}.

Local Open Scope res_scope.

(** Lines 96-111: [(evaluated, total_unrealized)]. *)
Definition tick_summary (payload : json F) : res (Z * F) :=
  positions <- py_get payload "Positions" (JList []) ;;
  market_summary <- py_get payload "Market_Summary" (JList []) ;;
  d <- price_by_ticker market_summary ;;
  ps <- py_iter positions ;;
  pnl_loop d ps 0 F0.

(** Line 114: [snapshot]. *)
Definition tick_snapshot (payload : json F) : res (list (json F)) :=
  positions <- py_get payload "Positions" (JList []) ;;
  market_summary <- py_get payload "Market_Summary" (JList []) ;;
  _build_positions_snapshot positions market_summary.

(** Lines 118-120: [(trades, rationale)]. *)
Definition tick_advice (API_KEY : option string) (ai : assistant F)
    (payload : json F) : res (json F * json F) :=
  ai_out <- get_trade_recommendations API_KEY ai payload ;;
  trades <- py_get ai_out "trades" (JList []) ;;
  rationale <- py_get ai_out "rationale" (JStr "") ;;
  inr (trades, rationale).

(** The world after the snapshot write and the call of the assistant. *)
Definition after_snapshot (snapshot : list (json F)) (w : world F) : world F :=
  {| positions_file := Document (JList snapshot);
     trades_file := trades_file w;
     trace := trace w ++ [Wrote POSITIONS_FILE snapshot; Consulted] |}.

(** The history after one more entry. *)
Definition history_with (trades rationale : json F) (w : world F) : list (json F) :=
  read_list (trades_file w) ++ [trade_entry trades rationale].

(** The world after the history append and the submission. *)
Definition after_submission (snapshot : list (json F)) (trades rationale : json F)
    (trade_id : string) (w : world F) : world F :=
  {| positions_file := Document (JList snapshot);
     trades_file := Document (JList (history_with trades rationale w));
     trace := trace w ++ [Wrote POSITIONS_FILE snapshot; Consulted;
                          Wrote TRADES_FILE (history_with trades rationale w);
                          Posted trade_id trades] |}.

(** The body the remote response is read as (lines 77-80). *)
Definition response_data (status_code : Z) (body : option (json F)) : json F :=
  match body with
  | Some j => j
  | None => non_json_body status_code
  end.

(** [payload.get("Market_Summary", [])], [JNull] standing for a payload
    without the method. *)
Definition market_summary_of (payload : json F) : json F :=
  match py_get payload "Market_Summary" (JList []) with
  | inr v => v
  | inl _ => JNull
  end.

(** What the loops read off a position, in the order they read it: the
    ticker, [int(quantity)], [float(purchase_price)], the ticker's key. *)
Definition position_fields (pos : json F) : res (json F * Z * F * pykey) :=
  ticker <- py_getitem pos "ticker" ;;
  quantity <- py_getitem pos "quantity" ;;
  qty <- py_int quantity ;;
  pp <- py_getitem pos "purchase_price" ;;
  purchase_price <- py_float pp ;;
  k <- py_hash ticker ;;
  inr (ticker, qty, purchase_price, k).

(** The record the snapshot holds for a position, under the prices [d]. *)
Definition position_record (d : prices) (pos : json F) : res (json F) :=
  '(ticker, qty, purchase_price, k) <- position_fields pos ;;
  inr (JObj [("ticker", ticker);
             ("quantity", JInt qty);
             ("purchase_price", JFloat purchase_price);
             ("current_price", current_price_of d k)]).

(** [f] on every element, left to right, up to the first that raises. *)
Fixpoint res_map {A B : Type} (f : A -> res B) (l : list A) : res (list B) :=
  match l with
  | [] => inr []
  | a :: rest =>
      b <- f a ;;
      bs <- res_map f rest ;;
      inr (b :: bs)
  end.

(** [name in msg], for strings. *)
Fixpoint mentions (name msg : string) : bool :=
  String.prefix name msg
  || match msg with
     | EmptyString => false
     | String _ rest => mentions name rest
     end.

(** What [get_trade_recommendations] returns on a validated payload: a list of trades
    and a rationale. *)
Definition advice_shaped (out : json F) : Prop :=
  exists trades rationale,
    out = JObj [("trades", JList trades); ("rationale", rationale)].

(** One tick of a run: what arrives and what the collaborators do. *)
Record arrival : Type := {
  arr_ai : assistant F;
  arr_http : http_outcome F;
  arr_payload : json F;
  arr_trade_id : string
}.

(** [analyze_tick] on one arrival after the other. *)
Fixpoint run_ticks (API_KEY : option string) (ticks : list arrival) (w : world F)
  : world F * list (res (dict F)) :=
  match ticks with
  | [] => (w, [])
  | t :: rest =>
      let (w1, r) := analyze_tick API_KEY (arr_ai t) (arr_http t)
                       (arr_payload t) (arr_trade_id t) w in
      let (w2, rs) := run_ticks API_KEY rest w1 in
      (w2, r :: rs)
  end.

(** The trade lists sent to the remote endpoint, in order. *)
Fixpoint posted (tr : list (event F)) : list (json F) :=
  match tr with
  | [] => []
  | Posted _ trades :: rest => trades :: posted rest
  | _ :: rest => posted rest
  end.

Definition succeeded {A : Type} (r : res A) : Prop :=
  match r with
  | inr _ => True
  | inl _ => False
  end.

(** A payload that [validate_tick_payload] accepts. *)
Definition validated (payload : json F) : Prop :=
  exists msg, validate_tick_payload payload = inr (true, msg).

(** The key a row is filed under, when its ticker is hashable. *)
Definition row_key (row : json F) : option pykey :=
  match (t <- py_getitem row "ticker" ;; py_hash t) with
  | inr k => Some k
  | inl _ => None
  end.

(** The float a [Market_Summary] row quotes. *)
Definition row_price (row : json F) : option F :=
  match (c <- py_getitem row "current_price" ;; py_float c) with
  | inr v => Some v
  | inl _ => None
  end.

(** The price of the last row of [rows], in list order, whose ticker is the
    key [k]; [None] when no row has it. *)
Fixpoint last_row_price (rows : list (json F)) (k : pykey) : option F :=
  match rows with
  | [] => None
  | row :: rest =>
      match last_row_price rest k with
      | Some v => Some v
      | None =>
          match row_key row with
          | Some k' => if key_eqb k' k then row_price row else None
          | None => None
          end
      end
  end.

(** No row of [rows] is filed under the key [k]. *)
Definition unmatched (rows : list (json F)) (k : pykey) : Prop :=
  Forall (fun row => forall k', row_key row = Some k' -> key_eqb k' k = false) rows.

(** The record of a position under the quotes [rows]: its ticker,
    [int(quantity)], [float(purchase_price)], and the price of the last
    row that quotes its ticker, [null] when none does. *)
Definition quoted_record (rows : list (json F)) (pos record : json F) : Prop :=
  exists ticker qty purchase_price k,
    position_fields pos = inr (ticker, qty, purchase_price, k)
    /\ record = JObj [("ticker", ticker);
                      ("quantity", JInt qty);
                      ("purchase_price", JFloat purchase_price);
                      ("current_price",
                       match last_row_price rows k with
                       | Some current => JFloat current
                       | None => JNull
                       end)].

(** The profit or loss the loop of [analyze_tick] adds for a position that
    the table [d] quotes: [(current - purchase_price) * int(quantity)]. *)
Definition quoted_pnl (d : prices) (pos : json F) (pnl : F) : Prop :=
  exists ticker qty purchase_price k current q,
    position_fields pos = inr (ticker, qty, purchase_price, k)
    /\ prices_get k d = Some current
    /\ Fof_Z qty = inr q
    /\ pnl = Fmul (Fsub current purchase_price) q.

(** The profit-and-loss loop with every price read off the rows
    themselves: the price of a position is that of the last row of [rows]
    that quotes its ticker, and a position no row quotes is passed over. *)
Fixpoint last_quote_pnl (rows positions : list (json F)) (evaluated : Z)
    (total_unrealized : F) : res (Z * F) :=
  match positions with
  | [] => inr (evaluated, total_unrealized)
  | pos :: rest =>
      '(ticker, qty, purchase_price, k) <- position_fields pos ;;
      match last_row_price rows k with
      | Some current =>
          q <- Fof_Z qty ;;
          last_quote_pnl rows rest (evaluated + 1)
            (Fadd total_unrealized (Fmul (Fsub current purchase_price) q))
      | None => last_quote_pnl rows rest evaluated total_unrealized
      end
  end.

(** A [Market_Summary] row the dict comprehension can store: its ticker is
    there and hashable, its price is there and [float()] accepts it. *)
Definition storable (row : json F) : Prop :=
  row_key row <> None /\ row_price row <> None.

(** tester.py, [expected_pnl]: the profit and loss the repository's test
    expects, with [float(p["quantity"])]. *)
Fixpoint expected_pnl_loop (curr : prices) (positions : list (json F)) (pnl : F)
  : res F :=
  match positions with
  | [] => inr pnl
  | p :: rest =>
      t <- py_getitem p "ticker" ;;
      quantity <- py_getitem p "quantity" ;;
      q <- py_float quantity ;;
      pp <- py_getitem p "purchase_price" ;;
      cost <- py_float pp ;;
      k <- py_hash t ;;
      match prices_get k curr with
      | Some c => expected_pnl_loop curr rest (Fadd pnl (Fmul (Fsub c cost) q))
      | None => expected_pnl_loop curr rest pnl
      end
  end.

Definition expected_pnl (payload : json F) : res F :=
  market_summary <- py_getitem payload "Market_Summary" ;;
  curr <- price_by_ticker market_summary ;;
  positions <- py_getitem payload "Positions" ;;
  ps <- py_iter positions ;;
  expected_pnl_loop curr ps F0.

End Stages.
Arguments arrival F : clear implicits.

(** ** config.py, the other routes of app.py, and what the further
    properties speak of *)

Section More.
Context {F : Type} `{PyNum F}.

(** config.py, lines 10-11.  [env] is [os.getenv("API_KEY")] once the
    [.env] file is loaded: [None] when the variable is not set.  Strings
    are read as sequences of characters below 256, as header values are. *)
Definition DEFAULT_API_KEY : string := "PUT_STUDENT_USERNAME_HERE".

Definition load_API_KEY (env : option string) : string :=
  let API_KEY := match env with Some v => v | None => DEFAULT_API_KEY end in
  strip (if String.eqb API_KEY "" then DEFAULT_API_KEY else API_KEY).

(** app.py, [root]: open to anyone. *)
Definition root : response F :=
  Success [("result", JStr "success");
           ("message", JStr "Strategy API Server running.")].

(** app.py, [healthcheck]; [jsonify] of the constant body does not raise. *)
Definition healthcheck (API_KEY : string) (req : request F) : response F :=
  if negb (require_apikey API_KEY req) then Unauthorized
  else Success [("result", JStr "success"); ("message", JStr "Ready to Trade")].

(** app.py, [dashboard]: what the template is rendered with; no key is
    asked for. *)
Definition dashboard : M F (list (json F) * list (json F)) :=
  load_dashboard_data.

(** Every character of [s] is one that [strip] removes. *)
Fixpoint all_space (s : string) : bool :=
  match s with
  | EmptyString => true
  | String c rest => is_space c && all_space rest
  end.

(** A [market_history] row that the validator lets through. *)
Definition history_row_ok (row : json F) : Prop :=
  exists d day,
    row = JObj d
    /\ dict_lookup "ticker" d <> None
    /\ dict_lookup "price" d <> None
    /\ dict_lookup "day" d = Some (JStr day).

(** A payload of the shape the validator asks for. *)
Definition well_formed (payload : json F) : Prop :=
  exists d ps ms hs,
    payload = JObj d
    /\ dict_lookup "Positions" d = Some (JList ps)
    /\ dict_lookup "Market_Summary" d = Some (JList ms)
    /\ dict_lookup "market_history" d = Some (JList hs)
    /\ Forall (has_fields ["ticker"; "quantity"; "purchase_price"]) ps
    /\ Forall (has_fields ["ticker"; "current_price"; "category"]) ms
    /\ Forall history_row_ok hs.

(** Two objects with the same values under the keys [keys]. *)
Definition agree_on (keys : list string) (o o' : dict F) : Prop :=
  Forall (fun key => dict_lookup key o = dict_lookup key o') keys.

(** The trades and the rationale of the assistant's reply, when
    [get_trade_recommendations] can use it: the arguments of the first tool
    call of the first content item of the first output item, when they
    decode to an object whose [trades] are a list. *)
Definition first_tool_call_advice (ai : assistant F) : option (json F * json F) :=
  match ai with
  | Responds resp =>
      match output resp with
      | output_item :: _ =>
          match content output_item with
          | content_item :: _ =>
              match tool_calls content_item with
              | tool_call :: _ =>
                  match arguments tool_call with
                  | inr (JObj tool_args) =>
                      let trades :=
                        match dict_lookup "trades" tool_args with
                        | Some v => v
                        | None => JList []
                        end in
                      let rationale :=
                        match dict_lookup "rationale" tool_args with
                        | Some v => v
                        | None => JStr "No rationale provided."
                        end in
                      if is_list trades then Some (trades, rationale) else None
                  | _ => None
                  end
              | [] => None
              end
          | [] => None
          end
      | [] => None
      end
  | _ => None
  end.

(** A position that some row of [rows] quotes. *)
Definition quoted_in (rows : list (json F)) (pos : json F) : bool :=
  match position_fields pos with
  | inr (_, _, _, k) =>
      match last_row_price rows k with
      | Some _ => true
      | None => false
      end
  | inl _ => false
  end.

(** A position whose quantity is a JSON integer. *)
Definition whole_quantity (pos : json F) : Prop :=
  exists q, py_getitem pos "quantity" = inr (JInt q).

(** The events one tick may add to the trace. *)
Definition tick_events (new : list (event F)) : Prop :=
  new = []
  \/ (exists snapshot, new = [Wrote POSITIONS_FILE snapshot; Consulted])
  \/ (exists snapshot history tid trades,
        new = [Wrote POSITIONS_FILE snapshot; Consulted;
               Wrote TRADES_FILE history; Posted tid trades])
  \/ (exists snapshot history tid trades merged,
        new = [Wrote POSITIONS_FILE snapshot; Consulted;
               Wrote TRADES_FILE history; Posted tid trades;
               Wrote POSITIONS_FILE merged]).

End More.

(** ** Exact rationals as numbers

    An implementation of [PyNum] without rounding error, for evaluating the
    program on payloads whose numbers (and all intermediate results) a
    double represents exactly. *)

Module QNumbers.

Definition add (a b : Q) : Q := Qred (a + b).
Definition sub (a b : Q) : Q := Qred (a - b).
Definition mul (a b : Q) : Q := Qred (a * b).

(** Round half to even at the fourth decimal. *)
Definition round4 (q : Q) : Q :=
  let n := (Qnum q * 10000)%Z in
  let d := Zpos (Qden q) in
  let fl := (n / d)%Z in
  let r := (n mod d)%Z in
  let up :=
    match (2 * r ?= d)%Z with
    | Lt => false
    | Gt => true
    | Eq => Z.odd fl
    end in
  Qred (Qmake (if up then fl + 1 else fl) 10000).

Definition trunc (q : Q) : Z := Z.quot (Qnum q) (Zpos (Qden q)).

Definition digit (c : ascii) : option Z :=
  let n := Z.of_N (N_of_ascii c) in
  if ((48 <=? n) && (n <=? 57))%Z then Some (n - 48)%Z else None.

(** The value of a non-empty string of decimal digits, after [acc]. *)
Fixpoint digits (s : string) (acc : Z) : option Z :=
  match s with
  | EmptyString => Some acc
  | String c rest =>
      match digit c with
      | Some v => digits rest (acc * 10 + v)
      | None => None
      end
  end.

Definition unsigned (s : string) : option Z :=
  match s with
  | EmptyString => None
  | _ => digits s 0
  end.

(** Plain decimal integers, with an optional sign.  Python accepts more
    (blanks, underscores); no payload evaluated below has such a string. *)
Definition parse_int (s : string) : res Z :=
  let signed :=
    match s with
    | String "-" rest => option_map Z.opp (unsigned rest)
    | String "+" rest => unsigned rest
    | _ => unsigned s
    end in
  match signed with
  | Some z => inr z
  | None => inl ValueError
  end.

(** The digits after the decimal point: their value and their number. *)
Fixpoint split_point (s : string) : string * option string :=
  match s with
  | EmptyString => (EmptyString, None)
  | String "." rest => (EmptyString, Some rest)
  | String c rest =>
      let (whole, frac) := split_point rest in (String c whole, frac)
  end.

Definition unsigned_decimal (s : string) : option Q :=
  match split_point s with
  | (whole, None) => option_map inject_Z (unsigned whole)
  | (whole, Some frac) =>
      match unsigned whole, unsigned frac with
      | Some w, Some f =>
          Some (Qred (inject_Z w + Qmake f (Pos.pow 10 (Pos.of_nat (String.length frac)))))
      | _, _ => None
      end
  end.

(** Numerals in plain decimal notation, with an optional sign.  Python
    accepts more (exponents, blanks, ["inf"]); no payload evaluated below
    has such a string. *)
Definition parse_float (s : string) : res Q :=
  let signed :=
    match s with
    | String "-" rest => option_map Qopp (unsigned_decimal rest)
    | String "+" rest => unsigned_decimal rest
    | _ => unsigned_decimal s
    end in
  match signed with
  | Some q => inr q
  | None => inl ValueError
  end.

End QNumbers.

#[export] Instance QNum : PyNum Q := {
  F0 := 0%Q;
  Fadd := QNumbers.add;
  Fsub := QNumbers.sub;
  Fmul := QNumbers.mul;
  Fround4 := QNumbers.round4;
  Fof_Z := fun z => inr (inject_Z z);
  Fparse := QNumbers.parse_float;
  Ftrunc := fun q => inr (QNumbers.trunc q);
  Zparse := QNumbers.parse_int;
  Fexact := fun q => Some (Finite q)
}.

(** ** Concrete payloads

    The payloads on which the program is evaluated below.  Their numbers
    are small integers and halves, which doubles represent exactly. *)

Module Examples.

Definition position (ticker : string) (quantity purchase_price : json Q) : json Q :=
  JObj [("ticker", JStr ticker); ("quantity", quantity);
        ("purchase_price", purchase_price)].

Definition market_row (ticker : string) (current_price : json Q) : json Q :=
  JObj [("ticker", JStr ticker); ("current_price", current_price);
        ("category", JStr "low")].

Definition history_row (ticker : string) (price : json Q) (day : string) : json Q :=
  JObj [("ticker", JStr ticker); ("price", price); ("day", JStr day)].

Definition tick_payload (positions market_summary market_history : list (json Q))
  : json Q :=
  JObj [("Positions", JList positions);
        ("Market_Summary", JList market_summary);
        ("market_history", JList market_history)].

(** The scenario of the specification: ten shares of X bought at 100,
    quoted at 110. *)
Definition scenario : json Q :=
  tick_payload [position "X" (JInt 10) (JInt 100)]
               [market_row "X" (JInt 110)]
               [history_row "X" (JInt 105) "2025-01-01"].

(** One and a half shares of X bought at 100, quoted at 110. *)
Definition fractional : json Q :=
  tick_payload [position "X" (JFloat (3 # 2)) (JInt 100)]
               [market_row "X" (JInt 110)]
               [].

(** A position without a quote whose quantity is [null]. *)
Definition null_quantity : json Q :=
  tick_payload [position "X" JNull (JInt 100)] [] [].

(** A position without a quote whose purchase price is [null]. *)
Definition null_purchase_price : json Q :=
  tick_payload [position "X" (JInt 10) JNull] [] [].

(** A position without a quote whose ticker is a list. *)
Definition unhashable_ticker : json Q :=
  tick_payload [JObj [("ticker", JList []); ("quantity", JInt 10);
                      ("purchase_price", JInt 100)]] [] [].

(** A quote whose price is [null]. *)
Definition null_price : json Q :=
  tick_payload [position "X" (JInt 10) (JInt 100)]
               [market_row "X" JNull]
               [].

(** X quoted twice, first with a [null] price and then at 120. *)
Definition null_then_quoted : json Q :=
  tick_payload [position "X" (JInt 10) (JInt 100)]
               [market_row "X" JNull; market_row "X" (JInt 120)]
               [].

(** X quoted twice, at 110 and then at 120; Y held without a quote. *)
Definition quoted_twice : json Q :=
  tick_payload [position "X" (JInt 10) (JInt 100); position "Y" (JInt 5) (JInt 7)]
               [market_row "X" (JInt 110); market_row "X" (JInt 120)]
               [].

(** No files yet, nothing done yet. *)
Definition fresh : world Q :=
  {| positions_file := Missing; trades_file := Missing; trace := [] |}.

(** The remote endpoint answers 200 with an empty object. *)
Definition accepted : http_outcome Q := HttpResponse 200 (Some (JObj [])).

(** It answers 200 and returns the holdings [positions]. *)
Definition returns (positions : list (json Q)) : http_outcome Q :=
  HttpResponse 200 (Some (JObj [("Positions", JList positions)])).

(** An assistant that is never reached when no credential is configured. *)
Definition silent : assistant Q := ClientRaises (OpenAIError "no client").

(** An assistant that proposes to buy one X. *)
Definition buys_one : assistant Q :=
  Responds
    {| output :=
         [{| content :=
               [{| tool_calls :=
                     [{| arguments :=
                           inr (JObj [("trades",
                                       JList [JObj [("action", JStr "BUY");
                                                    ("ticker", JStr "X");
                                                    ("quantity", JInt 1)]]);
                                      ("rationale", JStr "momentum")]) |}] |}] |}] |}.

(** The remote endpoint cannot be reached. *)
Definition unreachable : http_outcome Q := PostRaises (RequestException "timed out").

(** Holdings the remote endpoint may return: one and a half shares of X. *)
Definition returned_fractional : list (json Q) :=
  [position "X" (JFloat (3 # 2)) (JInt 100)].

(** A returned element without quantity and purchase price. *)
Definition returned_incomplete : list (json Q) :=
  [JObj [("ticker", JStr "X")]].

(** Three shares of X bought at 90. *)
Definition returned_whole : list (json Q) :=
  [position "X" (JInt 3) (JInt 90)].

(** The snapshot of [scenario]. *)
Definition scenario_snapshot : list (json Q) :=
  [JObj [("ticker", JStr "X"); ("quantity", JInt 10);
         ("purchase_price", JFloat (100 # 1)); ("current_price", JFloat (110 # 1))]].

(** The fallback advice on [scenario]. *)
Definition scenario_stay : json Q := JList [stay (JStr "X")].

(** A request carrying [payload] with the key ["secret"]. *)
Definition request_with (payload : json Q) : request Q :=
  {| apikey := " secret "; is_json := true; get_json := Some payload;
     trade_id := "t" |}.

(** Two ticks: the scenario without a credential, then the scenario with
    an assistant that buys. *)
Definition two_ticks : list (arrival Q) :=
  [ {| arr_ai := silent; arr_http := accepted;
       arr_payload := scenario; arr_trade_id := "t1" |};
    {| arr_ai := buys_one; arr_http := returns returned_whole;
       arr_payload := quoted_twice; arr_trade_id := "t2" |} ].

End Examples.

(** ** More concrete inputs *)

Module MoreExamples.

(** The fields of [Examples.scenario]. *)
Definition scenario_fields : dict Q :=
  [("Positions", JList [Examples.position "X" (JInt 10) (JInt 100)]);
   ("Market_Summary", JList [Examples.market_row "X" (JInt 110)]);
   ("market_history", JList [Examples.history_row "X" (JInt 105) "2025-01-01"])].

(** The scenario with a piece of news. *)
Definition with_news : dict Q :=
  (scenario_fields ++ [("News", JStr "rally")])%list.

(** A payload whose second position is a number. *)
Definition second_is_number : dict Q :=
  [("Positions", JList [Examples.position "X" (JInt 10) (JInt 100); JInt 5]);
   ("Market_Summary", JList []);
   ("market_history", JList [])].

(** The fields of [Examples.quoted_twice]. *)
Definition quoted_twice_fields : dict Q :=
  [("Positions", JList [Examples.position "X" (JInt 10) (JInt 100);
                        Examples.position "Y" (JInt 5) (JInt 7)]);
   ("Market_Summary", JList [Examples.market_row "X" (JInt 110);
                             Examples.market_row "X" (JInt 120)]);
   ("market_history", JList [])].

(** The remote endpoint answers 500 with a body that is not JSON. *)
Definition server_error : http_outcome Q := HttpResponse 500 None.

(** It answers 200 with an object that has an [_http_status] of its own. *)
Definition status_in_body : http_outcome Q :=
  HttpResponse 200 (Some (JObj [("_http_status", JInt 7); ("ok", JBool true)])).

End MoreExamples.

(** * Properties *)

(** ** Keys and the price table *)

Section Prices.
Context {F : Type} `{PyNum F}.

Lemma xval_eqb_sym (a b : xval) : xval_eqb a b = xval_eqb b a.
Proof.
  destruct a, b; simpl; try reflexivity.
  apply eq_true_iff_eq. rewrite !Qeq_bool_iff. split; intro E; symmetry; exact E.
Qed.

Lemma xval_eqb_trans (a b c : xval) :
  xval_eqb a b = true -> xval_eqb b c = true -> xval_eqb a c = true.
Proof.
  destruct a, b, c; simpl; try congruence.
  rewrite !Qeq_bool_iff. intros E1 E2. rewrite E1. exact E2.
Qed.

Lemma key_eqb_sym (a b : pykey) : key_eqb a b = key_eqb b a.
Proof.
  destruct a, b; simpl; try reflexivity.
  - apply xval_eqb_sym.
  - apply String.eqb_sym.
Qed.

Lemma key_eqb_trans (a b c : pykey) :
  key_eqb a b = true -> key_eqb b c = true -> key_eqb a c = true.
Proof.
  destruct a, b, c; simpl; try congruence.
  - apply xval_eqb_trans.
  - rewrite !String.eqb_eq. congruence.
Qed.

(** Two keys equal to a third are equal; a key equal to one of two unequal
    keys is not equal to the other. *)
Lemma key_eqb_left (a b c : pykey) :
  key_eqb a b = true -> key_eqb a c = key_eqb b c.
Proof.
  intros E. destruct (key_eqb b c) eqn:E2.
  - eapply key_eqb_trans; eassumption.
  - destruct (key_eqb a c) eqn:E3; [|reflexivity].
    rewrite key_eqb_sym in E.
    rewrite (key_eqb_trans _ _ _ E E3) in E2. discriminate.
Qed.

(** A lookup after a store: the stored value under every key equal to the
    stored one, the old value elsewhere. *)
Lemma prices_get_set (k0 k : pykey) (v : F) (d : prices) :
  prices_get k (prices_set k0 v d) =
  if key_eqb k0 k then Some v else prices_get k d.
Proof.
  induction d as [|[k' w] rest IH]; simpl.
  - reflexivity.
  - destruct (key_eqb k' k0) eqn:E0; simpl.
    + rewrite <- (key_eqb_left _ _ k E0).
      destruct (key_eqb k' k); reflexivity.
    + destruct (key_eqb k' k) eqn:E1.
      * destruct (key_eqb k0 k) eqn:E2; [|reflexivity].
        rewrite key_eqb_sym in E2.
        rewrite (key_eqb_trans _ _ _ E1 E2) in E0. discriminate.
      * exact IH.
Qed.

Lemma price_rows_lookup (rows : list (json F)) :
  forall (d0 d : prices) (k : pykey),
    price_rows rows d0 = inr d ->
    prices_get k d =
    match last_row_price rows k with
    | Some v => Some v
    | None => prices_get k d0
    end.
Proof.
  induction rows as [|m rest IH]; intros d0 d k Hrun; simpl in *.
  - injection Hrun as <-. reflexivity.
  - unfold row_key, row_price.
    destruct (py_getitem m "ticker") as [e|ticker]; simpl in *; [discriminate|].
    destruct (py_getitem m "current_price") as [e|cp]; simpl in *; [discriminate|].
    destruct (py_float cp) as [e|v]; simpl in *; [discriminate|].
    destruct (py_hash ticker) as [e|k0]; simpl in *; [discriminate|].
    rewrite (IH _ _ k Hrun), prices_get_set.
    destruct (last_row_price rest k); [reflexivity|].
    destruct (key_eqb k0 k); reflexivity.
Qed.

(** The table built from [Market_Summary] answers every key with the price
    of the last row that has it. *)
Lemma price_by_ticker_lookup (ms : json F) (rows : list (json F)) (d : prices) (k : pykey) :
  py_iter ms = inr rows ->
  price_by_ticker ms = inr d ->
  prices_get k d = last_row_price rows k.
Proof.
  intros Hrows Hd. unfold price_by_ticker in Hd. rewrite Hrows in Hd. simpl in Hd.
  rewrite (price_rows_lookup _ _ _ k Hd). simpl.
  destruct (last_row_price rows k); reflexivity.
Qed.

(** The comprehension stores every row or raises: it returns the table
    exactly when every row is storable. *)
Lemma price_rows_storable (rows : list (json F)) :
  Forall storable rows -> forall d0, exists d, price_rows rows d0 = inr d.
Proof.
  induction 1 as [|m rest [Hk Hv] _ IH]; intros d0; cbn [price_rows].
  - exists d0. reflexivity.
  - unfold row_key, row_price in Hk, Hv.
    destruct (py_getitem m "ticker") as [e|ticker]; cbn [rbind] in *; [congruence|].
    destruct (py_getitem m "current_price") as [e|cp]; cbn [rbind] in *; [congruence|].
    destruct (py_float cp) as [e|v]; cbn [rbind] in *; [congruence|].
    destruct (py_hash ticker) as [e|k]; cbn [rbind] in *; [congruence|].
    apply IH.
Qed.

Lemma price_rows_raises (rows : list (json F)) :
  Exists (fun row => ~ storable row) rows ->
  forall d0, exists e, price_rows rows d0 = inl e.
Proof.
  induction 1 as [m rest Hbad|m rest _ IH]; intros d0; cbn [price_rows].
  - unfold storable, row_key, row_price in Hbad.
    destruct (py_getitem m "ticker") as [e|ticker]; cbn [rbind] in *;
      [eexists; reflexivity|].
    destruct (py_getitem m "current_price") as [e|cp]; cbn [rbind] in *;
      [eexists; reflexivity|].
    destruct (py_float cp) as [e|v]; cbn [rbind] in *; [eexists; reflexivity|].
    destruct (py_hash ticker) as [e|k]; cbn [rbind] in *; [eexists; reflexivity|].
    exfalso. apply Hbad. split; discriminate.
  - destruct (py_getitem m "ticker") as [e|ticker]; cbn [rbind];
      [eexists; reflexivity|].
    destruct (py_getitem m "current_price") as [e|cp]; cbn [rbind];
      [eexists; reflexivity|].
    destruct (py_float cp) as [e|v]; cbn [rbind]; [eexists; reflexivity|].
    destruct (py_hash ticker) as [e|k]; cbn [rbind]; [eexists; reflexivity|].
    apply IH.
Qed.

Lemma last_row_price_unmatched (rows : list (json F)) (k : pykey) :
  unmatched rows k -> last_row_price rows k = None.
Proof.
  induction 1 as [|row rest Hrow _ IH]; simpl.
  - reflexivity.
  - rewrite IH. destruct (row_key row) as [k'|] eqn:E; [|reflexivity].
    rewrite (Hrow _ eq_refl). reflexivity.
Qed.

(** The last row under a key decides, whatever comes before it. *)
Lemma last_row_price_last (before after : list (json F)) (row : json F)
    (k k' : pykey) (v : F) :
  row_key row = Some k' -> key_eqb k' k = true -> row_price row = Some v ->
  unmatched after k ->
  last_row_price (before ++ row :: after) k = Some v.
Proof.
  intros Hk Heq Hv Hafter.
  induction before as [|b before IH]; simpl.
  - rewrite (last_row_price_unmatched _ _ Hafter), Hk, Heq. exact Hv.
  - rewrite IH. reflexivity.
Qed.

End Prices.

(** ** The loops over positions *)

Section Loops.
Context {F : Type} `{PyNum F}.

Local Open Scope list_scope.
Local Open Scope res_scope.

(** Follow a chain of steps that may raise: split on the first step, close
    the branch where it raises, go on in the branch where it returns. *)
Ltac walk :=
  repeat match goal with
         | |- context [rbind ?r _] =>
             lazymatch r with
             | res_map _ _ => fail
             | _ => destruct r; cbn [rbind]; [reflexivity|]
             end
         end.

Lemma res_map_Forall2 {A B : Type} (f : A -> res B) (l : list A) (bs : list B) :
  res_map f l = inr bs <-> Forall2 (fun a b => f a = inr b) l bs.
Proof.
  revert bs. induction l as [|a rest IH]; intros bs; simpl.
  - split.
    + intros E. injection E as <-. constructor.
    + intros E. inversion E. reflexivity.
  - split.
    + destruct (f a) as [e|b] eqn:Ea; simpl; [discriminate|].
      destruct (res_map f rest) as [e|bs'] eqn:Er; simpl; [discriminate|].
      intros E. injection E as <-. constructor; [exact Ea|]. apply IH. reflexivity.
    + intros E. inversion E as [|a' b l' bs' Ea Er]; subst.
      rewrite Ea. simpl. apply IH in Er. rewrite Er. reflexivity.
Qed.

Lemma res_map_length {A B : Type} (f : A -> res B) (l : list A) (bs : list B) :
  res_map f l = inr bs -> List.length bs = List.length l.
Proof.
  intros E. apply res_map_Forall2 in E.
  induction E; simpl; congruence.
Qed.

(** The loop of [_build_positions_snapshot] appends one record per
    position, and raises what the first bad position raises. *)
Lemma snapshot_loop_records (d : prices) (ps : list (json F)) :
  forall acc,
    snapshot_loop d ps acc =
    (rows <- res_map (position_record d) ps ;; inr (acc ++ rows)).
Proof.
  induction ps as [|pos rest IH]; intros acc; simpl.
  - rewrite app_nil_r. reflexivity.
  - unfold position_record, position_fields. walk.
    rewrite IH.
    destruct (res_map _ rest) as [e|rows]; cbn [rbind]; [reflexivity|].
    rewrite <- app_assoc. reflexivity.
Qed.

(** The reconciliation loop builds the same records; it reads the fields
    in another order, so it may raise another exception, but it raises on
    the same lists. *)
Lemma merged_loop_records (d : prices) (ps : list (json F)) :
  forall acc,
    match merged_loop d ps acc, res_map (position_record d) ps with
    | inr merged, inr rows => merged = acc ++ rows
    | inl _, inl _ => True
    | _, _ => False
    end.
Proof.
  induction ps as [|p rest IH]; intros acc; simpl.
  - rewrite app_nil_r. reflexivity.
  - unfold position_record, position_fields.
    destruct (py_getitem p "ticker") as [e|ticker]; simpl; [exact I|].
    destruct (py_hash ticker) as [e|k]; simpl.
    + destruct (py_getitem p "quantity") as [e'|quantity]; simpl; [exact I|].
      destruct (py_int quantity) as [e'|qty]; simpl; [exact I|].
      destruct (py_getitem p "purchase_price") as [e'|pp]; simpl; [exact I|].
      destruct (py_float pp) as [e'|purchase_price]; simpl; exact I.
    + destruct (py_getitem p "quantity") as [e|quantity]; simpl; [exact I|].
      destruct (py_int quantity) as [e|qty]; simpl; [exact I|].
      destruct (py_getitem p "purchase_price") as [e|pp]; simpl; [exact I|].
      destruct (py_float pp) as [e|purchase_price]; simpl; [exact I|].
      specialize (IH (acc ++ [JObj [("ticker", ticker); ("quantity", JInt qty);
                                    ("purchase_price", JFloat purchase_price);
                                    ("current_price", current_price_of d k)]])).
      destruct (merged_loop d rest _) as [e|merged];
        destruct (res_map _ rest) as [e'|rows]; simpl; try exact IH.
      rewrite IH, <- app_assoc. reflexivity.
Qed.

(** One turn of the profit-and-loss loop. *)
Lemma pnl_loop_cons (d : prices) (pos : json F) (rest : list (json F))
    (evaluated : Z) (total : F) :
  pnl_loop d (pos :: rest) evaluated total =
  ('(ticker, qty, purchase_price, k) <- position_fields pos ;;
   match prices_get k d with
   | Some current =>
       q <- Fof_Z qty ;;
       pnl_loop d rest (evaluated + 1)
         (Fadd total (Fmul (Fsub current purchase_price) q))
   | None => pnl_loop d rest evaluated total
   end).
Proof.
  cbn [pnl_loop]. unfold position_fields. walk. reflexivity.
Qed.

Lemma pnl_loop_app (d : prices) (before after : list (json F)) :
  forall evaluated total,
    pnl_loop d (before ++ after) evaluated total =
    ('(evaluated', total') <- pnl_loop d before evaluated total ;;
     pnl_loop d after evaluated' total').
Proof.
  induction before as [|pos rest IH]; intros evaluated total.
  - reflexivity.
  - rewrite <- app_comm_cons, !pnl_loop_cons.
    destruct (position_fields pos) as [e|[[[ticker qty] pp] k]]; simpl; [reflexivity|].
    destruct (prices_get k d) as [current|].
    + destruct (Fof_Z qty) as [e|q]; simpl; [reflexivity|]. apply IH.
    + apply IH.
Qed.

(** A position without a price leaves the count and the sum as they are. *)
Lemma pnl_loop_skip (d : prices) (before after : list (json F)) (pos : json F)
    (ticker : json F) (qty : Z) (pp : F) (k : pykey) (evaluated : Z) (total : F) :
  position_fields pos = inr (ticker, qty, pp, k) ->
  prices_get k d = None ->
  pnl_loop d (before ++ pos :: after) evaluated total =
  pnl_loop d (before ++ after) evaluated total.
Proof.
  intros Hpos Hk. rewrite !pnl_loop_app.
  destruct (pnl_loop d before evaluated total) as [e|[ev tot]]; [reflexivity|].
  cbn [rbind]. rewrite pnl_loop_cons, Hpos. cbn [rbind]. rewrite Hk. reflexivity.
Qed.

(** The loop over a table that answers as the rows do is the loop over
    the rows. *)
Lemma pnl_loop_last_quote (rows : list (json F)) (d : prices) (ps : list (json F)) :
  (forall k, prices_get k d = last_row_price rows k) ->
  forall evaluated total,
    pnl_loop d ps evaluated total = last_quote_pnl rows ps evaluated total.
Proof.
  intros Hd. induction ps as [|pos rest IH]; intros evaluated total.
  - reflexivity.
  - rewrite pnl_loop_cons. cbn [last_quote_pnl].
    destruct (position_fields pos) as [e|[[[ticker qty] pp] k]]; cbn [rbind];
      [reflexivity|].
    rewrite Hd. destruct (last_row_price rows k) as [current|]; [|apply IH].
    destruct (Fof_Z qty) as [e|q]; cbn [rbind]; [reflexivity|]. apply IH.
Qed.

(** One element that raises makes the whole map raise. *)
Lemma res_map_raises {A B : Type} (f : A -> res B) (l : list A) :
  Exists (fun a => exists e, f a = inl e) l -> exists e, res_map f l = inl e.
Proof.
  induction 1 as [a rest [e Ha]|a rest _ [e IH]]; cbn [res_map].
  - rewrite Ha. exists e. reflexivity.
  - destruct (f a) as [e'|b]; cbn [rbind]; [exists e'; reflexivity|].
    rewrite IH. exists e. reflexivity.
Qed.

(** When the table quotes every position, the loop counts them all and
    adds their profits and losses, left to right, with the truncated
    quantities. *)
Lemma pnl_loop_all_quoted (d : prices) (ps : list (json F)) (pnls : list F) :
  Forall2 (quoted_pnl d) ps pnls ->
  forall evaluated total,
    pnl_loop d ps evaluated total =
    inr (evaluated + Z.of_nat (List.length ps), fold_left Fadd pnls total).
Proof.
  induction 1 as [|pos pnl rest pnls' Hpos _ IH]; intros evaluated total.
  - cbn [pnl_loop List.length fold_left Z.of_nat]. rewrite Z.add_0_r. reflexivity.
  - destruct Hpos as (ticker & qty & pp & k & current & q & Hfields & Hk & Hq & ->).
    rewrite pnl_loop_cons, Hfields. cbn [rbind]. rewrite Hk, Hq. cbn [rbind].
    rewrite IH. cbn [List.length fold_left]. f_equal. f_equal. lia.
Qed.

End Loops.

(** ** The validator *)

Section ValidatorFacts.
Context {F : Type} `{PyNum F}.

Local Open Scope res_scope.

Lemma dict_mem_lookup (key : string) (d : dict F) :
  dict_mem key d = match dict_lookup key d with Some _ => true | None => false end.
Proof.
  induction d as [|[k v] rest IH]; simpl.
  - reflexivity.
  - destruct (String.eqb k key); [reflexivity|exact IH].
Qed.

Lemma required_lists_loop_rules (d : dict F) (keys : list string) :
  required_lists_loop d keys =
  inr (failed (first_failure (map (fun key p => key_is_array p key) keys) (JObj d))).
Proof.
  induction keys as [|key rest IH]; simpl.
  - reflexivity.
  - rewrite dict_mem_lookup. unfold dict_getitem.
    destruct (dict_lookup key d) as [v|]; simpl; [|reflexivity].
    destruct v; simpl; try reflexivity. exact IH.
Qed.

Lemma fields_loop_rules (name : string) (idx : nat) (d : dict F) (fields : list string) :
  fields_loop name idx d fields = failed (missing_field name idx fields d).
Proof.
  unfold missing_field.
  induction fields as [|field rest IH]; simpl.
  - reflexivity.
  - rewrite dict_mem_lookup.
    destruct (dict_lookup field d); simpl; [exact IH|reflexivity].
Qed.

Lemma rows_loop_rules (name : string) (fields : list string) (rows : list (json F)) :
  forall idx,
    rows_loop name fields rows idx =
    failed (first_bad_element (element_has name fields) rows idx).
Proof.
  induction rows as [|row rest IH]; intros idx; simpl.
  - reflexivity.
  - destruct row; simpl; try reflexivity.
    rewrite fields_loop_rules.
    destruct (missing_field name idx fields o); simpl; [reflexivity|apply IH].
Qed.

Lemma history_loop_rules (rows : list (json F)) :
  forall idx,
    history_loop rows idx = inr (failed (first_bad_element history_element rows idx)).
Proof.
  induction rows as [|row rest IH]; intros idx.
  - reflexivity.
  - cbn [history_loop first_bad_element]. unfold history_element.
    destruct row; try reflexivity.
    cbn [element_has]. rewrite fields_loop_rules.
    destruct (missing_field "market_history" idx ["ticker"; "price"; "day"] o) eqn:E;
      [reflexivity|].
    cbn [failed option_map]. unfold dict_getitem.
    assert (Hday : dict_lookup "day" o <> None).
    { unfold missing_field in E. cbn [map first_failure] in E.
      destruct (dict_lookup "ticker" o); [|discriminate].
      destruct (dict_lookup "price" o); [|discriminate].
      destruct (dict_lookup "day" o); [discriminate|discriminate]. }
    destruct (dict_lookup "day" o) as [day|]; [|contradiction].
    cbn [rbind]. destruct day; try reflexivity. apply IH.
Qed.

(** [validate_tick_payload] returns, on every payload, what the rules of
    the specification give when taken in their stated order. *)
Lemma validate_tick_payload_rules (payload : json F) :
  validate_tick_payload payload = inr (validate_spec payload).
Proof.
  destruct payload as [| | | | | |d]; try reflexivity.
  unfold validate_tick_payload, validate_spec, validation_rules.
  rewrite required_lists_loop_rules.
  cbn [first_failure rule_object is_dict rbind].
  unfold rule_required_arrays.
  destruct (first_failure _ (JObj d)) as [reason|] eqn:E; [reflexivity|].
  cbn [failed option_map].
  cbn [map first_failure key_is_array] in E.
  unfold rule_positions, rule_market_summary, rule_market_history, list_field, dict_getitem.
  destruct (dict_lookup "Positions" d) as [[| | | | |ps|]|]; try discriminate.
  destruct (dict_lookup "Market_Summary" d) as [[| | | | |ms|]|]; try discriminate.
  destruct (dict_lookup "market_history" d) as [[| | | | |hs|]|]; try discriminate.
  cbn [rbind py_iter]. rewrite rows_loop_rules.
  destruct (first_bad_element _ ps 0); [reflexivity|].
  cbn [failed option_map]. rewrite rows_loop_rules.
  destruct (first_bad_element _ ms 0); [reflexivity|].
  cbn [failed option_map]. rewrite history_loop_rules. cbn [rbind].
  destruct (first_bad_element _ hs 0); reflexivity.
Qed.

Lemma missing_field_none (name : string) (idx : nat) (fields : list string) (d : dict F) :
  missing_field name idx fields d = None ->
  Forall (fun field => dict_lookup field d <> None) fields.
Proof.
  unfold missing_field.
  induction fields as [|field rest IH]; simpl; intros E.
  - constructor.
  - destruct (dict_lookup field d) eqn:Ef; [|discriminate].
    constructor; [congruence|]. apply IH. exact E.
Qed.

Lemma first_bad_element_none (name : string) (fields : list string) (rows : list (json F)) :
  forall idx,
    first_bad_element (element_has name fields) rows idx = None ->
    Forall (has_fields fields) rows.
Proof.
  induction rows as [|row rest IH]; intros idx E; simpl in E.
  - constructor.
  - destruct (element_has name fields idx row) eqn:Er; [discriminate|].
    constructor; [|eapply IH; exact E].
    destruct row; try discriminate.
    exists o. split; [reflexivity|]. eapply missing_field_none. exact Er.
Qed.

(** What a validated payload looks like. *)
Lemma validated_shape (payload : json F) :
  validated payload ->
  exists d ps ms hs,
    payload = JObj d
    /\ dict_lookup "Positions" d = Some (JList ps)
    /\ dict_lookup "Market_Summary" d = Some (JList ms)
    /\ dict_lookup "market_history" d = Some (JList hs)
    /\ Forall (has_fields ["ticker"; "quantity"; "purchase_price"]) ps
    /\ Forall (has_fields ["ticker"; "current_price"; "category"]) ms.
Proof.
  intros [msg Hv]. rewrite validate_tick_payload_rules in Hv.
  injection Hv as Hv. unfold validate_spec in Hv.
  destruct (first_failure validation_rules payload) as [reason|] eqn:E; [discriminate|].
  clear Hv. unfold validation_rules in E. cbn [first_failure] in E.
  destruct (rule_object payload) eqn:E1; [discriminate|].
  destruct (rule_required_arrays payload) eqn:E2; [discriminate|].
  destruct (rule_positions payload) eqn:E3; [discriminate|].
  destruct (rule_market_summary payload) eqn:E4; [discriminate|].
  clear E. destruct payload as [| | | | | |d]; try discriminate.
  unfold rule_required_arrays in E2. cbn [map first_failure key_is_array] in E2.
  unfold rule_positions, rule_market_summary, list_field in E3, E4.
  destruct (dict_lookup "Positions" d) as [[| | | | |ps|]|] eqn:Ep; try discriminate.
  destruct (dict_lookup "Market_Summary" d) as [[| | | | |ms|]|] eqn:Em; try discriminate.
  destruct (dict_lookup "market_history" d) as [[| | | | |hs|]|] eqn:Eh; try discriminate.
  exists d, ps, ms, hs.
  split; [reflexivity|]. split; [exact Ep|]. split; [exact Em|]. split; [exact Eh|].
  split; eapply first_bad_element_none; eassumption.
Qed.

End ValidatorFacts.

(** ** The recommendation client *)

Section AiFacts.
Context {F : Type} `{PyNum F}.

Local Open Scope res_scope.

(** On positions that all carry a ticker, the fallback comprehension keeps
    every element. *)
Lemma fallback_list_tickers (ps : list (json F)) :
  Forall (has_fields ["ticker"; "quantity"; "purchase_price"]) ps ->
  exists tickers,
    Forall2 (fun p t => py_getitem p "ticker" = inr t) ps tickers
    /\ fallback_list ps = map stay tickers.
Proof.
  induction 1 as [|p rest Hp _ [tickers [Hall Heq]]].
  - exists []. split; [constructor|reflexivity].
  - destruct Hp as [d [-> Hfields]].
    inversion Hfields as [|? ? Hticker _]; subst.
    destruct (dict_lookup "ticker" d) as [t|] eqn:Et; [|contradiction].
    exists (t :: tickers). split.
    + constructor; [|exact Hall]. cbn [py_getitem]. unfold dict_getitem.
      rewrite Et. reflexivity.
    + cbn [fallback_list]. rewrite Et, Heq. reflexivity.
Qed.

Lemma _fallback_trades_validated (payload : json F) :
  validated payload ->
  exists ps tickers,
    py_getitem payload "Positions" = inr (JList ps)
    /\ Forall2 (fun p t => py_getitem p "ticker" = inr t) ps tickers
    /\ _fallback_trades payload =
       inr (JObj [("trades", JList (map stay tickers));
                  ("rationale", JStr fallback_rationale)]).
Proof.
  intros Hv.
  destruct (validated_shape _ Hv) as (d & ps & ms & hs & -> & Hp & _ & _ & Hps & _).
  destruct (fallback_list_tickers ps Hps) as [tickers [Hall Heq]].
  exists ps, tickers. split; [|split].
  - cbn [py_getitem]. unfold dict_getitem. rewrite Hp. reflexivity.
  - exact Hall.
  - unfold _fallback_trades. cbn [py_get]. rewrite Hp. cbn [rbind py_iter].
    rewrite Heq. reflexivity.
Qed.

Lemma _build_user_message_validated (payload : json F) :
  validated payload -> exists msg, _build_user_message payload = inr msg.
Proof.
  intros Hv.
  destruct (validated_shape _ Hv) as (d & ps & ms & hs & -> & Hp & _).
  unfold _build_user_message. cbn [py_get]. rewrite Hp.
  destruct (dict_lookup "Prices" d); destruct (dict_lookup "News" d);
    cbn [rbind py_iter]; eexists; reflexivity.
Qed.

Lemma read_response_shaped (resp : Response F) (payload out : json F) :
  validated payload -> read_response resp payload = inr out -> advice_shaped out.
Proof.
  intros Hv. destruct (_fallback_trades_validated _ Hv) as (ps & tickers & _ & _ & Hfb).
  unfold read_response.
  destruct (first (output resp)) as [e|output_item]; cbn [rbind]; [discriminate|].
  destruct (first (content output_item)) as [e|content_item]; cbn [rbind]; [discriminate|].
  destruct (tool_calls content_item) as [|tool_call rest].
  - rewrite Hfb. intros E. injection E as <-. eexists _, _. reflexivity.
  - destruct (arguments tool_call) as [e|tool_args]; cbn [rbind]; [discriminate|].
    destruct (py_get tool_args "trades" (JList [])) as [e|trades]; cbn [rbind];
      [discriminate|].
    destruct (py_get tool_args "rationale" _) as [e|rationale]; cbn [rbind];
      [discriminate|].
    destruct trades; cbn [is_list negb]; rewrite ?Hfb; intros E; injection E as <-;
      eexists _, _; reflexivity.
Qed.

Lemma get_trade_recommendations_shaped (API_KEY : option string) (ai : assistant F)
    (payload : json F) :
  validated payload ->
  exists out, get_trade_recommendations API_KEY ai payload = inr out /\ advice_shaped out.
Proof.
  intros Hv.
  destruct (_fallback_trades_validated _ Hv) as (ps & tickers & _ & _ & Hfb).
  destruct (_build_user_message_validated _ Hv) as [msg Hmsg].
  assert (Hfallback : exists out, _fallback_trades payload = inr out /\ advice_shaped out).
  { eexists. split; [exact Hfb|]. eexists _, _. reflexivity. }
  unfold get_trade_recommendations.
  destruct (no_credential API_KEY); [exact Hfallback|].
  destruct ai as [e|e|resp]; [exact Hfallback| |]; rewrite Hmsg; cbn [rbind].
  - exact Hfallback.
  - destruct (read_response resp payload) as [e|out] eqn:Er; cbn [try_except].
    + exact Hfallback.
    + exists out. split; [reflexivity|]. eapply read_response_shaped; eassumption.
Qed.

Lemma tick_advice_validated (API_KEY : option string) (ai : assistant F)
    (payload : json F) :
  validated payload ->
  exists trades rationale,
    get_trade_recommendations API_KEY ai payload =
      inr (JObj [("trades", JList trades); ("rationale", rationale)])
    /\ tick_advice API_KEY ai payload = inr (JList trades, rationale).
Proof.
  intros Hv.
  destruct (get_trade_recommendations_shaped API_KEY ai payload Hv)
    as (out & Hout & trades & rationale & ->).
  exists trades, rationale. split; [exact Hout|].
  unfold tick_advice. rewrite Hout. reflexivity.
Qed.

End AiFacts.

(** ** The tick, stage by stage *)

Section TickFacts.
Context {F : Type} `{PyNum F}.

Local Open Scope list_scope.

(** [analyze_tick] in terms of its stages: where it can stop, and the world
    it leaves at each stop. *)
Lemma analyze_tick_run (API_KEY : option string) (ai : assistant F)
    (http : http_outcome F) (payload : json F) (tid : string) (w : world F) :
  analyze_tick API_KEY ai http payload tid w =
  match tick_summary payload with
  | inl e => (w, inl e)
  | inr (evaluated, total) =>
      match tick_snapshot payload with
      | inl e => (w, inl e)
      | inr snapshot =>
          match tick_advice API_KEY ai payload with
          | inl e => (after_snapshot snapshot w, inl e)
          | inr (trades, rationale) =>
              let w2 := after_submission snapshot trades rationale tid w in
              match http with
              | PostRaises e => (w2, inl e)
              | HttpResponse status_code body =>
                  match py_setitem (response_data status_code body)
                          "_http_status" (JInt status_code) with
                  | inl e => (w2, inl e)
                  | inr resp =>
                      match reconcile (market_summary_of payload) resp w2 with
                      | (w3, inl e) => (w3, inl e)
                      | (w3, inr _) =>
                          (w3, inr (tick_result evaluated total trades resp))
                      end
                  end
              end
          end
      end
  end.
Proof.
  unfold analyze_tick, tick_summary, tick_snapshot, market_summary_of.
  destruct (py_get payload "Positions" (JList [])) as [e|positions]; [reflexivity|].
  destruct (py_get payload "Market_Summary" (JList [])) as [e|ms]; [reflexivity|].
  cbn [rbind bind lift].
  destruct (price_by_ticker ms) as [e|d]; [reflexivity|].
  cbn [rbind].
  destruct (py_iter positions) as [e|ps]; [reflexivity|].
  cbn [rbind].
  destruct (pnl_loop d ps 0 F0) as [e|[evaluated total]]; [reflexivity|].
  destruct (_build_positions_snapshot positions ms) as [e|snapshot]; [reflexivity|].
  unfold tick_advice.
  unfold bind at 1. cbn [lift].
  unfold bind at 1. unfold _write_json_list at 1. unfold bind at 1. cbn [store emit].
  unfold bind at 1. cbn [emit trace positions_file trades_file].
  unfold bind at 1. cbn [lift].
  rewrite <- app_assoc. cbn [app].
  fold (after_snapshot snapshot w).
  destruct (get_trade_recommendations API_KEY ai payload) as [e|ai_out]; [reflexivity|].
  cbn [rbind]. unfold bind at 1. cbn [lift].
  destruct (py_get ai_out "trades" (JList [])) as [e|trades]; [reflexivity|].
  cbn [rbind]. unfold bind at 1. cbn [lift].
  destruct (py_get ai_out "rationale" (JStr "")) as [e|rationale]; [reflexivity|].
  cbn [rbind].
  unfold bind at 1. unfold _append_trade_log, _read_json_list, _write_json_list.
  unfold bind at 1 2 3.
  cbn [store emit read_file after_snapshot trace positions_file trades_file].
  unfold _post_trades_to_mothership. unfold bind at 1 2.
  cbn [emit trace positions_file trades_file].
  rewrite <- !app_assoc. cbn [app].
  fold (history_with trades rationale w).
  fold (after_submission snapshot trades rationale tid w).
  destruct http as [e|status_code body]; [reflexivity|].
  unfold lift. fold (response_data status_code body).
  destruct (py_setitem (response_data status_code body) "_http_status" (JInt status_code))
    as [e|resp]; [reflexivity|].
  unfold bind.
  destruct (reconcile ms resp (after_submission snapshot trades rationale tid w))
    as [w3 [e|[]]]; reflexivity.
Qed.

(** The reconciliation branch either leaves the world alone or rewrites
    the snapshot; the history and the network are not its business. *)
Lemma reconcile_outcome (ms : json F) (resp : dict F) (w : world F) :
  (exists r, reconcile ms resp w = (w, r))
  \/ (exists merged,
        reconcile ms resp w =
        ({| positions_file := Document (JList merged);
            trades_file := trades_file w;
            trace := trace w ++ [Wrote POSITIONS_FILE merged] |}, inr tt)).
Proof.
  unfold reconcile.
  destruct (py_eq_int _ 200 && dict_mem "Positions" resp).
  - unfold bind, lift.
    destruct (dict_getitem resp "Positions") as [e|returned]; [left; eexists; reflexivity|].
    destruct (price_by_ticker ms) as [e|d]; [left; eexists; reflexivity|].
    destruct (py_iter returned) as [e|ps]; [left; eexists; reflexivity|].
    destruct (merged_loop d ps []) as [e|merged]; [left; eexists; reflexivity|].
    right. exists merged. reflexivity.
  - left. eexists. reflexivity.
Qed.

(** A response with status 200 and a [Positions] field whose elements all
    give a record: the snapshot is rewritten with these records. *)
Lemma reconcile_rewrites (ms returned : json F) (rps merged : list (json F))
    (d : prices) (resp : dict F) (w : world F) :
  dict_lookup "_http_status" resp = Some (JInt 200) ->
  dict_lookup "Positions" resp = Some returned ->
  price_by_ticker ms = inr d ->
  py_iter returned = inr rps ->
  res_map (position_record d) rps = inr merged ->
  reconcile ms resp w =
  ({| positions_file := Document (JList merged);
      trades_file := trades_file w;
      trace := trace w ++ [Wrote POSITIONS_FILE merged] |}, inr tt).
Proof.
  intros Hstatus Hpos Hd Hiter Hmap.
  unfold reconcile. rewrite Hstatus, dict_mem_lookup, Hpos.
  replace (py_eq_int (JInt 200) 200) with true by reflexivity.
  cbn [andb]. unfold bind, lift, dict_getitem. rewrite Hpos, Hd, Hiter.
  pose proof (merged_loop_records d rps []) as Hm. rewrite Hmap in Hm.
  destruct (merged_loop d rps []) as [e|merged']; [contradiction|].
  cbn [app] in Hm. subst merged'. reflexivity.
Qed.

(** A response with status 200 and a [Positions] field that cannot be
    iterated, or one of whose elements gives no record: the reconciliation
    raises and leaves the world as it was. *)
Lemma reconcile_raises (ms returned : json F) (d : prices) (resp : dict F)
    (w : world F) :
  dict_lookup "_http_status" resp = Some (JInt 200) ->
  dict_lookup "Positions" resp = Some returned ->
  price_by_ticker ms = inr d ->
  (exists e, py_iter returned = inl e)
  \/ (exists rps,
        py_iter returned = inr rps
        /\ Exists (fun p => exists e, position_fields p = inl e) rps) ->
  exists e, reconcile ms resp w = (w, inl e).
Proof.
  intros Hstatus Hpos Hd Hbad.
  unfold reconcile. rewrite Hstatus, dict_mem_lookup, Hpos.
  replace (py_eq_int (JInt 200) 200) with true by reflexivity.
  cbn [andb]. unfold bind, lift, dict_getitem. rewrite Hpos, Hd.
  destruct Hbad as [[e He]|(rps & Hiter & Hex)].
  - rewrite He. exists e. reflexivity.
  - rewrite Hiter.
    assert (Hmap : exists e, res_map (position_record d) rps = inl e).
    { apply res_map_raises. revert Hex. apply Exists_impl.
      intros p [e Hp]. exists e. unfold position_record. rewrite Hp. reflexivity. }
    destruct Hmap as [e Hmap].
    pose proof (merged_loop_records d rps []) as Hm. rewrite Hmap in Hm.
    destruct (merged_loop d rps []) as [e'|merged]; [|contradiction].
    exists e'. reflexivity.
Qed.

(** When the reconciliation of such a response returns, every returned
    element gave its record and the snapshot file holds these records. *)
Lemma reconcile_returns (ms returned : json F) (rps : list (json F)) (d : prices)
    (resp : dict F) (w w' : world F) :
  dict_lookup "_http_status" resp = Some (JInt 200) ->
  dict_lookup "Positions" resp = Some returned ->
  price_by_ticker ms = inr d ->
  py_iter returned = inr rps ->
  reconcile ms resp w = (w', inr tt) ->
  exists merged,
    res_map (position_record d) rps = inr merged
    /\ w' = {| positions_file := Document (JList merged);
               trades_file := trades_file w;
               trace := trace w ++ [Wrote POSITIONS_FILE merged] |}.
Proof.
  intros Hstatus Hpos Hd Hiter Hrun.
  destruct (res_map (position_record d) rps) as [e|merged] eqn:Hmap.
  - destruct (reconcile_raises ms returned d resp w Hstatus Hpos Hd) as [e' He'].
    + right. exists rps. split; [exact Hiter|].
      clear Hiter Hrun. revert e Hmap.
      induction rps as [|p rest IH]; intros e Hmap; cbn [res_map] in Hmap;
        [discriminate|].
      unfold position_record at 1 in Hmap.
      destruct (position_fields p) as [e0|[[[ticker qty] pp] k]] eqn:Hp;
        cbn [rbind] in Hmap.
      * left. exists e0. exact Hp.
      * right. destruct (res_map (position_record d) rest) as [e1|bs];
          cbn [rbind] in Hmap; [|discriminate].
        apply (IH e1). reflexivity.
    + rewrite He' in Hrun. discriminate.
  - exists merged. split; [reflexivity|].
    rewrite (reconcile_rewrites ms returned rps merged d resp w Hstatus Hpos Hd Hiter Hmap)
      in Hrun.
    injection Hrun as <-. reflexivity.
Qed.

(** The status stored by [_post_trades_to_mothership] is the one read
    back, and the other keys of the body are untouched. *)
Lemma dict_lookup_set (key key' : string) (v : json F) (d : dict F) :
  dict_lookup key' (dict_set key v d) =
  if String.eqb key key' then Some v else dict_lookup key' d.
Proof.
  induction d as [|[k w] rest IH]; cbn [dict_set dict_lookup].
  - destruct (String.eqb key key'); reflexivity.
  - destruct (String.eqb k key) eqn:E; cbn [dict_lookup].
    + apply String.eqb_eq in E. subst k.
      destruct (String.eqb key key'); reflexivity.
    + destruct (String.eqb k key') eqn:E'; [|exact IH].
      apply String.eqb_eq in E'. subst k. rewrite String.eqb_sym, E. reflexivity.
Qed.

Lemma posted_app (tr tr' : list (event F)) :
  posted (tr ++ tr') = posted tr ++ posted tr'.
Proof.
  induction tr as [|ev rest IH]; simpl.
  - reflexivity.
  - destruct ev; simpl; rewrite IH; reflexivity.
Qed.

(** What the reconciliation leaves alone. *)
Lemma reconcile_keeps_history (ms : json F) (resp : dict F) (w : world F) :
  trades_file (fst (reconcile ms resp w)) = trades_file w
  /\ posted (trace (fst (reconcile ms resp w))) = posted (trace w).
Proof.
  destruct (reconcile_outcome ms resp w) as [[r E]|[merged E]]; rewrite E; simpl.
  - split; reflexivity.
  - split; [reflexivity|]. rewrite posted_app. simpl. apply app_nil_r.
Qed.

(** The history and the submissions of one tick.  Either the tick stops
    before the history step and leaves both alone, or it appends one entry
    and posts the trades of that entry; a tick that returns a result is of
    the second kind, and its [decisions] are those trades. *)
Lemma analyze_tick_history (API_KEY : option string) (ai : assistant F)
    (http : http_outcome F) (payload : json F) (tid : string) (w : world F) :
  let (w', r) := analyze_tick API_KEY ai http payload tid w in
  (trades_file w' = trades_file w
   /\ posted (trace w') = posted (trace w)
   /\ exists e, r = inl e)
  \/ (exists trades rationale,
        tick_advice API_KEY ai payload = inr (trades, rationale)
        /\ read_list (trades_file w') =
           read_list (trades_file w) ++ [trade_entry trades rationale]
        /\ posted (trace w') = posted (trace w) ++ [trades]
        /\ forall result, r = inr result ->
                          dict_lookup "decisions" result = Some trades).
Proof.
  rewrite analyze_tick_run.
  destruct (tick_summary payload) as [e|[evaluated total]];
    [left; split; [reflexivity|split; [reflexivity|eexists; reflexivity]]|].
  destruct (tick_snapshot payload) as [e|snapshot];
    [left; split; [reflexivity|split; [reflexivity|eexists; reflexivity]]|].
  destruct (tick_advice API_KEY ai payload) as [e|[trades rationale]].
  - left. split; [reflexivity|]. split; [|eexists; reflexivity].
    cbn [after_snapshot trace]. rewrite posted_app. simpl. apply app_nil_r.
  - assert (Hposted : posted (trace (after_submission snapshot trades rationale tid w))
                      = posted (trace w) ++ [trades]).
    { cbn [after_submission trace]. rewrite posted_app. reflexivity. }
    cbv zeta.
    destruct http as [e|status_code body].
    + right. exists trades, rationale. split; [reflexivity|].
      split; [reflexivity|]. split; [exact Hposted|]. discriminate.
    + destruct (py_setitem _ "_http_status" (JInt status_code)) as [e|resp].
      * right. exists trades, rationale. split; [reflexivity|].
        split; [reflexivity|]. split; [exact Hposted|]. discriminate.
      * pose proof (reconcile_keeps_history (market_summary_of payload) resp
                      (after_submission snapshot trades rationale tid w)) as [Hfile Htrace].
        destruct (reconcile _ resp _) as [w3 [e|u]]; cbn [fst] in Hfile, Htrace;
          right; exists trades, rationale; (split; [reflexivity|]);
          rewrite Hfile, Htrace; (split; [reflexivity|]); (split; [exact Hposted|]).
        -- discriminate.
        -- intros result E. injection E as <-. reflexivity.
Qed.

(** The records of the snapshot loops, read against the quotes. *)
Lemma position_record_quoted (ms : json F) (rows : list (json F)) (d : prices)
    (pos record : json F) :
  py_iter ms = inr rows ->
  price_by_ticker ms = inr d ->
  position_record d pos = inr record <-> quoted_record rows pos record.
Proof.
  intros Hrows Hd. unfold position_record, quoted_record, current_price_of.
  split.
  - destruct (position_fields pos) as [e|[[[ticker qty] pp] k]]; cbn [rbind];
      [discriminate|].
    intros E. injection E as <-. exists ticker, qty, pp, k.
    split; [reflexivity|].
    rewrite (price_by_ticker_lookup ms rows d k Hrows Hd). reflexivity.
  - intros (ticker & qty & pp & k & -> & ->). cbn [rbind].
    rewrite (price_by_ticker_lookup ms rows d k Hrows Hd). reflexivity.
Qed.

Lemma res_map_quoted (ms : json F) (rows : list (json F)) (d : prices)
    (ps records : list (json F)) :
  py_iter ms = inr rows ->
  price_by_ticker ms = inr d ->
  res_map (position_record d) ps = inr records <->
  Forall2 (quoted_record rows) ps records.
Proof.
  intros Hrows Hd. rewrite res_map_Forall2.
  split; intros Hall; induction Hall; constructor; try assumption;
    apply (position_record_quoted ms rows d _ _ Hrows Hd); assumption.
Qed.

(** [_build_positions_snapshot] gives one record per position. *)
Lemma _build_positions_snapshot_quoted (positions ms : json F)
    (ps rows snapshot : list (json F)) :
  py_iter positions = inr ps ->
  py_iter ms = inr rows ->
  _build_positions_snapshot positions ms = inr snapshot ->
  Forall2 (quoted_record rows) ps snapshot.
Proof.
  intros Hps Hrows. unfold _build_positions_snapshot.
  destruct (price_by_ticker ms) as [e|d] eqn:Hd; cbn [rbind]; [discriminate|].
  rewrite Hps. cbn [rbind]. rewrite snapshot_loop_records.
  destruct (res_map (position_record d) ps) as [e|records] eqn:Hmap; cbn [rbind];
    [discriminate|].
  intros E. injection E as <-. cbn [app].
  apply (res_map_quoted ms rows d ps records Hrows Hd). exact Hmap.
Qed.

(** A tick that returns a result returns the summary of its first stage. *)
Lemma analyze_tick_summary (API_KEY : option string) (ai : assistant F)
    (http : http_outcome F) (payload : json F) (tid : string)
    (w w' : world F) (result : dict F) :
  analyze_tick API_KEY ai http payload tid w = (w', inr result) ->
  exists evaluated total,
    tick_summary payload = inr (evaluated, total)
    /\ dict_lookup "summary" result =
       Some (JObj [("positions_evaluated", JInt evaluated);
                   ("unrealized_pnl", JFloat (Fround4 total))]).
Proof.
  rewrite analyze_tick_run.
  destruct (tick_summary payload) as [e|[evaluated total]]; [discriminate|].
  destruct (tick_snapshot payload) as [e|snapshot]; [discriminate|].
  destruct (tick_advice API_KEY ai payload) as [e|[trades rationale]]; [discriminate|].
  cbv zeta. destruct http as [e|status_code body]; [discriminate|].
  destruct (py_setitem _ "_http_status" (JInt status_code)) as [e|resp]; [discriminate|].
  destruct (reconcile _ resp _) as [w3 [e|u]]; [discriminate|].
  intros E. injection E as _ <-. exists evaluated, total. split; reflexivity.
Qed.

End TickFacts.

(** ** The claims *)

Section Claims.
Context {F : Type} `{PyNum F}.

Local Open Scope list_scope.

(** C2.  On a validated payload [get_trade_recommendations] never raises,
    whatever the assistant does; and when no credential is configured
    ([API_KEY] is [None] or the empty string) it returns one trade
    [{action: STAY, ticker: t, quantity: 0}] for each element of
    [Positions], [t] being that element's ticker, in payload order,
    together with the fixed fallback rationale. *)
Theorem get_trade_recommendations_never_raises (API_KEY : option string)
    (ai : assistant F) (payload : json F) :
  validated payload ->
  (exists out, get_trade_recommendations API_KEY ai payload = inr out)
  /\ (API_KEY = None \/ API_KEY = Some ""%string ->
      exists ps tickers,
        py_getitem payload "Positions" = inr (JList ps)
        /\ Forall2 (fun p t => py_getitem p "ticker" = inr t) ps tickers
        /\ get_trade_recommendations API_KEY ai payload =
           inr (JObj [("trades",
                       JList (map (fun t => JObj [("action", JStr "STAY");
                                                  ("ticker", t);
                                                  ("quantity", JInt 0)])
                                  tickers));
                      ("rationale",
                       JStr "Fallback: STAY on all positions because AI was unavailable.")])).
Proof.
  intros Hv. split.
  - destruct (get_trade_recommendations_shaped API_KEY ai payload Hv) as (out & Hout & _).
    exists out. exact Hout.
  - intros Hkey.
    destruct (_fallback_trades_validated _ Hv) as (ps & tickers & Hps & Hall & Hfb).
    exists ps, tickers. split; [exact Hps|]. split; [exact Hall|].
    unfold get_trade_recommendations.
    replace (no_credential API_KEY) with true by (destruct Hkey; subst; reflexivity).
    exact Hfb.
Qed.

(** C8, the failing case.  A response whose body is valid JSON but not an
    object (here the empty array) makes [_post_trades_to_mothership] raise
    [TypeError] when it stores the status, after the request was sent. *)
Theorem _post_trades_to_mothership_raises_on_array (status_code : Z)
    (trade_id : string) (trades : json F) (w : world F) :
  _post_trades_to_mothership (HttpResponse status_code (Some (JList [])))
    trade_id trades w =
  ({| positions_file := positions_file w;
      trades_file := trades_file w;
      trace := trace w ++ [Posted trade_id trades] |}, inl TypeError).
Proof. reflexivity. Qed.

(** The cases [_post_trades_to_mothership] does handle: a body that is a
    JSON object comes back with the status stored under [_http_status], and
    a body that is not JSON becomes the synthesized error object with the
    status stored likewise. *)
Lemma _post_trades_to_mothership_annotates (status_code : Z)
    (body : option (json F)) (trade_id : string) (trades : json F) (w : world F) :
  (forall j, body = Some j -> is_dict j = true) ->
  exists data,
    snd (_post_trades_to_mothership (HttpResponse status_code body) trade_id trades w)
      = inr data
    /\ dict_lookup "_http_status" data = Some (JInt status_code)
    /\ (body = None ->
        data = [("error", JStr ("Non-JSON response from mothership (status "
                                ++ str_of_Z status_code ++ ")")%string);
                ("_http_status", JInt status_code)]).
Proof.
  intros Hbody. destruct body as [j|].
  - specialize (Hbody j eq_refl). destruct j; try discriminate.
    exists (dict_set "_http_status" (JInt status_code) o).
    split; [reflexivity|]. split; [|discriminate].
    rewrite dict_lookup_set. reflexivity.
  - eexists. split; [reflexivity|]. split; reflexivity.
Qed.

(** A tick that passes the stages before the history step appends the
    entry of its advice and posts the trades of that entry. *)
Lemma analyze_tick_appends (API_KEY : option string) (ai : assistant F)
    (http : http_outcome F) (payload : json F) (tid : string) (w : world F)
    (summary : Z * F) (snapshot : list (json F)) (trades rationale : json F) :
  tick_summary payload = inr summary ->
  tick_snapshot payload = inr snapshot ->
  tick_advice API_KEY ai payload = inr (trades, rationale) ->
  let w' := fst (analyze_tick API_KEY ai http payload tid w) in
  read_list (trades_file w') =
    read_list (trades_file w) ++ [trade_entry trades rationale]
  /\ posted (trace w') = posted (trace w) ++ [trades].
Proof.
  intros Hsummary Hsnapshot Hadvice.
  rewrite analyze_tick_run, Hsummary, Hsnapshot, Hadvice.
  destruct summary as [evaluated total]. cbv zeta.
  assert (Hposted : posted (trace (after_submission snapshot trades rationale tid w))
                    = posted (trace w) ++ [trades]).
  { cbn [after_submission trace]. rewrite posted_app. reflexivity. }
  destruct http as [e|status_code body]; [split; [reflexivity|exact Hposted]|].
  destruct (py_setitem _ "_http_status" (JInt status_code)) as [e|resp];
    [split; [reflexivity|exact Hposted]|].
  pose proof (reconcile_keeps_history (market_summary_of payload) resp
                (after_submission snapshot trades rationale tid w)) as [Hfile Htrace].
  destruct (reconcile _ resp _) as [w3 [e|u]]; cbn [fst] in *;
    rewrite Hfile, Htrace; (split; [reflexivity|exact Hposted]).
Qed.

(** The history over a run of ticks: the file holds its former entries
    followed by one entry per tick that reached the history step, in the
    order of the ticks; the trades of these entries are the trades posted;
    and when every tick returns a result there is one entry per tick, with
    the [decisions] that tick returned. *)
Lemma run_ticks_history (API_KEY : option string) (ticks : list (arrival F)) :
  forall (w w' : world F) (results : list (res (dict F))),
    run_ticks API_KEY ticks w = (w', results) ->
    exists advice : list (json F * json F),
      read_list (trades_file w') =
        read_list (trades_file w) ++ map (fun a => trade_entry (fst a) (snd a)) advice
      /\ posted (trace w') = posted (trace w) ++ map fst advice
      /\ (List.length advice <= List.length ticks)%nat
      /\ (Forall succeeded results ->
          List.length advice = List.length ticks
          /\ Forall2 (fun a r => exists result,
                          r = inr result
                          /\ dict_lookup "decisions" result = Some (fst a))
                     advice results).
Proof.
  induction ticks as [|t rest IH]; intros w w' results Hrun; cbn [run_ticks] in Hrun.
  - injection Hrun as <- <-. exists []. cbn [map]. rewrite !app_nil_r.
    split; [reflexivity|]. split; [reflexivity|]. split; [apply le_n|].
    intros _. split; [reflexivity|constructor].
  - pose proof (analyze_tick_history API_KEY (arr_ai t) (arr_http t) (arr_payload t)
                  (arr_trade_id t) w) as Hstep.
    destruct (analyze_tick API_KEY (arr_ai t) (arr_http t) (arr_payload t)
                (arr_trade_id t) w) as [w1 r].
    destruct (run_ticks API_KEY rest w1) as [w2 rs] eqn:Hrest.
    injection Hrun as <- <-.
    destruct (IH w1 w2 rs Hrest) as (advice & Hfile' & Hposted' & Hlen & Hall).
    destruct Hstep as [(Hfile & Hposted & e & ->)
                      |(trades & rationale & _ & Hfile & Hposted & Hdec)].
    + exists advice. rewrite Hfile', Hposted', Hfile, Hposted.
      split; [reflexivity|]. split; [reflexivity|].
      split; [cbn [List.length]; lia|].
      intros Hok. inversion Hok as [|? ? Hr _]. contradiction.
    + exists ((trades, rationale) :: advice). cbn [map fst snd List.length].
      rewrite Hfile', Hfile, Hposted', Hposted, <- !app_assoc. cbn [app].
      split; [reflexivity|]. split; [reflexivity|]. split; [lia|].
      intros Hok. inversion Hok as [|? ? Hr Hrs]; subst.
      destruct r as [e|result]; [contradiction|].
      destruct (Hall Hrs) as [Hlen' Hall'].
      split; [congruence|].
      constructor; [|exact Hall']. exists result. split; [reflexivity|].
      apply Hdec. reflexivity.
Qed.

(** C3.  The trade history is append-only.  [_append_trade_log] puts one
    entry [{ai_recommendations: trades, rationale}] after the entries the
    file holds and keeps those; a tick that reaches the history step
    appends exactly that one entry, whose trades are the trades it posts;
    over any run of ticks the file keeps its former entries and gains, in
    the order of the ticks, the entries of the ticks that reached the
    history step; and after N ticks that all return a result it has gained
    N entries (it holds exactly N when it was empty or absent), the trades
    of each being the trades sent to the remote endpoint for that tick. *)
Theorem trade_history_is_append_only :
  (forall (trades rationale : json F) (w : world F),
      read_list (trades_file (fst (_append_trade_log trades rationale w))) =
      read_list (trades_file w)
      ++ [JObj [("ai_recommendations", trades); ("rationale", rationale)]])
  /\ (forall API_KEY ai http payload tid (w : world F) summary snapshot
             trades rationale,
        tick_summary payload = inr summary ->
        tick_snapshot payload = inr snapshot ->
        tick_advice API_KEY ai payload = inr (trades, rationale) ->
        let w' := fst (analyze_tick API_KEY ai http payload tid w) in
        read_list (trades_file w') =
          read_list (trades_file w)
          ++ [JObj [("ai_recommendations", trades); ("rationale", rationale)]]
        /\ posted (trace w') = posted (trace w) ++ [trades])
  /\ (forall API_KEY (ticks : list (arrival F)) (w w' : world F) results,
        run_ticks API_KEY ticks w = (w', results) ->
        exists advice : list (json F * json F),
          read_list (trades_file w') =
            read_list (trades_file w)
            ++ map (fun a => JObj [("ai_recommendations", fst a);
                                   ("rationale", snd a)]) advice
          /\ posted (trace w') = posted (trace w) ++ map fst advice
          /\ (List.length advice <= List.length ticks)%nat
          /\ (Forall succeeded results ->
              List.length advice = List.length ticks
              /\ (read_list (trades_file w) = [] ->
                  List.length (read_list (trades_file w')) = List.length ticks)
              /\ Forall2 (fun a r => exists result,
                              r = inr result
                              /\ dict_lookup "decisions" result = Some (fst a))
                         advice results)).
Proof.
  split; [|split].
  - intros trades rationale w. reflexivity.
  - intros API_KEY ai http payload tid w summary snapshot trades rationale.
    apply analyze_tick_appends.
  - intros API_KEY ticks w w' results Hrun.
    destruct (run_ticks_history API_KEY ticks w w' results Hrun)
      as (advice & Hfile & Hposted & Hlen & Hall).
    exists advice. split; [exact Hfile|]. split; [exact Hposted|].
    split; [exact Hlen|].
    intros Hok. destruct (Hall Hok) as [Hcount Hdec].
    split; [exact Hcount|]. split; [|exact Hdec].
    intros Hempty. rewrite Hfile, Hempty. cbn [app]. rewrite length_map. exact Hcount.
Qed.

(** C5.  When the submission raises a transport-level error [e], the
    exception leaves [analyze_tick]: no request gets a success response,
    and a request that passed the gates and the stages before the
    submission is answered with the failure response of status 500, while
    the snapshot and the history entry written earlier in the tick are on
    disk. *)
Theorem transport_error_fails_the_request (API_KEY : string)
    (AI_API_KEY : option string) (ai : assistant F) (e : exn) (req : request F)
    (payload : json F) (evaluated : Z) (total : F) (snapshot : list (json F))
    (trades rationale : json F) (w : world F) :
  require_apikey API_KEY req = true ->
  is_json req = true ->
  get_json req = Some payload ->
  validated payload ->
  tick_summary payload = inr (evaluated, total) ->
  tick_snapshot payload = inr snapshot ->
  tick_advice AI_API_KEY ai payload = inr (trades, rationale) ->
  (forall req0 w0 result,
      snd (tick API_KEY AI_API_KEY ai (PostRaises e) req0 w0) <> Success result)
  /\ exists w',
      analyze_tick AI_API_KEY ai (PostRaises e) payload (trade_id req) w = (w', inl e)
      /\ tick API_KEY AI_API_KEY ai (PostRaises e) req w = (w', ProcessingError e)
      /\ status (ProcessingError e : response F) = 500
      /\ result_field (ProcessingError e : response F) = Some (JStr "failure")
      /\ positions_file w' = Document (JList snapshot)
      /\ trades_file w' =
         Document (JList (read_list (trades_file w) ++ [trade_entry trades rationale])).
Proof.
  intros Hkey Hjson Hbody [msg Hv] Hsummary Hsnapshot Hadvice. split.
  - intros req0 w0 result. unfold tick.
    destruct (require_apikey API_KEY req0); cbn [negb]; [|discriminate].
    destruct (is_json req0); cbn [negb]; [|discriminate].
    destruct (get_json req0) as [payload0|]; [|discriminate].
    destruct (validate_tick_payload payload0) as [e0|[[|] msg0]]; try discriminate.
    rewrite analyze_tick_run.
    destruct (tick_summary payload0) as [e0|[ev tot]]; [discriminate|].
    destruct (tick_snapshot payload0) as [e0|snap]; [discriminate|].
    destruct (tick_advice AI_API_KEY ai payload0) as [e0|[tr ra]]; discriminate.
  - exists (after_submission snapshot trades rationale (trade_id req) w).
    assert (Hrun : analyze_tick AI_API_KEY ai (PostRaises e) payload (trade_id req) w
                   = (after_submission snapshot trades rationale (trade_id req) w, inl e)).
    { rewrite analyze_tick_run, Hsummary, Hsnapshot, Hadvice. reflexivity. }
    split; [exact Hrun|]. split.
    + unfold tick. rewrite Hkey, Hjson, Hbody, Hv. cbn [negb]. rewrite Hrun. reflexivity.
    + repeat split.
Qed.

(** C6, as amended.  A position whose ticker is hashable, whose quantity
    [int()] accepts, whose purchase price [float()] accepts, and whose
    ticker no [Market_Summary] row quotes, is skipped: the summary stage
    ends as it does on the payload without that position (same count and
    sum, or same exception), and the summary a tick returns is the one of
    the payload without it. *)
Theorem unmatched_position_is_skipped (o : dict F)
    (before after rows : list (json F)) (pos ticker : json F) (qty : Z)
    (purchase_price : F) (k : pykey) :
  dict_lookup "Positions" o = Some (JList (before ++ pos :: after)) ->
  dict_lookup "Market_Summary" o = Some (JList rows) ->
  position_fields pos = inr (ticker, qty, purchase_price, k) ->
  unmatched rows k ->
  let without := JObj (dict_set "Positions" (JList (before ++ after)) o) in
  tick_summary (JObj o) = tick_summary without
  /\ forall API_KEY ai http tid w w' result,
      analyze_tick API_KEY ai http (JObj o) tid w = (w', inr result) ->
      exists evaluated total,
        tick_summary without = inr (evaluated, total)
        /\ dict_lookup "summary" result =
           Some (JObj [("positions_evaluated", JInt evaluated);
                       ("unrealized_pnl", JFloat (Fround4 total))]).
Proof.
  intros Hps Hms Hpos Hun without.
  assert (Hsame : tick_summary (JObj o) = tick_summary without).
  { unfold without, tick_summary. cbn [py_get].
    rewrite !dict_lookup_set. cbn [String.eqb Ascii.eqb Bool.eqb].
    rewrite Hps, Hms. cbn [rbind py_iter].
    destruct (price_by_ticker (JList rows)) as [e|d] eqn:Hd; [reflexivity|].
    cbn [rbind]. apply (pnl_loop_skip d before after pos ticker qty purchase_price k).
    - exact Hpos.
    - rewrite (price_by_ticker_lookup (JList rows) rows d k eq_refl Hd).
      apply last_row_price_unmatched. exact Hun. }
  split; [exact Hsame|].
  intros API_KEY ai http tid w w' result Hrun.
  rewrite <- Hsame. eapply analyze_tick_summary. exact Hrun.
Qed.

(** C7, as amended.  When the summary stage or the snapshot stage raises
    (an unhashable ticker, a quantity [int()] rejects, a purchase price or
    a current price [float()] rejects, a product that overflows), the tick
    fails and the world is as it was: nothing is written.  When both
    stages return, the first thing [analyze_tick] does to the world is to
    overwrite the snapshot file, and the next is to call the
    recommendation client, whatever the assistant and the remote endpoint
    do afterwards: the write stores the snapshot in the file in the same
    step as it is recorded, a tick whose consultation raises ends with the
    snapshot in the file, and at the end of any tick the file holds the
    snapshot unless the reconciliation has rewritten it.  The snapshot holds
    one record per element of [Positions]: its ticker, [int(quantity)],
    [float(purchase_price)], and the [Market_Summary] price of its ticker,
    [null] when no row quotes it. *)
Theorem snapshot_written_before_consulting (API_KEY : option string)
    (ai : assistant F) (http : http_outcome F) (o : dict F) (tid : string)
    (w : world F) (ps rows : list (json F)) :
  dict_lookup "Positions" o = Some (JList ps) ->
  dict_lookup "Market_Summary" o = Some (JList rows) ->
  (forall e,
      tick_summary (JObj o) = inl e \/ tick_snapshot (JObj o) = inl e ->
      exists e', analyze_tick API_KEY ai http (JObj o) tid w = (w, inl e'))
  /\ (forall evaluated total snapshot,
        tick_summary (JObj o) = inr (evaluated, total) ->
        tick_snapshot (JObj o) = inr snapshot ->
        Forall2 (quoted_record rows) ps snapshot
        /\ _write_json_list POSITIONS_FILE snapshot w =
           ({| positions_file := Document (JList snapshot);
               trades_file := trades_file w;
               trace := trace w ++ [Wrote POSITIONS_FILE snapshot] |}, inr tt)
        /\ (exists later,
              trace (fst (analyze_tick API_KEY ai http (JObj o) tid w)) =
              trace w ++ Wrote POSITIONS_FILE snapshot :: Consulted :: later
              /\ (positions_file (fst (analyze_tick API_KEY ai http (JObj o) tid w))
                  = Document (JList snapshot)
                  \/ exists merged,
                       In (Wrote POSITIONS_FILE merged) later
                       /\ positions_file
                            (fst (analyze_tick API_KEY ai http (JObj o) tid w))
                          = Document (JList merged)))
        /\ (forall e,
              tick_advice API_KEY ai (JObj o) = inl e ->
              analyze_tick API_KEY ai http (JObj o) tid w =
              ({| positions_file := Document (JList snapshot);
                  trades_file := trades_file w;
                  trace := trace w ++ [Wrote POSITIONS_FILE snapshot; Consulted] |},
               inl e)))
  /\ (forall pos record ticker qty purchase_price k,
        position_fields pos = inr (ticker, qty, purchase_price, k) ->
        unmatched rows k ->
        quoted_record rows pos record ->
        record = JObj [("ticker", ticker);
                       ("quantity", JInt qty);
                       ("purchase_price", JFloat purchase_price);
                       ("current_price", JNull)]).
Proof.
  intros Hps Hms. split; [|split].
  - intros e Hfail. rewrite analyze_tick_run.
    destruct (tick_summary (JObj o)) as [e1|[evaluated total]];
      [exists e1; reflexivity|].
    destruct Hfail as [E|E]; [discriminate|]. rewrite E. exists e. reflexivity.
  - intros evaluated total snapshot Hsummary Hsnapshot.
    split; [|split; [reflexivity|split]].
    + unfold tick_snapshot in Hsnapshot. cbn [py_get] in Hsnapshot.
      rewrite Hps, Hms in Hsnapshot. cbn [rbind] in Hsnapshot.
      exact (_build_positions_snapshot_quoted (JList ps) (JList rows) ps rows snapshot
               eq_refl eq_refl Hsnapshot).
    + rewrite analyze_tick_run, Hsummary, Hsnapshot.
      destruct (tick_advice API_KEY ai (JObj o)) as [e|[trades rationale]].
      * exists []. split; [reflexivity|left; reflexivity].
      * cbv zeta. destruct http as [e|status_code body].
        -- eexists. split; [reflexivity|left; reflexivity].
        -- destruct (py_setitem _ "_http_status" (JInt status_code)) as [e|resp].
           ++ eexists. split; [reflexivity|left; reflexivity].
           ++ destruct (reconcile_outcome (market_summary_of (JObj o)) resp
                          (after_submission snapshot trades rationale tid w))
                as [[r E]|[merged E]]; rewrite E.
              ** destruct r as [e|u]; eexists;
                   (split; [reflexivity|left; reflexivity]).
              ** cbn [fst trace after_submission positions_file].
                 rewrite <- app_assoc. eexists. split; [reflexivity|].
                 right. exists merged. split; [|reflexivity].
                 right. right. left. reflexivity.
    + intros e E. rewrite analyze_tick_run, Hsummary, Hsnapshot, E. reflexivity.
  - intros pos record ticker qty purchase_price k Hpos Hun
           (ticker' & qty' & pp' & k' & Hpos' & ->).
    rewrite Hpos in Hpos'. injection Hpos' as <- <- <- <-.
    rewrite (last_row_price_unmatched rows k Hun). reflexivity.
Qed.

(** C4, as amended.  Let the remote endpoint answer 200 with a body that
    has a [Positions] field, on a tick that reached the submission.  When
    every returned element gives a record (it is an object with a hashable
    ticker, a quantity [int()] accepts and a purchase price [float()]
    accepts), the tick returns a result and the snapshot file then holds
    these records, one per returned element: its ticker, [int(quantity)],
    [float(purchase_price)], and the price of its ticker in this tick's
    [Market_Summary], [null] when no row quotes it; this write comes last
    and replaces the snapshot written earlier in the tick.  When some
    returned element gives no record, or the field cannot be iterated, the
    tick fails after the trades were posted and the file keeps the
    snapshot written earlier in the tick. *)
Theorem returned_positions_replace_snapshot (API_KEY : option string)
    (ai : assistant F) (o body : dict F) (tid : string) (w : world F)
    (returned : json F) (rows snapshot : list (json F))
    (evaluated : Z) (total : F) (trades rationale : json F) :
  dict_lookup "Market_Summary" o = Some (JList rows) ->
  tick_summary (JObj o) = inr (evaluated, total) ->
  tick_snapshot (JObj o) = inr snapshot ->
  tick_advice API_KEY ai (JObj o) = inr (trades, rationale) ->
  dict_lookup "Positions" body = Some returned ->
  (forall rps merged,
      py_iter returned = inr rps ->
      Forall2 (quoted_record rows) rps merged ->
      exists w' result,
        analyze_tick API_KEY ai (HttpResponse 200 (Some (JObj body))) (JObj o) tid w
          = (w', inr result)
        /\ positions_file w' = Document (JList merged)
        /\ trace w' =
           trace w ++ [Wrote POSITIONS_FILE snapshot; Consulted;
                       Wrote TRADES_FILE
                         (read_list (trades_file w)
                          ++ [JObj [("ai_recommendations", trades);
                                    ("rationale", rationale)]]);
                       Posted tid trades;
                       Wrote POSITIONS_FILE merged])
  /\ (forall e rps,
        py_iter returned = inl e
        \/ (py_iter returned = inr rps
            /\ Exists (fun p => forall record, ~ quoted_record rows p record) rps) ->
        exists w' e',
          analyze_tick API_KEY ai (HttpResponse 200 (Some (JObj body))) (JObj o) tid w
            = (w', inl e')
          /\ positions_file w' = Document (JList snapshot)
          /\ trace w' =
             trace w ++ [Wrote POSITIONS_FILE snapshot; Consulted;
                         Wrote TRADES_FILE
                           (read_list (trades_file w)
                            ++ [JObj [("ai_recommendations", trades);
                                      ("rationale", rationale)]]);
                         Posted tid trades]).
Proof.
  intros Hms Hsummary Hsnapshot Hadvice Hreturned.
  assert (Hd : exists d, price_by_ticker (JList rows) = inr d).
  { unfold tick_summary in Hsummary. cbn [py_get] in Hsummary. rewrite Hms in Hsummary.
    destruct (dict_lookup "Positions" o); cbn [rbind] in Hsummary;
      (destruct (price_by_ticker (JList rows)) as [e|d]; [discriminate|]);
      exists d; reflexivity. }
  destruct Hd as [d Hd].
  assert (Hmso : market_summary_of (JObj o) = JList rows).
  { unfold market_summary_of. cbn [py_get]. rewrite Hms. reflexivity. }
  assert (Hstatus : dict_lookup "_http_status" (dict_set "_http_status" (JInt 200) body)
                    = Some (JInt 200)).
  { rewrite dict_lookup_set. reflexivity. }
  assert (Hpos : dict_lookup "Positions" (dict_set "_http_status" (JInt 200) body)
                 = Some returned).
  { rewrite dict_lookup_set. exact Hreturned. }
  rewrite analyze_tick_run, Hsummary, Hsnapshot, Hadvice.
  cbv zeta. cbn [response_data py_setitem]. rewrite Hmso.
  split.
  - intros rps merged Hiter Hall.
    assert (Hmap : res_map (position_record d) rps = inr merged).
    { apply (res_map_quoted (JList rows) rows d rps merged eq_refl Hd). exact Hall. }
    rewrite (reconcile_rewrites (JList rows) returned rps merged d _ _
               Hstatus Hpos Hd Hiter Hmap).
    eexists _, _. split; [reflexivity|]. split; [reflexivity|].
    cbn [trace after_submission]. rewrite <- app_assoc. reflexivity.
  - intros e rps Hbad.
    destruct (reconcile_raises (JList rows) returned d
                (dict_set "_http_status" (JInt 200) body)
                (after_submission snapshot trades rationale tid w) Hstatus Hpos Hd)
      as [e' He'].
    { destruct Hbad as [Hiter|[Hiter Hex]].
      - left. exists e. exact Hiter.
      - right. exists rps. split; [exact Hiter|].
        revert Hex. apply Exists_impl. intros p Hp.
        destruct (position_fields p) as [e0|[[[ticker qty] pp] k]] eqn:Hfields.
        + exists e0. reflexivity.
        + exfalso. eapply Hp. exists ticker, qty, pp, k. split; [exact Hfields|].
          reflexivity. }
    rewrite He'. eexists _, e'. split; [reflexivity|]. split; reflexivity.
Qed.

(** C9, as amended.  [validate_tick_payload] returns the verdict of the
    first rule that fails, the rules being taken in the order of the
    specification, and [(True, "OK")] when none fails.  An object without
    [market_history] is rejected; the reason names [market_history] when
    [Positions] and [Market_Summary] are present and are lists, and is the
    reason of the earlier failure otherwise.  A request whose payload is
    rejected is answered 400 with that reason and leaves the world as it
    was. *)
Theorem validation_order_and_missing_history :
  (forall payload : json F,
      validate_tick_payload payload = inr (validate_spec payload))
  /\ (forall o : dict F,
        dict_lookup "market_history" o = None ->
        exists reason, validate_tick_payload (JObj o) = inr (false, reason))
  /\ (forall (o : dict F) ps ms,
        dict_lookup "Positions" o = Some (JList ps) ->
        dict_lookup "Market_Summary" o = Some (JList ms) ->
        dict_lookup "market_history" o = None ->
        validate_tick_payload (JObj o) =
        inr (false, "Missing required field: market_history"%string))
  /\ (forall API_KEY AI_API_KEY ai http (req : request F) payload reason w,
        get_json req = Some payload ->
        validate_tick_payload payload = inr (false, reason) ->
        fst (tick API_KEY AI_API_KEY ai http req w) = w
        /\ (require_apikey API_KEY req = true -> is_json req = true ->
            snd (tick API_KEY AI_API_KEY ai http req w) = BadRequest reason)).
Proof.
  split; [exact validate_tick_payload_rules|]. split; [|split].
  - intros o Hh. rewrite validate_tick_payload_rules.
    unfold validate_spec, validation_rules, rule_required_arrays.
    cbn [first_failure rule_object is_dict map key_is_array]. rewrite Hh.
    destruct (dict_lookup "Positions" o) as [[| | | | |ps|]|];
      try (eexists; reflexivity);
      destruct (dict_lookup "Market_Summary" o) as [[| | | | |ms|]|];
      eexists; reflexivity.
  - intros o ps ms Hp Hm Hh. rewrite validate_tick_payload_rules.
    unfold validate_spec, validation_rules, rule_required_arrays.
    cbn [first_failure rule_object is_dict map key_is_array].
    rewrite Hp, Hm, Hh. reflexivity.
  - intros API_KEY AI_API_KEY ai http req payload reason w Hbody Hv. unfold tick.
    rewrite Hbody, Hv. split.
    + destruct (require_apikey API_KEY req); cbn [negb]; [|reflexivity].
      destruct (is_json req); reflexivity.
    + intros -> ->. reflexivity.
Qed.

(** C10, as amended.  The tick builds its price table from the rows of
    [Market_Summary], every one of them: when some row cannot be stored
    (its ticker is unhashable or its price is one [float()] rejects), be it
    an earlier row of a ticker that is quoted again, the tick fails and
    nothing is written.  When every row can be stored, the table holds
    under every key the price of the last row, in list order, that has
    this key, and the prices of the earlier rows with the key are used
    nowhere in the tick: the summary a tick returns is computed with the
    last quote of each position, the snapshot it writes before the
    consultation holds the last quote of each position, and so does the
    snapshot it writes from the positions the remote endpoint returns. *)
Theorem last_quote_wins (API_KEY : option string) (ai : assistant F)
    (http : http_outcome F) (o : dict F) (tid : string) (w : world F)
    (ps rows : list (json F)) :
  dict_lookup "Positions" o = Some (JList ps) ->
  dict_lookup "Market_Summary" o = Some (JList rows) ->
  (Exists (fun row => ~ storable row) rows ->
   exists e, analyze_tick API_KEY ai http (JObj o) tid w = (w, inl e))
  /\ (Forall storable rows ->
      exists d,
        price_by_ticker (JList rows) = inr d
        /\ (forall k, prices_get k d = last_row_price rows k)
        /\ (forall before row after k k' v,
              rows = before ++ row :: after ->
              row_key row = Some k' -> key_eqb k' k = true ->
              row_price row = Some v ->
              unmatched after k ->
              prices_get k d = Some v)
        /\ (forall w' result,
              analyze_tick API_KEY ai http (JObj o) tid w = (w', inr result) ->
              (exists evaluated total,
                  last_quote_pnl rows ps 0 F0 = inr (evaluated, total)
                  /\ dict_lookup "summary" result =
                     Some (JObj [("positions_evaluated", JInt evaluated);
                                 ("unrealized_pnl", JFloat (Fround4 total))]))
              /\ (exists snapshot later,
                    trace w' =
                    trace w ++ Wrote POSITIONS_FILE snapshot :: Consulted :: later
                    /\ Forall2 (quoted_record rows) ps snapshot)
              /\ (forall body returned rps,
                    http = HttpResponse 200 (Some (JObj body)) ->
                    dict_lookup "Positions" body = Some returned ->
                    py_iter returned = inr rps ->
                    exists merged,
                      positions_file w' = Document (JList merged)
                      /\ Forall2 (quoted_record rows) rps merged))).
Proof.
  intros Hps Hms.
  assert (Hsum : tick_summary (JObj o) =
                 (d <- price_by_ticker (JList rows) ;; pnl_loop d ps 0 F0)%res).
  { unfold tick_summary. cbn [py_get]. rewrite Hps, Hms. cbn [rbind].
    destruct (price_by_ticker (JList rows)); reflexivity. }
  split.
  - intros Hbad. destruct (price_rows_raises rows Hbad []) as [e He].
    rewrite analyze_tick_run, Hsum. unfold price_by_ticker. cbn [py_iter rbind].
    rewrite He. exists e. reflexivity.
  - intros Hok. destruct (price_rows_storable rows Hok []) as [d Hrows].
    assert (Hd : price_by_ticker (JList rows) = inr d) by exact Hrows.
    assert (Hlookup : forall k, prices_get k d = last_row_price rows k).
    { intros k. exact (price_by_ticker_lookup (JList rows) rows d k eq_refl Hd). }
    exists d. split; [exact Hd|]. split; [exact Hlookup|]. split.
    { intros before row after k k' v -> Hk Heq Hv Hafter.
      rewrite Hlookup. eapply last_row_price_last; eassumption. }
    intros w' result Hrun.
    destruct (analyze_tick_summary _ _ _ _ _ _ _ _ Hrun)
      as (evaluated & total & Hs & Hres).
    rewrite analyze_tick_run, Hs in Hrun.
    destruct (tick_snapshot (JObj o)) as [e|snapshot] eqn:Hsnap; [discriminate|].
    destruct (tick_advice API_KEY ai (JObj o)) as [e|[trades rationale]];
      [discriminate|].
    cbv zeta in Hrun.
    destruct http as [e|status_code rbody]; [discriminate|].
    destruct (py_setitem _ "_http_status" (JInt status_code)) as [e|resp] eqn:Hset;
      [discriminate|].
    destruct (reconcile (market_summary_of (JObj o)) resp
                (after_submission snapshot trades rationale tid w))
      as [w3 [e|[]]] eqn:Hrec; [discriminate|].
    injection Hrun as <- _.
    split; [|split].
    + exists evaluated, total. split; [|exact Hres].
      rewrite Hsum, Hd in Hs. cbn [rbind] in Hs.
      rewrite <- (pnl_loop_last_quote rows d ps Hlookup). exact Hs.
    + exists snapshot.
      assert (Hall : Forall2 (quoted_record rows) ps snapshot).
      { unfold tick_snapshot in Hsnap. cbn [py_get] in Hsnap.
        rewrite Hps, Hms in Hsnap. cbn [rbind] in Hsnap.
        exact (_build_positions_snapshot_quoted (JList ps) (JList rows) ps rows
                 snapshot eq_refl eq_refl Hsnap). }
      destruct (reconcile_outcome (market_summary_of (JObj o)) resp
                  (after_submission snapshot trades rationale tid w))
        as [[r E]|[merged E]]; rewrite E in Hrec; injection Hrec as <-.
      * eexists. split; [reflexivity|exact Hall].
      * cbn [trace after_submission]. rewrite <- app_assoc.
        eexists. split; [reflexivity|exact Hall].
    + intros body returned rps Hhttp Hreturned Hiter.
      injection Hhttp as -> ->. cbn [response_data py_setitem] in Hset.
      injection Hset as <-.
      assert (Hmso : market_summary_of (JObj o) = JList rows).
      { unfold market_summary_of. cbn [py_get]. rewrite Hms. reflexivity. }
      rewrite Hmso in Hrec.
      assert (Hstatus : dict_lookup "_http_status"
                          (dict_set "_http_status" (JInt 200) body)
                        = Some (JInt 200)).
      { rewrite dict_lookup_set. reflexivity. }
      assert (Hpos : dict_lookup "Positions" (dict_set "_http_status" (JInt 200) body)
                     = Some returned).
      { rewrite dict_lookup_set. exact Hreturned. }
      destruct (reconcile_returns (JList rows) returned rps d _ _ _
                  Hstatus Hpos Hd Hiter Hrec) as (merged & Hmap & ->).
      exists merged. split; [reflexivity|].
      apply (res_map_quoted (JList rows) rows d rps merged eq_refl Hd). exact Hmap.
Qed.

End Claims.

(** C1, the failing case.  The payload [fractional] is validated and its
    only position, one and a half shares of X bought at 100, is quoted at
    110.  [analyze_tick] reports an unrealized profit of 10: it multiplies
    by [int(1.5) = 1].  The sum of [(current - purchase) * quantity] is 15,
    which is also what [expected_pnl] of the repository's tester computes. *)
Theorem analyze_tick_truncates_quantity :
  validated Examples.fractional
  /\ (exists w' result,
        analyze_tick None Examples.silent Examples.accepted
          Examples.fractional "t" Examples.fresh = (w', inr result)
        /\ dict_lookup "summary" result =
           Some (JObj [("positions_evaluated", JInt 1);
                       ("unrealized_pnl", JFloat (10 # 1))]))
  /\ expected_pnl Examples.fractional = inr (15 # 1).
Proof.
  split; [exists "OK"; reflexivity|].
  split; [|reflexivity].
  eexists _, _. split; reflexivity.
Qed.

(** C2 at the scenario of the specification: without a credential the
    advice is to stay on X; with one and an assistant whose call raises,
    there is advice all the same. *)
Lemma get_trade_recommendations_never_raises_witness :
  validated Examples.scenario
  /\ get_trade_recommendations None Examples.buys_one Examples.scenario
     = inr (JObj [("trades", JList [JObj [("action", JStr "STAY");
                                          ("ticker", JStr "X");
                                          ("quantity", JInt 0)]]);
                  ("rationale",
                   JStr "Fallback: STAY on all positions because AI was unavailable.")])
  /\ (exists out,
        get_trade_recommendations (Some "key")
          (CreateRaises (OpenAIError "rate limit")) Examples.scenario = inr out).
Proof.
  assert (Hv : validated Examples.scenario) by (exists "OK"; reflexivity).
  split; [exact Hv|]. split.
  - destruct (proj2 (get_trade_recommendations_never_raises None Examples.buys_one
                       Examples.scenario Hv) (or_introl eq_refl))
      as (ps & tickers & Hps & Hall & Hout).
    injection Hps as <-.
    inversion Hall as [|p t rest tickers' Ht Hrest]; subst.
    inversion Hrest; subst.
    injection Ht as <-.
    exact Hout.
  - exact (proj1 (get_trade_recommendations_never_raises (Some "key")
                    (CreateRaises (OpenAIError "rate limit")) Examples.scenario Hv)).
Defined.

(** C3 on a run of two ticks from a world without files: the scenario
    with an assistant that cannot be reached, then [quoted_twice] with an
    assistant that buys one X.  The history holds the two entries, in that
    order, and their trades are the two lists posted. *)
Lemma trade_history_is_append_only_witness :
  exists w' results,
    run_ticks (Some "key") Examples.two_ticks Examples.fresh = (w', results)
    /\ trades_file w' =
       Document
         (JList [JObj [("ai_recommendations",
                        JList [JObj [("action", JStr "STAY"); ("ticker", JStr "X");
                                     ("quantity", JInt 0)]]);
                       ("rationale",
                        JStr "Fallback: STAY on all positions because AI was unavailable.")];
                 JObj [("ai_recommendations",
                        JList [JObj [("action", JStr "BUY"); ("ticker", JStr "X");
                                     ("quantity", JInt 1)]]);
                       ("rationale", JStr "momentum")]])
    /\ posted (trace w') =
       [JList [JObj [("action", JStr "STAY"); ("ticker", JStr "X");
                     ("quantity", JInt 0)]];
        JList [JObj [("action", JStr "BUY"); ("ticker", JStr "X");
                     ("quantity", JInt 1)]]]
    /\ List.length (read_list (trades_file w')) = 2%nat.
Proof.
  destruct (run_ticks (Some "key") Examples.two_ticks Examples.fresh)
    as [w' results] eqn:Hrun.
  exists w', results. split; [reflexivity|].
  destruct (proj2 (proj2 (@trade_history_is_append_only Q QNum))
              (Some "key") Examples.two_ticks Examples.fresh w' results Hrun)
    as (advice & _ & _ & _ & Hall).
  vm_compute in Hrun. injection Hrun as <- <-.
  destruct Hall as (_ & Hcount & _).
  - repeat constructor.
  - split; [reflexivity|]. split; [reflexivity|].
    apply Hcount. reflexivity.
Defined.

(** C4 refuted as stated.  The endpoint answers 200 and returns one and a
    half shares of X: the snapshot file then holds the quantity 1, not the
    returned 1.5.  It answers 200 and returns an element without quantity:
    the tick fails with [KeyError] and the file holds the snapshot written
    earlier in the tick, not the returned list. *)
Lemma returned_positions_counterexample :
  positions_file
    (fst (analyze_tick None Examples.silent
            (Examples.returns Examples.returned_fractional)
            Examples.scenario "t" Examples.fresh))
  = Document (JList [JObj [("ticker", JStr "X"); ("quantity", JInt 1);
                           ("purchase_price", JFloat (100 # 1));
                           ("current_price", JFloat (110 # 1))]])
  /\ py_getitem (Examples.position "X" (JFloat (3 # 2)) (JInt 100)) "quantity"
     = inr (JFloat (3 # 2))
  /\ ~ (inject_Z 1 == 3 # 2)%Q
  /\ analyze_tick None Examples.silent
       (Examples.returns Examples.returned_incomplete)
       Examples.scenario "t" Examples.fresh
     = (after_submission Examples.scenario_snapshot Examples.scenario_stay
          (JStr fallback_rationale) "t" Examples.fresh,
        inl KeyError).
Proof.
  split; [reflexivity|]. split; [reflexivity|]. split; [|reflexivity].
  intros E. discriminate (proj2 (Qeq_bool_iff _ _) E).
Qed.

(** C4, as amended, at the scenario: when the endpoint returns three
    shares of X the snapshot file ends with that holding at today's price,
    and when it returns an element without quantity the tick fails and the
    file keeps the snapshot written earlier. *)
Lemma returned_positions_replace_snapshot_witness :
  (exists w' result,
      analyze_tick None Examples.silent (Examples.returns Examples.returned_whole)
        Examples.scenario "t" Examples.fresh = (w', inr result)
      /\ positions_file w'
         = Document (JList [JObj [("ticker", JStr "X"); ("quantity", JInt 3);
                                  ("purchase_price", JFloat (90 # 1));
                                  ("current_price", JFloat (110 # 1))]]))
  /\ (exists w' e,
        analyze_tick None Examples.silent
          (Examples.returns Examples.returned_incomplete)
          Examples.scenario "t" Examples.fresh = (w', inl e)
        /\ positions_file w'
           = Document (JList [JObj [("ticker", JStr "X"); ("quantity", JInt 10);
                                    ("purchase_price", JFloat (100 # 1));
                                    ("current_price", JFloat (110 # 1))]])).
Proof.
  split.
  - destruct (@returned_positions_replace_snapshot Q QNum None Examples.silent
                [("Positions", JList [Examples.position "X" (JInt 10) (JInt 100)]);
                 ("Market_Summary", JList [Examples.market_row "X" (JInt 110)]);
                 ("market_history",
                  JList [Examples.history_row "X" (JInt 105) "2025-01-01"])]
                [("Positions", JList Examples.returned_whole)]
                "t" Examples.fresh (JList Examples.returned_whole)
                [Examples.market_row "X" (JInt 110)]
                Examples.scenario_snapshot 1 (100 # 1)
                Examples.scenario_stay (JStr fallback_rationale))
      as [Hgood _].
    + reflexivity.
    + reflexivity.
    + reflexivity.
    + reflexivity.
    + reflexivity.
    + destruct (Hgood Examples.returned_whole
                  [JObj [("ticker", JStr "X"); ("quantity", JInt 3);
                         ("purchase_price", JFloat (90 # 1));
                         ("current_price", JFloat (110 # 1))]])
        as (w' & result & Hrun & Hfile & _).
      * reflexivity.
      * constructor; [|constructor].
        exists (JStr "X"), 3, (90 # 1), (KStr "X"). split; reflexivity.
      * exists w', result. split; [exact Hrun|exact Hfile].
  - destruct (@returned_positions_replace_snapshot Q QNum None Examples.silent
                [("Positions", JList [Examples.position "X" (JInt 10) (JInt 100)]);
                 ("Market_Summary", JList [Examples.market_row "X" (JInt 110)]);
                 ("market_history",
                  JList [Examples.history_row "X" (JInt 105) "2025-01-01"])]
                [("Positions", JList Examples.returned_incomplete)]
                "t" Examples.fresh (JList Examples.returned_incomplete)
                [Examples.market_row "X" (JInt 110)]
                Examples.scenario_snapshot 1 (100 # 1)
                Examples.scenario_stay (JStr fallback_rationale))
      as [_ Hbad].
    + reflexivity.
    + reflexivity.
    + reflexivity.
    + reflexivity.
    + reflexivity.
    + destruct (Hbad KeyError Examples.returned_incomplete)
        as (w' & e & Hrun & Hfile & _).
      * right. split; [reflexivity|]. left.
        intros record (ticker & qty & pp & k & Hfields & _). discriminate Hfields.
      * exists w', e. split; [exact Hrun|exact Hfile].
Defined.

(** C5 at the scenario, the remote endpoint timing out. *)
Lemma transport_error_fails_the_request_witness :
  exists w',
    tick "secret" None Examples.silent Examples.unreachable
      (Examples.request_with Examples.scenario) Examples.fresh
    = (w', ProcessingError (RequestException "timed out"))
    /\ positions_file w' = Document (JList Examples.scenario_snapshot)
    /\ trades_file w' =
       Document (JList [trade_entry Examples.scenario_stay (JStr fallback_rationale)]).
Proof.
  destruct (@transport_error_fails_the_request Q QNum "secret" None Examples.silent
              (RequestException "timed out")
              (Examples.request_with Examples.scenario) Examples.scenario
              1 (100 # 1) Examples.scenario_snapshot
              Examples.scenario_stay (JStr fallback_rationale) Examples.fresh)
    as (_ & w' & _ & Htick & _ & _ & Hpositions & Htrades).
  - reflexivity.
  - reflexivity.
  - reflexivity.
  - exists "OK". reflexivity.
  - reflexivity.
  - reflexivity.
  - reflexivity.
  - exists w'. split; [exact Htick|]. split; [exact Hpositions|exact Htrades].
Defined.

(** C6 refuted as stated.  [null_quantity] is validated, no row quotes its
    position X, and the tick raises [TypeError] on [int(None)], before the
    lookup that would skip the position; nothing is written.  The same
    happens with a [null] purchase price, on [float(None)], and with a
    ticker that is a list, on the lookup itself. *)
Lemma unmatched_position_counterexample :
  validated Examples.null_quantity
  /\ unmatched [] (KStr "X")
  /\ analyze_tick None Examples.silent Examples.accepted
       Examples.null_quantity "t" Examples.fresh
     = (Examples.fresh, inl TypeError)
  /\ validated Examples.null_purchase_price
  /\ analyze_tick None Examples.silent Examples.accepted
       Examples.null_purchase_price "t" Examples.fresh
     = (Examples.fresh, inl TypeError)
  /\ validated Examples.unhashable_ticker
  /\ analyze_tick None Examples.silent Examples.accepted
       Examples.unhashable_ticker "t" Examples.fresh
     = (Examples.fresh, inl TypeError).
Proof.
  split; [exists "OK"; reflexivity|]. split; [constructor|].
  split; [reflexivity|].
  split; [exists "OK"; reflexivity|]. split; [reflexivity|].
  split; [exists "OK"; reflexivity|reflexivity].
Qed.

(** C6, as amended, on [quoted_twice]: Y has no quote. *)
Lemma unmatched_position_is_skipped_witness :
  tick_summary Examples.quoted_twice
  = tick_summary
      (Examples.tick_payload [Examples.position "X" (JInt 10) (JInt 100)]
         [Examples.market_row "X" (JInt 110); Examples.market_row "X" (JInt 120)]
         []).
Proof.
  refine (proj1 (@unmatched_position_is_skipped Q QNum
                   [("Positions",
                     JList [Examples.position "X" (JInt 10) (JInt 100);
                            Examples.position "Y" (JInt 5) (JInt 7)]);
                    ("Market_Summary",
                     JList [Examples.market_row "X" (JInt 110);
                            Examples.market_row "X" (JInt 120)]);
                    ("market_history", JList [])]
                   [Examples.position "X" (JInt 10) (JInt 100)] []
                   [Examples.market_row "X" (JInt 110);
                    Examples.market_row "X" (JInt 120)]
                   (Examples.position "Y" (JInt 5) (JInt 7))
                   (JStr "Y") 5 (7 # 1) (KStr "Y") _ _ _ _)).
  - reflexivity.
  - reflexivity.
  - reflexivity.
  - repeat constructor; intros k' E; injection E as <-; reflexivity.
Defined.

(** C7 refuted as stated.  [null_price] is validated, and the tick raises
    [TypeError] on [float(None)] before anything is written: the snapshot
    file is not overwritten.  On [fractional] the snapshot is written, with
    the quantity 1 where the position has 1.5. *)
Lemma snapshot_counterexample :
  validated Examples.null_price
  /\ analyze_tick None Examples.silent Examples.accepted
       Examples.null_price "t" Examples.fresh
     = (Examples.fresh, inl TypeError)
  /\ tick_snapshot Examples.fractional
     = inr [JObj [("ticker", JStr "X"); ("quantity", JInt 1);
                  ("purchase_price", JFloat (100 # 1));
                  ("current_price", JFloat (110 # 1))]]
  /\ ~ (inject_Z 1 == 3 # 2)%Q.
Proof.
  split; [exists "OK"; reflexivity|]. split; [reflexivity|]. split; [reflexivity|].
  intros E. discriminate (proj2 (Qeq_bool_iff _ _) E).
Qed.

(** C7, as amended: at the scenario the snapshot is written first, the
    client is consulted next, and the file holds the snapshot at the end;
    on [null_price] the tick fails and nothing is written. *)
Lemma snapshot_written_before_consulting_witness :
  (exists later,
      trace (fst (analyze_tick None Examples.silent Examples.accepted
                    Examples.scenario "t" Examples.fresh))
      = Wrote POSITIONS_FILE
          [JObj [("ticker", JStr "X"); ("quantity", JInt 10);
                 ("purchase_price", JFloat (100 # 1));
                 ("current_price", JFloat (110 # 1))]]
          :: Consulted :: later)
  /\ (exists e,
        analyze_tick None Examples.silent Examples.accepted
          Examples.null_price "t" Examples.fresh = (Examples.fresh, inl e)).
Proof.
  split.
  - destruct (proj1 (proj2 (@snapshot_written_before_consulting Q QNum None
                              Examples.silent Examples.accepted
                              [("Positions",
                                JList [Examples.position "X" (JInt 10) (JInt 100)]);
                               ("Market_Summary",
                                JList [Examples.market_row "X" (JInt 110)]);
                               ("market_history",
                                JList [Examples.history_row "X" (JInt 105)
                                         "2025-01-01"])]
                              "t" Examples.fresh
                              [Examples.position "X" (JInt 10) (JInt 100)]
                              [Examples.market_row "X" (JInt 110)]
                              eq_refl eq_refl))
                1 (100 # 1) Examples.scenario_snapshot eq_refl eq_refl)
      as (_ & _ & (later & Htrace & _) & _).
    exists later. exact Htrace.
  - exact (proj1 (@snapshot_written_before_consulting Q QNum None
                    Examples.silent Examples.accepted
                    [("Positions",
                      JList [Examples.position "X" (JInt 10) (JInt 100)]);
                     ("Market_Summary", JList [Examples.market_row "X" JNull]);
                     ("market_history", JList [])]
                    "t" Examples.fresh
                    [Examples.position "X" (JInt 10) (JInt 100)]
                    [Examples.market_row "X" JNull]
                    eq_refl eq_refl)
             TypeError (or_introl eq_refl)).
Defined.

(** C9 refuted as stated.  The empty object lacks [market_history]; it is
    rejected with a reason that names [Positions], the first missing field,
    and does not mention [market_history]. *)
Lemma missing_history_counterexample :
  dict_lookup "market_history" ([] : dict Q) = None
  /\ validate_tick_payload (JObj [] : json Q)
     = inr (false, "Missing required field: Positions")
  /\ mentions "market_history" "Missing required field: Positions" = false.
Proof. repeat split. Qed.

(** C9, as amended, on the payload of the repository's tester for missing
    keys with [Market_Summary] added: only [market_history] is absent. *)
Lemma validation_order_and_missing_history_witness :
  validate_tick_payload
    (JObj [("Positions", JList []); ("Market_Summary", JList [])] : json Q)
  = inr (false, "Missing required field: market_history").
Proof.
  exact (proj1 (proj2 (proj2 (@validation_order_and_missing_history Q QNum)))
           [("Positions", JList []); ("Market_Summary", JList [])] [] []
           eq_refl eq_refl eq_refl).
Defined.

(** C10 refuted as stated.  In [null_then_quoted] X is quoted twice, first
    with a [null] price, then at 120.  The payload is validated and the
    last row of X has a price, yet the earlier row is not ignored: the tick
    raises [TypeError] on [float(None)] and writes nothing.  Without that
    earlier row the tick returns a result. *)
Lemma last_quote_counterexample :
  validated Examples.null_then_quoted
  /\ last_row_price [Examples.market_row "X" JNull;
                     Examples.market_row "X" (JInt 120)] (KStr "X")
     = Some (120 # 1)
  /\ analyze_tick None Examples.silent Examples.accepted
       Examples.null_then_quoted "t" Examples.fresh
     = (Examples.fresh, inl TypeError)
  /\ (exists w' result,
        analyze_tick None Examples.silent Examples.accepted
          (Examples.tick_payload [Examples.position "X" (JInt 10) (JInt 100)]
             [Examples.market_row "X" (JInt 120)] [])
          "t" Examples.fresh
        = (w', inr result)).
Proof.
  split; [exists "OK"; reflexivity|]. split; [reflexivity|]. split; [reflexivity|].
  eexists _, _. reflexivity.
Qed.

(** C10, as amended, on [quoted_twice], the remote endpoint returning three
    shares of X: X is quoted at 110 and then at 120, and 120 is the price
    in the table, in the profit of 200 on ten shares bought at 100, and in
    the snapshot that ends in the file; on [null_then_quoted] the tick
    fails and leaves the world as it was. *)
Lemma last_quote_wins_witness :
  (exists d,
      price_by_ticker (JList [Examples.market_row "X" (JInt 110);
                              Examples.market_row "X" (JInt 120)]) = inr d
      /\ prices_get (KStr "X") d = Some (120 # 1))
  /\ (exists w' result,
        analyze_tick None Examples.silent (Examples.returns Examples.returned_whole)
          Examples.quoted_twice "t" Examples.fresh = (w', inr result)
        /\ dict_lookup "summary" result =
           Some (JObj [("positions_evaluated", JInt 1);
                       ("unrealized_pnl", JFloat (200 # 1))])
        /\ positions_file w' =
           Document (JList [JObj [("ticker", JStr "X"); ("quantity", JInt 3);
                                  ("purchase_price", JFloat (90 # 1));
                                  ("current_price", JFloat (120 # 1))]]))
  /\ (exists e,
        analyze_tick None Examples.silent Examples.accepted
          Examples.null_then_quoted "t" Examples.fresh = (Examples.fresh, inl e)).
Proof.
  split; [|split].
  - destruct (proj2 (@last_quote_wins Q QNum None Examples.silent Examples.accepted
                       MoreExamples.quoted_twice_fields "t" Examples.fresh
                       [Examples.position "X" (JInt 10) (JInt 100);
                        Examples.position "Y" (JInt 5) (JInt 7)]
                       [Examples.market_row "X" (JInt 110);
                        Examples.market_row "X" (JInt 120)]
                       eq_refl eq_refl))
      as (d & Hd & Hlookup & _).
    + repeat constructor; discriminate.
    + exists d. split; [exact Hd|]. rewrite Hlookup. reflexivity.
  - destruct (proj2 (@last_quote_wins Q QNum None Examples.silent
                       (Examples.returns Examples.returned_whole)
                       MoreExamples.quoted_twice_fields "t" Examples.fresh
                       [Examples.position "X" (JInt 10) (JInt 100);
                        Examples.position "Y" (JInt 5) (JInt 7)]
                       [Examples.market_row "X" (JInt 110);
                        Examples.market_row "X" (JInt 120)]
                       eq_refl eq_refl))
      as (d & _ & _ & _ & Htick).
    + repeat constructor; discriminate.
    + destruct (analyze_tick None Examples.silent
                  (Examples.returns Examples.returned_whole)
                  Examples.quoted_twice "t" Examples.fresh)
        as [w' [e|result]] eqn:Hrun; [vm_compute in Hrun; discriminate|].
      destruct (Htick w' result Hrun)
        as ((evaluated & total & Hpnl & Hsummary) & _ & Hmerged).
      destruct (Hmerged [("Positions", JList Examples.returned_whole)]
                  (JList Examples.returned_whole) Examples.returned_whole
                  eq_refl eq_refl eq_refl) as (merged & Hfile & Hall).
      exists w', result. split; [reflexivity|]. split.
      * vm_compute in Hpnl. injection Hpnl as <- <-. exact Hsummary.
      * vm_compute in Hrun. injection Hrun as <- _. reflexivity.
  - refine (proj1 (@last_quote_wins Q QNum None Examples.silent Examples.accepted
                    [("Positions", JList [Examples.position "X" (JInt 10) (JInt 100)]);
                     ("Market_Summary",
                      JList [Examples.market_row "X" JNull;
                             Examples.market_row "X" (JInt 120)]);
                     ("market_history", JList [])]
                    "t" Examples.fresh
                    [Examples.position "X" (JInt 10) (JInt 100)]
                    [Examples.market_row "X" JNull;
                     Examples.market_row "X" (JInt 120)]
                    eq_refl eq_refl) _).
    left. intros [_ Hprice]. apply Hprice. reflexivity.
Defined.

(** * Further properties of the program *)

(** ** The validator *)

Section FurtherValidator.
Context {F : Type} `{PyNum F}.

Local Open Scope list_scope.

Lemma missing_field_none_iff (name : string) (idx : nat) (fields : list string)
    (d : dict F) :
  missing_field name idx fields d = None <->
  Forall (fun field => dict_lookup field d <> None) fields.
Proof.
  split; [apply missing_field_none|].
  unfold missing_field. induction 1 as [|field rest Hfield _ IH].
  - reflexivity.
  - cbn [map first_failure].
    destruct (dict_lookup field d); [exact IH|contradiction].
Qed.

Lemma element_has_none_iff (name : string) (fields : list string) (idx : nat)
    (row : json F) :
  element_has name fields idx row = None <-> has_fields fields row.
Proof.
  unfold has_fields. split.
  - destruct row; try discriminate. cbn [element_has]. intros E.
    exists o. split; [reflexivity|]. apply missing_field_none_iff in E. exact E.
  - intros (d & -> & Hall). cbn [element_has]. apply missing_field_none_iff. exact Hall.
Qed.

Lemma history_element_none_iff (idx : nat) (row : json F) :
  history_element idx row = None <-> history_row_ok row.
Proof.
  unfold history_element, history_row_ok. split.
  - destruct (element_has "market_history" ["ticker"; "price"; "day"] idx row) eqn:E;
      [discriminate|].
    apply element_has_none_iff in E. destruct E as (d & -> & Hall).
    inversion Hall as [|? ? Hticker Hall1]; subst.
    inversion Hall1 as [|? ? Hprice _]; subst.
    destruct (dict_lookup "day" d) as [[| | | |day| |]|] eqn:Ed; try discriminate.
    intros _. exists d, day. repeat split; assumption.
  - intros (d & day & -> & Hticker & Hprice & Hday).
    assert (E : element_has "market_history" ["ticker"; "price"; "day"] idx (JObj d) = None).
    { apply element_has_none_iff. exists d. split; [reflexivity|].
      repeat constructor; congruence. }
    rewrite E, Hday. reflexivity.
Qed.

Lemma first_bad_element_none_iff (check : nat -> json F -> option string)
    (P : json F -> Prop) :
  (forall idx row, check idx row = None <-> P row) ->
  forall rows idx, first_bad_element check rows idx = None <-> Forall P rows.
Proof.
  intros Hcheck. induction rows as [|row rest IH]; intros idx; cbn [first_bad_element].
  - split; [constructor|reflexivity].
  - destruct (check idx row) eqn:E.
    + split; [discriminate|]. intros Hall. inversion Hall as [|? ? Hrow _]; subst.
      apply Hcheck with (idx := idx) in Hrow. congruence.
    + rewrite IH. split.
      * intros Hall. constructor; [apply (Hcheck idx); exact E|exact Hall].
      * intros Hall. inversion Hall. assumption.
Qed.

Lemma rows_have_fields_iff (name : string) (fields : list string)
    (rows : list (json F)) (idx : nat) :
  first_bad_element (element_has name fields) rows idx = None <->
  Forall (has_fields fields) rows.
Proof.
  apply first_bad_element_none_iff. intros i row. apply element_has_none_iff.
Qed.

Lemma history_rows_ok_iff (rows : list (json F)) (idx : nat) :
  first_bad_element history_element rows idx = None <-> Forall history_row_ok rows.
Proof.
  apply first_bad_element_none_iff. exact history_element_none_iff.
Qed.

(** The first element that breaks a check is reported under its own
    index. *)
Lemma first_bad_element_at (check : nat -> json F -> option string)
    (good rest : list (json F)) (bad : json F) (reason : string) :
  forall idx,
    Forall (fun row => forall i, check i row = None) good ->
    check (idx + List.length good)%nat bad = Some reason ->
    first_bad_element check (good ++ bad :: rest) idx = Some reason.
Proof.
  induction good as [|row good IH]; intros idx Hgood Hbad; cbn [app first_bad_element].
  - cbn [List.length] in Hbad. rewrite Nat.add_0_r in Hbad. rewrite Hbad. reflexivity.
  - inversion Hgood as [|? ? Hrow Hgood']; subst. rewrite Hrow.
    apply IH; [exact Hgood'|].
    cbn [List.length] in Hbad. rewrite Nat.add_succ_r in Hbad. exact Hbad.
Qed.

(** X1.  The validator accepts exactly the payloads that are objects whose
    [Positions], [Market_Summary] and [market_history] are lists of objects
    with the required fields, every [day] being a string; and when it
    accepts, its message is ["OK"]. *)
Theorem validate_accepts_exactly_well_formed (payload : json F) :
  (validate_tick_payload payload = inr (true, "OK"%string) <-> well_formed payload)
  /\ (forall msg, validate_tick_payload payload = inr (true, msg) -> msg = "OK"%string).
Proof.
  rewrite validate_tick_payload_rules. unfold validate_spec, well_formed.
  assert (Hrules :
            first_failure validation_rules payload = None <->
            exists d ps ms hs,
              payload = JObj d
              /\ dict_lookup "Positions" d = Some (JList ps)
              /\ dict_lookup "Market_Summary" d = Some (JList ms)
              /\ dict_lookup "market_history" d = Some (JList hs)
              /\ Forall (has_fields ["ticker"; "quantity"; "purchase_price"]) ps
              /\ Forall (has_fields ["ticker"; "current_price"; "category"]) ms
              /\ Forall history_row_ok hs).
  { unfold validation_rules. cbn [first_failure]. split.
    - destruct (rule_object payload) eqn:E1; [discriminate|].
      destruct (rule_required_arrays payload) eqn:E2; [discriminate|].
      destruct (rule_positions payload) eqn:E3; [discriminate|].
      destruct (rule_market_summary payload) eqn:E4; [discriminate|].
      destruct (rule_market_history payload) eqn:E5; [discriminate|].
      intros _. destruct payload as [| | | | | |d]; try discriminate.
      unfold rule_required_arrays in E2. cbn [map first_failure key_is_array] in E2.
      unfold rule_positions, rule_market_summary, rule_market_history, list_field
        in E3, E4, E5.
      destruct (dict_lookup "Positions" d) as [[| | | | |ps|]|] eqn:Ep; try discriminate.
      destruct (dict_lookup "Market_Summary" d) as [[| | | | |ms|]|] eqn:Em;
        try discriminate.
      destruct (dict_lookup "market_history" d) as [[| | | | |hs|]|] eqn:Eh;
        try discriminate.
      exists d, ps, ms, hs.
      split; [reflexivity|]. split; [exact Ep|]. split; [exact Em|].
      split; [exact Eh|].
      split; [|split].
      + apply rows_have_fields_iff in E3. exact E3.
      + apply rows_have_fields_iff in E4. exact E4.
      + apply history_rows_ok_iff in E5. exact E5.
    - intros (d & ps & ms & hs & -> & Hp & Hm & Hh & Hps & Hms & Hhs).
      unfold rule_required_arrays, rule_positions, rule_market_summary,
        rule_market_history, list_field.
      cbn [rule_object is_dict map first_failure key_is_array].
      rewrite Hp, Hm, Hh.
      rewrite (proj2 (rows_have_fields_iff "Positions" _ ps 0%nat) Hps).
      rewrite (proj2 (rows_have_fields_iff "Market_Summary" _ ms 0%nat) Hms).
      rewrite (proj2 (history_rows_ok_iff hs 0%nat) Hhs).
      reflexivity. }
  split.
  - rewrite <- Hrules.
    destruct (first_failure validation_rules payload); split; try discriminate;
      reflexivity.
  - intros msg. destruct (first_failure validation_rules payload); [discriminate|].
    intros E. injection E as <-. reflexivity.
Qed.

(** X2.  When [Market_Summary] and [market_history] are lists and the elements
    of [Positions] before index [i] have their fields, an element at [i]
    that is not an object is reported as ["Positions[i] must be an object"],
    and one that is an object without a ticker as
    ["Positions[i] missing 'ticker'"], whatever follows it. *)
Theorem validate_reports_first_bad_position (o : dict F)
    (good rest ms hs : list (json F)) (bad : json F) :
  dict_lookup "Positions" o = Some (JList (good ++ bad :: rest)) ->
  dict_lookup "Market_Summary" o = Some (JList ms) ->
  dict_lookup "market_history" o = Some (JList hs) ->
  Forall (has_fields ["ticker"; "quantity"; "purchase_price"]) good ->
  (is_dict bad = false ->
   validate_tick_payload (JObj o) =
   inr (false, ("Positions[" ++ str_of_nat (List.length good)
                ++ "] must be an object")%string))
  /\ (forall d, bad = JObj d -> dict_lookup "ticker" d = None ->
      validate_tick_payload (JObj o) =
      inr (false, ("Positions[" ++ str_of_nat (List.length good)
                   ++ "] missing 'ticker'")%string)).
Proof.
  intros Hp Hm Hh Hgood.
  assert (Hat : forall reason,
             element_has "Positions" ["ticker"; "quantity"; "purchase_price"]
               (List.length good) bad = Some reason ->
             validate_tick_payload (JObj o) = inr (false, reason)).
  { intros reason Hbad. rewrite validate_tick_payload_rules.
    unfold validate_spec, validation_rules, rule_required_arrays, rule_positions,
      list_field.
    cbn [first_failure rule_object is_dict map key_is_array].
    rewrite Hp, Hm, Hh.
    rewrite (first_bad_element_at _ good rest bad reason 0%nat); [reflexivity| |exact Hbad].
    eapply Forall_impl; [|exact Hgood].
    intros row Hrow i. apply element_has_none_iff. exact Hrow. }
  split.
  - intros Hbad. apply Hat. destruct bad; try reflexivity. discriminate.
  - intros d -> Hticker. apply Hat. cbn [element_has]. unfold missing_field.
    cbn [map first_failure]. rewrite Hticker. reflexivity.
Qed.

(** X3.  The verdict depends on [Positions], [Market_Summary] and
    [market_history] only: other keys of the payload, such as [News], do
    not change it. *)
Theorem validate_ignores_other_keys (o o' : dict F) :
  agree_on ["Positions"; "Market_Summary"; "market_history"] o o' ->
  validate_tick_payload (JObj o) = validate_tick_payload (JObj o').
Proof.
  intros Hagree.
  inversion Hagree as [|? ? Hp Hagree1]; subst.
  inversion Hagree1 as [|? ? Hm Hagree2]; subst.
  inversion Hagree2 as [|? ? Hh _]; subst.
  rewrite !validate_tick_payload_rules. f_equal.
  unfold validate_spec, validation_rules, rule_required_arrays, rule_positions,
    rule_market_summary, rule_market_history, list_field.
  cbn [first_failure rule_object is_dict map key_is_array].
  rewrite Hp, Hm, Hh. reflexivity.
Qed.

End FurtherValidator.

(** ** The recommendation client *)

Section FurtherAi.
Context {F : Type} `{PyNum F}.

Local Open Scope list_scope.

Lemma try_except_same {A : Type} (r : res A) : try_except r r = r.
Proof. destruct r; reflexivity. Qed.

(** The fallback comprehension yields STAY trades only. *)
Lemma fallback_list_stays (ps : list (json F)) :
  exists tickers, fallback_list ps = map stay tickers
                  /\ (List.length tickers <= List.length ps)%nat.
Proof.
  induction ps as [|p rest (tickers & Heq & Hlen)].
  - exists []. split; [reflexivity|apply le_n].
  - cbn [fallback_list List.length].
    destruct p as [| | | | | |d];
      try (exists tickers; split; [exact Heq|apply le_S; exact Hlen]).
    destruct (dict_lookup "ticker" d) as [t|].
    + exists (t :: tickers). cbn [map List.length]. rewrite Heq.
      split; [reflexivity|apply le_n_S; exact Hlen].
    + exists tickers. split; [exact Heq|apply le_S; exact Hlen].
Qed.

(** X4.  With a credential, [get_trade_recommendations] on a validated payload
    returns the trades and the rationale of the first tool call of the
    first content item of the first output item, as they are, when its
    arguments decode to an object whose [trades] are a list (an absent
    [trades] counts as the empty list, an absent [rationale] as
    ["No rationale provided."]).  In every other case (the client cannot be
    built, the call raises, the reply has no output, no content, no tool
    call, arguments that do not decode or are not an object, trades that
    are not a list) and without a credential it returns the fallback. *)
Theorem get_trade_recommendations_uses_first_tool_call (API_KEY : option string)
    (ai : assistant F) (payload : json F) :
  validated payload ->
  get_trade_recommendations API_KEY ai payload =
  if no_credential API_KEY then _fallback_trades payload
  else
    match first_tool_call_advice ai with
    | Some (trades, rationale) =>
        inr (JObj [("trades", trades); ("rationale", rationale)])
    | None => _fallback_trades payload
    end.
Proof.
  intros Hv.
  destruct (_build_user_message_validated _ Hv) as [msg Hmsg].
  unfold get_trade_recommendations.
  destruct (no_credential API_KEY); [reflexivity|].
  destruct ai as [e|e|resp]; [reflexivity| |]; rewrite Hmsg; cbn [rbind].
  - reflexivity.
  - unfold read_response, first_tool_call_advice.
    destruct (output resp) as [|output_item outputs]; [reflexivity|]. cbn [first rbind].
    destruct (content output_item) as [|content_item contents]; [reflexivity|].
    cbn [first rbind].
    destruct (tool_calls content_item) as [|tool_call calls]; [apply try_except_same|].
    destruct (arguments tool_call) as [e|tool_args]; [reflexivity|]. cbn [rbind].
    destruct tool_args as [| | | | | |args]; try reflexivity.
    cbn [py_get].
    destruct (dict_lookup "trades" args) as [trades|];
      destruct (dict_lookup "rationale" args) as [rationale|]; cbn [rbind];
      try reflexivity;
      destruct trades; cbn [is_list negb]; try reflexivity; apply try_except_same.
Qed.

(** X5.  The message for the assistant is built from [Positions], [Prices] and
    [News]: storing a value under any other key of the payload, such as
    [Market_Summary] or [market_history], leaves the message as it was, and
    the fallback, which reads [Positions] only, too. *)
Theorem user_message_ignores_market_data (o : dict F) (key : string) (v : json F) :
  key <> "Positions"%string -> key <> "Prices"%string -> key <> "News"%string ->
  _build_user_message (JObj (dict_set key v o)) = _build_user_message (JObj o)
  /\ _fallback_trades (JObj (dict_set key v o)) = _fallback_trades (JObj o).
Proof.
  intros Hp Hr Hn.
  assert (Hother : forall k, key <> k ->
                             dict_lookup k (dict_set key v o) = dict_lookup k o).
  { intros k Hk. rewrite dict_lookup_set.
    destruct (String.eqb key k) eqn:E; [|reflexivity].
    apply String.eqb_eq in E. contradiction. }
  unfold _build_user_message, _fallback_trades. cbn [py_get].
  rewrite (Hother "Positions"%string Hp), (Hother "Prices"%string Hr),
    (Hother "News"%string Hn).
  split; reflexivity.
Qed.

(** X6.  Without a credential ([API_KEY] is [None] or the empty string) a
    tick never proposes a purchase or a sale: the list it posts, if it
    posts, and the decisions it returns are made of trades
    [{action: STAY, ticker: t, quantity: 0}] only. *)
Theorem no_credential_only_stays (API_KEY : option string) (ai : assistant F)
    (http : http_outcome F) (payload : json F) (tid : string) (w : world F) :
  API_KEY = None \/ API_KEY = Some ""%string ->
  let (w', r) := analyze_tick API_KEY ai http payload tid w in
  (posted (trace w') = posted (trace w)
   \/ exists tickers,
        posted (trace w') =
        posted (trace w)
        ++ [JList (map (fun t => JObj [("action", JStr "STAY");
                                       ("ticker", t);
                                       ("quantity", JInt 0)]) tickers)])
  /\ (forall result,
        r = inr result ->
        exists tickers,
          dict_lookup "decisions" result =
          Some (JList (map (fun t => JObj [("action", JStr "STAY");
                                           ("ticker", t);
                                           ("quantity", JInt 0)]) tickers))).
Proof.
  intros Hnone.
  assert (Hkey : no_credential API_KEY = true) by (destruct Hnone; subst; reflexivity).
  pose proof (analyze_tick_history API_KEY ai http payload tid w) as Hstep.
  destruct (analyze_tick API_KEY ai http payload tid w) as [w' r].
  destruct Hstep as [(_ & Hposted & e & ->)
                    |(trades & rationale & Hadvice & _ & Hposted & Hdec)].
  - split; [left; exact Hposted|discriminate].
  - assert (Hstay : exists tickers, trades = JList (map stay tickers)).
    { unfold tick_advice, get_trade_recommendations, _fallback_trades in Hadvice.
      rewrite Hkey in Hadvice.
      destruct (py_get payload "Positions" (JList [])) as [e|positions];
        cbn [rbind] in Hadvice; [discriminate|].
      destruct (py_iter positions) as [e|ps]; cbn [rbind] in Hadvice; [discriminate|].
      cbn [py_get dict_lookup String.eqb Ascii.eqb Bool.eqb rbind] in Hadvice.
      injection Hadvice as <- _.
      destruct (fallback_list_stays ps) as (tickers & -> & _).
      exists tickers. reflexivity. }
    destruct Hstay as [tickers ->].
    split.
    + right. exists tickers. exact Hposted.
    + intros result E. exists tickers. apply Hdec. exact E.
Qed.

End FurtherAi.

(** ** The tick processor *)

Section FurtherBusiness.
Context {F : Type} `{PyNum F}.

Local Open Scope list_scope.

Lemma py_eq_int_JInt (z n : Z) : py_eq_int (JInt z : json F) n = (z =? n).
Proof.
  unfold py_eq_int. cbn [py_hash xval_eqb].
  apply eq_true_iff_eq. rewrite Qeq_bool_iff, inject_Z_injective, Z.eqb_eq.
  reflexivity.
Qed.

Lemma dict_lookup_without (key k : string) (d : dict F) :
  dict_lookup k (filter (fun kv => negb (String.eqb (fst kv) key)) d) =
  if String.eqb k key then None else dict_lookup k d.
Proof.
  induction d as [|[k' v] rest IH]; cbn [filter dict_lookup fst].
  - destruct (String.eqb k key); reflexivity.
  - destruct (String.eqb k' key) eqn:E'; cbn [negb dict_lookup].
    + rewrite IH. destruct (String.eqb k key) eqn:E; [reflexivity|].
      destruct (String.eqb k' k) eqn:E''; [|reflexivity].
      apply String.eqb_eq in E''. subst k'. congruence.
    + destruct (String.eqb k' k) eqn:E''; [|exact IH].
      apply String.eqb_eq in E''. subst k'. rewrite E'. reflexivity.
Qed.

(** The reconciliation does nothing unless the status is 200 and the body
    has a [Positions] field. *)
Lemma reconcile_skips (ms : json F) (status_code : Z) (data : dict F) (w : world F) :
  status_code <> 200 \/ dict_lookup "Positions" data = None ->
  reconcile ms (dict_set "_http_status" (JInt status_code) data) w = (w, inr tt).
Proof.
  intros Hskip. unfold reconcile.
  rewrite dict_lookup_set, dict_mem_lookup, dict_lookup_set.
  cbn [String.eqb Ascii.eqb Bool.eqb]. rewrite py_eq_int_JInt.
  destruct Hskip as [Hstatus|Hnone].
  - apply Z.eqb_neq in Hstatus. rewrite Hstatus. reflexivity.
  - rewrite Hnone, andb_false_r. reflexivity.
Qed.

(** X7.  A response that is not a 200 with returned positions is data, not a
    failure: when the body is a JSON object or is not JSON at all, and the
    status is not 200 or the body has no [Positions] field, the tick
    returns its result with the observed status, the snapshot written at
    the start of the tick stays, and nothing is written after the post. *)
Theorem rejected_submission_is_reported (API_KEY : option string)
    (ai : assistant F) (payload : json F) (tid : string) (w : world F)
    (status_code : Z) (body : option (json F)) (data : dict F)
    (evaluated : Z) (total : F) (snapshot : list (json F))
    (trades rationale : json F) :
  tick_summary payload = inr (evaluated, total) ->
  tick_snapshot payload = inr snapshot ->
  tick_advice API_KEY ai payload = inr (trades, rationale) ->
  response_data status_code body = JObj data ->
  status_code <> 200 \/ dict_lookup "Positions" data = None ->
  exists w' result,
    analyze_tick API_KEY ai (HttpResponse status_code body) payload tid w
      = (w', inr result)
    /\ dict_lookup "http_status_mothership" result = Some (JInt status_code)
    /\ dict_lookup "decisions" result = Some trades
    /\ positions_file w' = Document (JList snapshot)
    /\ trace w' =
       trace w ++ [Wrote POSITIONS_FILE snapshot; Consulted;
                   Wrote TRADES_FILE
                     (read_list (trades_file w) ++ [trade_entry trades rationale]);
                   Posted tid trades].
Proof.
  intros Hsummary Hsnapshot Hadvice Hdata Hskip.
  rewrite analyze_tick_run, Hsummary, Hsnapshot, Hadvice. cbv zeta.
  rewrite Hdata. cbn [py_setitem]. rewrite (reconcile_skips _ _ _ _ Hskip).
  eexists _, _. split; [reflexivity|].
  split; [|split; [reflexivity|split; reflexivity]].
  unfold tick_result. cbn [dict_lookup String.eqb Ascii.eqb Bool.eqb].
  rewrite dict_lookup_set. reflexivity.
Qed.

(** X8.  In the result of a tick the remote body and the status are kept
    apart: [mothership_response] is the body without the key
    [_http_status] and with every other key as the endpoint sent it, and
    [http_status_mothership] is the status of the response, even when the
    body had an [_http_status] of its own. *)
Theorem result_separates_status (API_KEY : option string) (ai : assistant F)
    (payload : json F) (tid : string) (w w' : world F) (status_code : Z)
    (body : option (json F)) (result : dict F) :
  analyze_tick API_KEY ai (HttpResponse status_code body) payload tid w
    = (w', inr result) ->
  exists data response,
    response_data status_code body = JObj data
    /\ dict_lookup "mothership_response" result = Some (JObj response)
    /\ dict_lookup "_http_status" response = None
    /\ (forall key, key <> "_http_status"%string ->
                    dict_lookup key response = dict_lookup key data)
    /\ dict_lookup "http_status_mothership" result = Some (JInt status_code).
Proof.
  rewrite analyze_tick_run.
  destruct (tick_summary payload) as [e|[evaluated total]]; [discriminate|].
  destruct (tick_snapshot payload) as [e|snapshot]; [discriminate|].
  destruct (tick_advice API_KEY ai payload) as [e|[trades rationale]]; [discriminate|].
  cbv zeta.
  destruct (response_data status_code body) as [| | | | | |data]; try discriminate.
  cbn [py_setitem].
  destruct (reconcile _ _ _) as [w3 [e|u]]; [discriminate|].
  intros E. injection E as _ <-.
  exists data, (filter (fun kv => negb (String.eqb (fst kv) "_http_status"))
                       (dict_set "_http_status" (JInt status_code) data)).
  split; [reflexivity|]. split; [reflexivity|]. split; [|split].
  - rewrite dict_lookup_without. reflexivity.
  - intros key Hkey. rewrite dict_lookup_without, dict_lookup_set.
    destruct (String.eqb key "_http_status") eqn:E.
    + apply String.eqb_eq in E. contradiction.
    + rewrite String.eqb_sym, E. reflexivity.
  - unfold tick_result. cbn [dict_lookup String.eqb Ascii.eqb Bool.eqb].
    rewrite dict_lookup_set. reflexivity.
Qed.

(** X9.  What a tick does, it does in one order and once: it either changes
    nothing, or writes the snapshot and calls the recommendation client,
    or goes on to write the history and post the trades, or after that
    rewrites the snapshot.  It never posts before the history is written,
    never posts twice, and never touches the history after the post. *)
Theorem tick_effects_in_order (API_KEY : option string) (ai : assistant F)
    (http : http_outcome F) (payload : json F) (tid : string) (w : world F) :
  let w' := fst (analyze_tick API_KEY ai http payload tid w) in
  exists new,
    trace w' = trace w ++ new
    /\ tick_events new
    /\ (new = [] -> w' = w).
Proof.
  rewrite analyze_tick_run.
  destruct (tick_summary payload) as [e|[evaluated total]];
    [exists []; cbn [fst]; rewrite app_nil_r; repeat split; left; reflexivity|].
  destruct (tick_snapshot payload) as [e|snapshot];
    [exists []; cbn [fst]; rewrite app_nil_r; repeat split; left; reflexivity|].
  destruct (tick_advice API_KEY ai payload) as [e|[trades rationale]].
  - eexists. cbn [fst after_snapshot trace]. split; [reflexivity|].
    split; [|discriminate]. right. left. eexists. reflexivity.
  - assert (Hposted :
              exists new,
                trace (after_submission snapshot trades rationale tid w) = trace w ++ new
                /\ tick_events new /\ (new = [] ->
                                       after_submission snapshot trades rationale tid w = w)).
    { eexists. cbn [after_submission trace]. split; [reflexivity|].
      split; [|discriminate]. right. right. left. eexists _, _, _, _. reflexivity. }
    cbv zeta. destruct http as [e|status_code body]; [exact Hposted|].
    destruct (py_setitem _ "_http_status" (JInt status_code)) as [e|resp]; [exact Hposted|].
    destruct (reconcile_outcome (market_summary_of payload) resp
                (after_submission snapshot trades rationale tid w))
      as [[r E]|[merged E]]; rewrite E.
    + destruct r as [e|u]; exact Hposted.
    + eexists. cbn [fst after_submission trace]. rewrite <- app_assoc. cbn [app].
      split; [reflexivity|]. split; [|discriminate].
      right. right. right. eexists _, _, _, _, _. reflexivity.
Qed.

(** X14.  A tick that fails after the recommendation stage, for whatever reason
    (the post raises, the body is JSON but no object, a returned position
    cannot be read), has already written the history entry and posted the
    trades, and leaves the snapshot written at its start. *)
Theorem failure_after_advice_has_posted (API_KEY : option string)
    (ai : assistant F) (http : http_outcome F) (payload : json F) (tid : string)
    (w w' : world F) (e : exn) (summary : Z * F) (snapshot : list (json F))
    (trades rationale : json F) :
  tick_summary payload = inr summary ->
  tick_snapshot payload = inr snapshot ->
  tick_advice API_KEY ai payload = inr (trades, rationale) ->
  analyze_tick API_KEY ai http payload tid w = (w', inl e) ->
  positions_file w' = Document (JList snapshot)
  /\ trades_file w' =
     Document (JList (read_list (trades_file w) ++ [trade_entry trades rationale]))
  /\ trace w' =
     trace w ++ [Wrote POSITIONS_FILE snapshot; Consulted;
                 Wrote TRADES_FILE
                   (read_list (trades_file w) ++ [trade_entry trades rationale]);
                 Posted tid trades].
Proof.
  intros Hsummary Hsnapshot Hadvice.
  rewrite analyze_tick_run, Hsummary, Hsnapshot, Hadvice.
  destruct summary as [evaluated total]. cbv zeta.
  assert (Hdone : forall e0,
             (after_submission snapshot trades rationale tid w, @inl exn (dict F) e0)
             = (w', inl e) ->
             positions_file w' = Document (JList snapshot)
             /\ trades_file w' =
                Document (JList (read_list (trades_file w)
                                 ++ [trade_entry trades rationale]))
             /\ trace w' =
                trace w ++ [Wrote POSITIONS_FILE snapshot; Consulted;
                            Wrote TRADES_FILE
                              (read_list (trades_file w)
                               ++ [trade_entry trades rationale]);
                            Posted tid trades]).
  { intros e0 E. injection E as <- _. repeat split. }
  destruct http as [e0|status_code body]; [apply Hdone|].
  destruct (py_setitem _ "_http_status" (JInt status_code)) as [e0|resp]; [apply Hdone|].
  destruct (reconcile_outcome (market_summary_of payload) resp
              (after_submission snapshot trades rationale tid w))
    as [[r E]|[merged E]]; rewrite E.
  - destruct r as [e0|u]; [apply Hdone|discriminate].
  - discriminate.
Qed.

End FurtherBusiness.

(** ** The summary, the tester's oracle, the files *)

Section FurtherSummary.
Context {F : Type} `{PyNum F}.

Local Open Scope list_scope.
Local Open Scope res_scope.

Lemma pnl_loop_counts (rows : list (json F)) (d : prices) (ps : list (json F)) :
  (forall k, prices_get k d = last_row_price rows k) ->
  forall evaluated total evaluated' total',
    pnl_loop d ps evaluated total = inr (evaluated', total') ->
    evaluated' = evaluated + Z.of_nat (List.length (filter (quoted_in rows) ps)).
Proof.
  intros Hd. induction ps as [|pos rest IH]; intros evaluated total evaluated' total' Hrun.
  - cbn [pnl_loop] in Hrun. injection Hrun as <- _.
    cbn [filter List.length Z.of_nat]. lia.
  - rewrite pnl_loop_cons in Hrun. cbn [filter]. unfold quoted_in at 1.
    destruct (position_fields pos) as [e|[[[ticker qty] pp] k]]; cbn [rbind] in Hrun;
      [discriminate|].
    rewrite <- Hd. destruct (prices_get k d) as [current|].
    + destruct (Fof_Z qty) as [e|q]; cbn [rbind] in Hrun; [discriminate|].
      apply IH in Hrun. cbn [List.length]. lia.
    + apply IH in Hrun. exact Hrun.
Qed.

(** X10.  [positions_evaluated] is the number of positions whose ticker some
    row of [Market_Summary] has: never negative, never more than the
    number of positions. *)
Theorem positions_evaluated_counts_quoted (API_KEY : option string)
    (ai : assistant F) (http : http_outcome F) (o : dict F) (tid : string)
    (w w' : world F) (result : dict F) (ps rows : list (json F)) :
  dict_lookup "Positions" o = Some (JList ps) ->
  dict_lookup "Market_Summary" o = Some (JList rows) ->
  analyze_tick API_KEY ai http (JObj o) tid w = (w', inr result) ->
  let n := List.length (filter (quoted_in rows) ps) in
  (n <= List.length ps)%nat
  /\ exists total,
      dict_lookup "summary" result =
      Some (JObj [("positions_evaluated", JInt (Z.of_nat n));
                  ("unrealized_pnl", JFloat (Fround4 total))]).
Proof.
  intros Hps Hrows Hrun n. split; [apply filter_length_le|].
  destruct (analyze_tick_summary _ _ _ _ _ _ _ _ Hrun) as (evaluated & total & Hsum & Hres).
  exists total. rewrite Hres.
  unfold tick_summary in Hsum. cbn [py_get] in Hsum. rewrite Hps, Hrows in Hsum.
  cbn [rbind] in Hsum.
  destruct (price_by_ticker (JList rows)) as [e|d] eqn:Hd; cbn [rbind py_iter] in Hsum;
    [discriminate|].
  rewrite (pnl_loop_counts rows d ps
             (fun k => price_by_ticker_lookup (JList rows) rows d k eq_refl Hd)
             _ _ _ _ Hsum).
  reflexivity.
Qed.

Lemma expected_pnl_loop_agrees (d : prices) (ps : list (json F)) :
  Forall whole_quantity ps ->
  forall pnl x evaluated,
    expected_pnl_loop d ps pnl = inr x ->
    exists evaluated', pnl_loop d ps evaluated pnl = inr (evaluated', x).
Proof.
  induction 1 as [|pos rest [q Hq] _ IH]; intros pnl x evaluated Hrun.
  - cbn [expected_pnl_loop] in Hrun. injection Hrun as <-. eexists. reflexivity.
  - cbn [expected_pnl_loop pnl_loop] in *. rewrite Hq in *.
    destruct (py_getitem pos "ticker") as [e|ticker]; cbn [rbind] in *; [discriminate|].
    cbn [py_float py_int] in *.
    destruct (Fof_Z q) as [e|fq] eqn:Hfq; cbn [rbind] in *; [discriminate|].
    destruct (py_getitem pos "purchase_price") as [e|pp]; cbn [rbind] in *; [discriminate|].
    destruct (py_float pp) as [e|cost]; cbn [rbind] in *; [discriminate|].
    destruct (py_hash ticker) as [e|k]; cbn [rbind] in *; [discriminate|].
    destruct (prices_get k d) as [current|].
    + rewrite Hfq. cbn [rbind]. apply IH. exact Hrun.
    + apply IH. exact Hrun.
Qed.

(** X11.  The tester's oracle and the program agree when quantities are whole:
    on a payload whose positions all have a JSON integer as quantity,
    whenever [expected_pnl] of tester.py computes a value, [analyze_tick]'s
    sum before rounding is that value. *)
Theorem expected_pnl_agrees_on_whole_quantities (o : dict F) (ps : list (json F))
    (ms : json F) (x : F) :
  dict_lookup "Positions" o = Some (JList ps) ->
  dict_lookup "Market_Summary" o = Some ms ->
  Forall whole_quantity ps ->
  expected_pnl (JObj o) = inr x ->
  exists evaluated, tick_summary (JObj o) = inr (evaluated, x).
Proof.
  intros Hps Hms Hwhole Hexp.
  unfold expected_pnl, tick_summary in *. cbn [py_getitem py_get] in *.
  unfold dict_getitem in Hexp. rewrite Hps, Hms in *. cbn [rbind py_iter] in *.
  destruct (price_by_ticker ms) as [e|d]; cbn [rbind] in *; [discriminate|].
  apply expected_pnl_loop_agrees; assumption.
Qed.

(** X12.  When every position is quoted, all of them are counted and the sum is
    that of [(current - purchase_price) * int(quantity)] over the
    positions, added left to right from [0.0]; the quantity enters after
    [int()], that is truncated. *)
Theorem tick_summary_all_quoted (o : dict F) (ps rows : list (json F))
    (d : prices) (pnls : list F) :
  dict_lookup "Positions" o = Some (JList ps) ->
  dict_lookup "Market_Summary" o = Some (JList rows) ->
  price_by_ticker (JList rows) = inr d ->
  Forall2 (quoted_pnl d) ps pnls ->
  tick_summary (JObj o) = inr (Z.of_nat (List.length ps), fold_left Fadd pnls F0).
Proof.
  intros Hps Hrows Hd Hall.
  unfold tick_summary. cbn [py_get]. rewrite Hps, Hrows. cbn [rbind].
  rewrite Hd. cbn [rbind py_iter].
  rewrite (pnl_loop_all_quoted d ps pnls Hall). reflexivity.
Qed.

(** X13.  A file that is missing, that does not decode, or that holds anything
    but a JSON list reads as the empty list: the dashboard then shows no
    rows and does not raise, and the next history append leaves a history
    of exactly one entry, whatever the file held. *)
Theorem unreadable_files_read_as_empty (w : world F) (trades rationale : json F) :
  (forall l, trades_file w <> Document (JList l)) ->
  (exists positions, dashboard w = (w, inr (positions, [])))
  /\ trades_file (fst (_append_trade_log trades rationale w))
     = Document (JList [trade_entry trades rationale]).
Proof.
  intros Hbad.
  assert (Hread : read_list (trades_file w) = []).
  { destruct (trades_file w) as [| |[| | | | |l|]]; try reflexivity.
    exfalso. apply (Hbad l). reflexivity. }
  split.
  - eexists. unfold dashboard, load_dashboard_data, bind, _read_json_list, ret.
    cbn [read_file]. rewrite Hread. reflexivity.
  - unfold _append_trade_log, bind, _read_json_list, _write_json_list, bind.
    cbn [read_file store emit fst trades_file]. rewrite Hread. reflexivity.
Qed.

End FurtherSummary.

(** ** The routes and the key *)

Section FurtherApp.
Context {F : Type} `{PyNum F}.

Local Open Scope list_scope.

(** X15.  The gates of [/tick] stand before any effect.  Given the header,
    the content type and the value [request.get_json(silent=True)] has
    returned: the request is answered 401 exactly when the [apikey] header,
    stripped, is not the configured key; with the right key and a content
    type that is not JSON it is answered 400 for the content type; with
    the right key, a JSON content type and a body read as [None] it is
    answered 400 for malformed JSON; and a request answered 401 or 400
    leaves the files and the network untouched. *)
Theorem tick_gates_come_first (API_KEY : string) (AI_API_KEY : option string)
    (ai : assistant F) (http : http_outcome F) (req : request F) (w : world F) :
  let (w', r) := tick API_KEY AI_API_KEY ai http req w in
  (r = Unauthorized <-> String.eqb (strip (apikey req)) API_KEY = false)
  /\ (String.eqb (strip (apikey req)) API_KEY = true ->
      is_json req = false ->
      r = BadRequest "Invalid payload: Content-Type must be application/json")
  /\ (String.eqb (strip (apikey req)) API_KEY = true ->
      is_json req = true ->
      get_json req = None ->
      r = BadRequest "Invalid payload: malformed JSON")
  /\ (status r = 401 \/ status r = 400 -> w' = w).
Proof.
  unfold tick, require_apikey.
  destruct (String.eqb (strip (apikey req)) API_KEY); cbn [negb].
  2:{ repeat split; try discriminate; reflexivity. }
  destruct (is_json req); cbn [negb].
  2:{ repeat split; try discriminate; reflexivity. }
  destruct (get_json req) as [payload|].
  2:{ repeat split; try discriminate; reflexivity. }
  rewrite validate_tick_payload_rules.
  destruct (validate_spec payload) as [[|] msg].
  2:{ repeat split; discriminate. }
  destruct (analyze_tick AI_API_KEY ai http payload (trade_id req) w) as [w' [e|result]].
  - repeat split; try discriminate. intros [E|E]; discriminate E.
  - repeat split; try discriminate. intros [E|E]; discriminate E.
Qed.

(** X16.  The dict that [/tick] hands to [jsonify] for a 200 answer always
    has the same five keys and no other: the summary with both of its
    numbers, the decisions, the remote body, the remote status as an
    integer, and [result: "success"]; the defaults of [setdefault] for
    [summary] and [decisions] are never used.  The statement is about that
    dict (listed here as the program fills it), not about the order in
    which [jsonify] writes the keys of the body. *)
Theorem tick_success_body (API_KEY : string) (AI_API_KEY : option string)
    (ai : assistant F) (http : http_outcome F) (req : request F)
    (w : world F) (body : dict F) :
  snd (tick API_KEY AI_API_KEY ai http req w) = Success body ->
  exists evaluated total decisions response status_code,
    body = [("summary", JObj [("positions_evaluated", JInt evaluated);
                              ("unrealized_pnl", JFloat (Fround4 total))]);
            ("decisions", decisions);
            ("mothership_response", JObj response);
            ("http_status_mothership", JInt status_code);
            ("result", JStr "success")].
Proof.
  unfold tick.
  destruct (require_apikey API_KEY req); cbn [negb]; [|discriminate].
  destruct (is_json req); cbn [negb]; [|discriminate].
  destruct (get_json req) as [payload|]; [|discriminate].
  destruct (validate_tick_payload payload) as [e|[[|] msg]]; try discriminate.
  rewrite analyze_tick_run.
  destruct (tick_summary payload) as [e|[evaluated total]]; [discriminate|].
  destruct (tick_snapshot payload) as [e|snapshot]; [discriminate|].
  destruct (tick_advice AI_API_KEY ai payload) as [e|[trades rationale]]; [discriminate|].
  cbv zeta. destruct http as [e|status_code rbody]; [discriminate|].
  destruct (py_setitem _ "_http_status" (JInt status_code)) as [e|resp] eqn:Hset;
    [discriminate|].
  destruct (reconcile _ resp _) as [w3 [e|u]]; [discriminate|].
  cbn [snd]. intros E. injection E as <-.
  exists evaluated, total, trades,
    (filter (fun kv => negb (String.eqb (fst kv) "_http_status")) resp), status_code.
  assert (Hstatus : dict_lookup "_http_status" resp = Some (JInt status_code)).
  { destruct (response_data status_code rbody); try discriminate.
    cbn [py_setitem] in Hset. injection Hset as <-.
    rewrite dict_lookup_set. reflexivity. }
  unfold tick_result. rewrite Hstatus. reflexivity.
Qed.

Lemma lstrip_spaces (l s : string) :
  all_space l = true -> lstrip (l ++ s)%string = lstrip s.
Proof.
  induction l as [|c l IH]; cbn [all_space append lstrip]; intros Hl.
  - reflexivity.
  - apply andb_true_iff in Hl. destruct Hl as [Hc Hl]. rewrite Hc. apply IH. exact Hl.
Qed.

Lemma rstrip_all_space (r : string) : all_space r = true -> rstrip r = ""%string.
Proof.
  induction r as [|c r IH]; cbn [all_space rstrip]; intros Hr.
  - reflexivity.
  - apply andb_true_iff in Hr. destruct Hr as [Hc Hr]. rewrite (IH Hr), Hc. reflexivity.
Qed.

Lemma rstrip_spaces (s r : string) :
  all_space r = true -> rstrip (s ++ r)%string = rstrip s.
Proof.
  intros Hr. induction s as [|c s IH]; cbn [append rstrip].
  - apply rstrip_all_space. exact Hr.
  - rewrite IH. reflexivity.
Qed.

Lemma lstrip_all_space (l : string) : all_space l = true -> lstrip l = ""%string.
Proof.
  induction l as [|c l IH]; cbn [all_space lstrip]; intros Hl.
  - reflexivity.
  - apply andb_true_iff in Hl. destruct Hl as [Hc Hl]. rewrite Hc. apply IH. exact Hl.
Qed.

Lemma strip_right (s r : string) :
  all_space r = true -> strip (s ++ r)%string = strip s.
Proof.
  intros Hr. unfold strip. induction s as [|c s IH]; cbn [append lstrip].
  - rewrite (lstrip_all_space r Hr). reflexivity.
  - destruct (is_space c); [exact IH|].
    exact (rstrip_spaces (String c s) r Hr).
Qed.

(** Whitespace around a string does not survive [strip]. *)
Lemma strip_padding (l s r : string) :
  all_space l = true -> all_space r = true ->
  strip (l ++ s ++ r)%string = strip s.
Proof.
  intros Hl Hr. unfold strip. rewrite (lstrip_spaces l _ Hl).
  exact (strip_right s r Hr).
Qed.

Lemma rstrip_idempotent (s : string) : rstrip (rstrip s) = rstrip s.
Proof.
  induction s as [|c s IH]; cbn [rstrip].
  - reflexivity.
  - destruct (rstrip s) as [|c' kept] eqn:E.
    + destruct (is_space c) eqn:Hc; cbn [rstrip]; [reflexivity|]. rewrite Hc. reflexivity.
    + cbn [rstrip]. cbn [rstrip] in IH. rewrite IH. reflexivity.
Qed.

Lemma lstrip_rstrip_lstrip (s : string) : lstrip (rstrip (lstrip s)) = rstrip (lstrip s).
Proof.
  induction s as [|c s IH]; cbn [lstrip].
  - reflexivity.
  - destruct (is_space c) eqn:Hc; [exact IH|].
    cbn [rstrip]. destruct (rstrip s); rewrite ?Hc; cbn [lstrip]; rewrite Hc;
      reflexivity.
Qed.

Lemma strip_idempotent (s : string) : strip (strip s) = strip s.
Proof.
  unfold strip. rewrite lstrip_rstrip_lstrip. apply rstrip_idempotent.
Qed.

(** X17.  The key is compared up to surrounding whitespace on both sides.  With
    [API_KEY] set to a non-empty value in the environment, a request is
    let in by [/healthcheck] and by [/tick] exactly when its header,
    stripped, is that value, stripped: so the value itself authenticates,
    with any whitespace around it.  When the value is made of whitespace
    only, the configured key is empty and a request without the header is
    let in. *)
Theorem key_is_compared_stripped (raw : string) (req : request F) :
  raw <> ""%string ->
  (require_apikey (load_API_KEY (Some raw)) req = true
   <-> strip (apikey req) = strip raw)
  /\ (healthcheck (load_API_KEY (Some raw)) req = Unauthorized
      <-> require_apikey (load_API_KEY (Some raw)) req = false)
  /\ (forall l r (content_type_json : bool) (body : option (json F)) (tid : string),
        all_space l = true -> all_space r = true ->
        require_apikey (load_API_KEY (Some raw))
          {| apikey := (l ++ raw ++ r)%string; is_json := content_type_json;
             get_json := body; trade_id := tid |} = true)
  /\ (all_space raw = true ->
      forall (content_type_json : bool) (body : option (json F)) (tid : string),
        require_apikey (load_API_KEY (Some raw))
          {| apikey := ""%string; is_json := content_type_json;
             get_json := body; trade_id := tid |} = true).
Proof.
  intros Hraw.
  assert (Hkey : load_API_KEY (Some raw) = strip raw).
  { unfold load_API_KEY. destruct (String.eqb raw "") eqn:E; [|reflexivity].
    apply String.eqb_eq in E. contradiction. }
  rewrite Hkey. unfold require_apikey, healthcheck, require_apikey.
  split; [apply String.eqb_eq|]. split; [|split].
  - destruct (String.eqb (strip (apikey req)) (strip raw)); cbn [negb];
      split; congruence.
  - intros l r j g t Hl Hr. cbn [apikey].
    rewrite (strip_padding l raw r Hl Hr). apply String.eqb_refl.
  - intros Hspace j g t. cbn [apikey].
    unfold strip at 2. rewrite (lstrip_all_space raw Hspace). reflexivity.
Qed.

End FurtherApp.

(** ** The further properties on concrete inputs *)

(** X2 on a concrete input. *)
Lemma validate_reports_first_bad_position_witness :
  validate_tick_payload (JObj MoreExamples.second_is_number)
  = inr (false, "Positions[1] must be an object").
Proof.
  refine (proj1 (validate_reports_first_bad_position MoreExamples.second_is_number
                   [Examples.position "X" (JInt 10) (JInt 100)] [] [] [] (JInt 5)
                   eq_refl eq_refl eq_refl _) eq_refl).
  constructor; [|constructor].
  eexists. split; [reflexivity|]. repeat constructor; discriminate.
Defined.

(** X3 on a concrete input. *)
Lemma validate_ignores_other_keys_witness :
  validate_tick_payload (JObj MoreExamples.scenario_fields)
  = validate_tick_payload (JObj MoreExamples.with_news).
Proof.
  apply validate_ignores_other_keys.
  repeat constructor.
Defined.

(** X4 on a concrete input. *)
Lemma get_trade_recommendations_uses_first_tool_call_witness :
  get_trade_recommendations (Some "key") Examples.buys_one Examples.scenario
  = inr (JObj [("trades", JList [JObj [("action", JStr "BUY"); ("ticker", JStr "X");
                                       ("quantity", JInt 1)]]);
               ("rationale", JStr "momentum")]).
Proof.
  refine (eq_trans
            (get_trade_recommendations_uses_first_tool_call (Some "key")
               Examples.buys_one Examples.scenario _) eq_refl).
  exists "OK". reflexivity.
Defined.

(** X5 on a concrete input. *)
Lemma user_message_ignores_market_data_witness :
  _build_user_message
    (JObj (dict_set "Market_Summary" (JList []) MoreExamples.scenario_fields))
  = _build_user_message (JObj MoreExamples.scenario_fields).
Proof.
  refine (proj1 (user_message_ignores_market_data MoreExamples.scenario_fields
                   "Market_Summary" (JList []) _ _ _)); discriminate.
Defined.

(** X6 on a concrete input: an assistant that would buy is not asked. *)
Lemma no_credential_only_stays_witness :
  exists w' result,
    analyze_tick None Examples.buys_one Examples.accepted Examples.scenario "t"
      Examples.fresh = (w', inr result)
    /\ dict_lookup "decisions" result =
       Some (JList [JObj [("action", JStr "STAY"); ("ticker", JStr "X");
                          ("quantity", JInt 0)]])
    /\ exists tickers,
         dict_lookup "decisions" result =
         Some (JList (map (fun t => JObj [("action", JStr "STAY");
                                          ("ticker", t);
                                          ("quantity", JInt 0)]) tickers)).
Proof.
  pose proof (no_credential_only_stays None Examples.buys_one Examples.accepted
                Examples.scenario "t" Examples.fresh (or_introl eq_refl)) as Hstay.
  destruct (analyze_tick None Examples.buys_one Examples.accepted Examples.scenario "t"
              Examples.fresh) as [w' r] eqn:Hrun.
  vm_compute in Hrun. injection Hrun as <- <-.
  destruct Hstay as [_ Hdecisions].
  destruct (Hdecisions _ eq_refl) as [tickers Htickers].
  eexists _, _. split; [reflexivity|]. split; [reflexivity|].
  exists tickers. exact Htickers.
Defined.

(** X7 on a concrete input. *)
Lemma rejected_submission_is_reported_witness :
  exists w' result,
    analyze_tick None Examples.silent MoreExamples.server_error Examples.scenario "t"
      Examples.fresh = (w', inr result)
    /\ dict_lookup "http_status_mothership" result = Some (JInt 500)
    /\ positions_file w' = Document (JList Examples.scenario_snapshot).
Proof.
  destruct (rejected_submission_is_reported None Examples.silent
              Examples.scenario "t" Examples.fresh 500 None
              [("error", JStr "Non-JSON response from mothership (status 500)")]
              1 (100 # 1) Examples.scenario_snapshot
              Examples.scenario_stay (JStr fallback_rationale))
    as (w' & result & Hrun & Hstatus & _ & Hfile & _).
  - reflexivity.
  - reflexivity.
  - reflexivity.
  - reflexivity.
  - left. discriminate.
  - exists w', result. split; [exact Hrun|]. split; [exact Hstatus|exact Hfile].
Defined.

(** X8 on a concrete input. *)
Lemma result_separates_status_witness :
  exists w' result response,
    analyze_tick None Examples.silent MoreExamples.status_in_body Examples.scenario "t"
      Examples.fresh = (w', inr result)
    /\ dict_lookup "mothership_response" result = Some (JObj response)
    /\ dict_lookup "_http_status" response = None
    /\ dict_lookup "ok" response = Some (JBool true)
    /\ dict_lookup "http_status_mothership" result = Some (JInt 200).
Proof.
  destruct (analyze_tick None Examples.silent MoreExamples.status_in_body
              Examples.scenario "t" Examples.fresh) as [w' [e|result]] eqn:Hrun;
    [vm_compute in Hrun; discriminate|].
  destruct (result_separates_status None Examples.silent Examples.scenario "t"
              Examples.fresh w' 200
              (Some (JObj [("_http_status", JInt 7); ("ok", JBool true)]))
              result Hrun)
    as (data & response & Hdata & Hresponse & Hnone & Hkeys & Hstatus).
  exists w', result, response.
  split; [reflexivity|]. split; [exact Hresponse|]. split; [exact Hnone|].
  split; [|exact Hstatus].
  rewrite Hkeys; [|discriminate].
  cbn [response_data] in Hdata. injection Hdata as <-. reflexivity.
Defined.

(** X10 on a concrete input. *)
Lemma positions_evaluated_counts_quoted_witness :
  exists w' result total,
    analyze_tick None Examples.silent Examples.accepted Examples.quoted_twice "t"
      Examples.fresh = (w', inr result)
    /\ dict_lookup "summary" result =
       Some (JObj [("positions_evaluated", JInt 1);
                   ("unrealized_pnl", JFloat (Fround4 total))]).
Proof.
  destruct (analyze_tick None Examples.silent Examples.accepted Examples.quoted_twice
              "t" Examples.fresh) as [w' [e|result]] eqn:Hrun;
    [vm_compute in Hrun; discriminate|].
  destruct (positions_evaluated_counts_quoted None Examples.silent
              Examples.accepted MoreExamples.quoted_twice_fields "t" Examples.fresh
              w' result
              [Examples.position "X" (JInt 10) (JInt 100);
               Examples.position "Y" (JInt 5) (JInt 7)]
              [Examples.market_row "X" (JInt 110); Examples.market_row "X" (JInt 120)]
              eq_refl eq_refl Hrun) as (_ & total & Hsummary).
  exists w', result, total. split; [reflexivity|exact Hsummary].
Defined.

(** X11 on a concrete input. *)
Lemma expected_pnl_agrees_on_whole_quantities_witness :
  exists evaluated, tick_summary Examples.scenario = inr (evaluated, 100 # 1).
Proof.
  refine (expected_pnl_agrees_on_whole_quantities MoreExamples.scenario_fields
            [Examples.position "X" (JInt 10) (JInt 100)]
            (JList [Examples.market_row "X" (JInt 110)]) (100 # 1)
            eq_refl eq_refl _ _).
  - constructor; [|constructor]. exists 10. reflexivity.
  - reflexivity.
Defined.

(** X12 on a concrete input. *)
Lemma tick_summary_all_quoted_witness :
  tick_summary Examples.scenario = inr (1, 100 # 1).
Proof.
  refine (tick_summary_all_quoted MoreExamples.scenario_fields
            [Examples.position "X" (JInt 10) (JInt 100)]
            [Examples.market_row "X" (JInt 110)]
            [(KStr "X", 110 # 1)] [100 # 1] eq_refl eq_refl _ _).
  - reflexivity.
  - constructor; [|constructor].
    exists (JStr "X"), 10, (100 # 1), (KStr "X"), (110 # 1), (10 # 1).
    repeat split.
Defined.

(** X13 on a concrete input. *)
Lemma unreadable_files_read_as_empty_witness :
  trades_file (fst (_append_trade_log Examples.scenario_stay (JStr fallback_rationale)
                      Examples.fresh))
  = Document (JList [trade_entry Examples.scenario_stay (JStr fallback_rationale)]).
Proof.
  refine (proj2 (unreadable_files_read_as_empty Examples.fresh
                   Examples.scenario_stay (JStr fallback_rationale) _)).
  intros l. discriminate.
Defined.

(** X14 on a concrete input. *)
Lemma failure_after_advice_has_posted_witness :
  exists w',
    analyze_tick None Examples.silent (Examples.returns Examples.returned_incomplete)
      Examples.scenario "t" Examples.fresh = (w', inl KeyError)
    /\ positions_file w' = Document (JList Examples.scenario_snapshot)
    /\ posted (trace w') = [Examples.scenario_stay].
Proof.
  exists (after_submission Examples.scenario_snapshot Examples.scenario_stay
            (JStr fallback_rationale) "t" Examples.fresh).
  destruct (failure_after_advice_has_posted None Examples.silent
              (Examples.returns Examples.returned_incomplete) Examples.scenario "t"
              Examples.fresh
              (after_submission Examples.scenario_snapshot Examples.scenario_stay
                 (JStr fallback_rationale) "t" Examples.fresh)
              KeyError (1, 100 # 1) Examples.scenario_snapshot
              Examples.scenario_stay (JStr fallback_rationale))
    as (Hfile & _ & Htrace).
  - reflexivity.
  - reflexivity.
  - reflexivity.
  - reflexivity.
  - split; [reflexivity|]. split; [exact Hfile|]. rewrite Htrace. reflexivity.
Defined.

(** X15 on a concrete input: a wrong key is answered 401 and nothing is
    touched, although the payload is a good one. *)
Lemma tick_gates_come_first_witness :
  tick "secret" None Examples.silent Examples.accepted
    {| apikey := "guess"; is_json := true; get_json := Some Examples.scenario;
       trade_id := "t" |} Examples.fresh
  = (Examples.fresh, Unauthorized).
Proof.
  pose proof (tick_gates_come_first "secret" None Examples.silent Examples.accepted
                {| apikey := "guess"; is_json := true;
                   get_json := Some Examples.scenario; trade_id := "t" |}
                Examples.fresh) as Hgates.
  destruct (tick "secret" None Examples.silent Examples.accepted
              {| apikey := "guess"; is_json := true;
                 get_json := Some Examples.scenario; trade_id := "t" |}
              Examples.fresh) as [w' r].
  destruct Hgates as (Hauth & _ & _ & Hworld).
  assert (Hr : r = Unauthorized) by (apply Hauth; reflexivity).
  subst r. rewrite (Hworld (or_introl eq_refl)). reflexivity.
Defined.

(** X16 on a concrete input. *)
Lemma tick_success_body_witness :
  exists body evaluated total decisions response status_code,
    snd (tick "secret" None Examples.silent Examples.accepted
           (Examples.request_with Examples.scenario) Examples.fresh) = Success body
    /\ body = [("summary", JObj [("positions_evaluated", JInt evaluated);
                                 ("unrealized_pnl", JFloat (Fround4 total))]);
               ("decisions", decisions);
               ("mothership_response", JObj response);
               ("http_status_mothership", JInt status_code);
               ("result", JStr "success")]
    /\ dict_lookup "http_status_mothership" body = Some (JInt 200)
    /\ dict_lookup "result" body = Some (JStr "success").
Proof.
  destruct (snd (tick "secret" None Examples.silent Examples.accepted
                   (Examples.request_with Examples.scenario) Examples.fresh))
    as [| |body| |] eqn:Hrun; try (vm_compute in Hrun; discriminate).
  destruct (tick_success_body "secret" None Examples.silent Examples.accepted
              (Examples.request_with Examples.scenario) Examples.fresh body Hrun)
    as (evaluated & total & decisions & response & status_code & Hbody).
  exists body, evaluated, total, decisions, response, status_code.
  split; [reflexivity|]. split; [exact Hbody|].
  vm_compute in Hrun. injection Hrun as <-. split; reflexivity.
Defined.

(** X17 on a concrete input. *)
Lemma key_is_compared_stripped_witness :
  require_apikey (load_API_KEY (Some " secret"))
    (Examples.request_with Examples.scenario) = true.
Proof.
  refine (proj2 (proj1 (key_is_compared_stripped " secret"
                          (Examples.request_with Examples.scenario) _)) eq_refl).
  discriminate.
Defined.
